(** * getOCLStationData: the OCL (WOD98) station decoder of oclfilt

    A shallow embedding of getOCLStationData.c and of the declarations of
    ocl.h, with the properties of the decoder that the design document
    states about it.

    Conventions of the embedding.
    - A [FILE *] opened for reading is the list of the characters that are
      still unread; [fgetc] on the empty list is EOF.  [char] is signed, as
      gcc has it on x86: getIntDigits keeps the result of fgetc in a [char]
      before it compares it with EOF, so the byte 255 is taken for the end
      of the file.
    - [long int] and [int] values are integers of [Z].  A number that the
      decoder reads has at most nine digits, and the arithmetic on such
      numbers stays within [long int].  Where (long int)nan() takes part in
      it (a byte budget reduced by a length that is a missing value), the
      subtraction of the source can overflow; the embedding then holds the
      integer that the subtraction gives without the overflow.  The one
      conversion from [long int] to [int] (the digit count handed to
      getIntDigits) is written out as [int_of_long].
    - [double] is the binary64 type of the kernel ([PrimFloat.float]); the
      comparisons are the IEEE ones, false on a NaN.
    - A pointer parameter is passed as the value it points to and returned
      as the value stored through it.
    - [exit(1)] is the outcome [Exit].
    - What ISO C leaves to the platform is a field of [platform]: the value
      of [(long int)nan()], the content of an automatic variable that was
      never assigned, what is read past the end of stdLevelDepth, and the
      function [pow] of libm. *)

From Stdlib Require Import ZArith List Ascii String Bool Lia Floats.
Import ListNotations.
Local Open Scope Z_scope.

(** ** ocl.h *)

(** Exit statuses *)
Inductive status : Type :=
  | SUCCESSFUL
  | UNSPECIFIED_PROBLEM
  | ZERO_LENGTH_FIELD
  | SKIPPED
  | HELP_LISTING.

Definition status_code (s : status) : Z :=
  match s with
  | SUCCESSFUL => 0
  | UNSPECIFIED_PROBLEM => 1
  | ZERO_LENGTH_FIELD => 2
  | SKIPPED => 3
  | HELP_LISTING => 4
  end.

Definition status_eqb (a b : status) : bool := status_code a =? status_code b.

(** Constants *)
Definition MAX_VARS : Z := 10.
Definition MAX_LEVELS : Z := 6000.

(** ** The platform *)

Record platform : Type := {
  nan_as_long : Z;                (* (long int)nan() *)
  indeterminate : Z;              (* an unassigned automatic long int *)
  indeterminate_double : float;   (* a read past the end of stdLevelDepth *)
  pow : float -> float -> float   (* pow of libm *)
}.

(** ** Characters and streams *)

Definition stream : Type := list ascii.

Definition NUL : ascii := "000"%char.

(** The byte 255: the [char] that holds it is -1, which is EOF. *)
Definition xFF : ascii := "255"%char.
Definition LF : ascii := "010"%char.
Definition CR : ascii := "013"%char.

(** nextch=='\n' || nextch=='\r' *)
Definition is_newline (c : ascii) : bool := Ascii.eqb c LF || Ascii.eqb c CR.

Definition isdigit (c : ascii) : bool :=
  let n := Z.of_N (N_of_ascii c) in (48 <=? n) && (n <=? 57).

Definition digit_value (c : ascii) : Z := Z.of_N (N_of_ascii c) - 48.

(** isspace in the C locale *)
Definition isspace (c : ascii) : bool :=
  let n := Z.of_N (N_of_ascii c) in (n =? 32) || ((9 <=? n) && (n <=? 13)).

(** The content of a stretch of the stream: its characters that are not
    line terminators. *)
Definition content (s : stream) : list ascii :=
  filter (fun c => negb (is_newline c)) s.

Definition content_length (s : stream) : Z := Z.of_nat (List.length (content s)).

(** [int] is 32 bits wide: the conversion of a long int to int. *)
Definition int_of_long (z : Z) : Z := (z + 2 ^ 31) mod 2 ^ 32 - 2 ^ 31.

(** ** sscanf(valueStr, "%ld", value) *)

(** The string that a char buffer holds ends at its first NUL. *)
Fixpoint c_string (buf : list ascii) : list ascii :=
  match buf with
  | [] => []
  | c :: r => if Ascii.eqb c NUL then [] else c :: c_string r
  end.

Fixpoint skip_spaces (s : list ascii) : list ascii :=
  match s with
  | c :: r => if isspace c then skip_spaces r else s
  | [] => []
  end.

(** The decimal digits at the head of [s], folded into [acc]; the second
    component tells whether there was one. *)
Fixpoint scan_digits (s : list ascii) (acc : Z) (seen : bool) : Z * bool :=
  match s with
  | c :: r => if isdigit c then scan_digits r (10 * acc + digit_value c) true
              else (acc, seen)
  | [] => (acc, seen)
  end.

(** The conversion %ld: blanks, an optional sign, decimal digits.  [None] is
    the matching failure, which leaves the target as it was. *)
Definition scan_ld (s : list ascii) : option Z :=
  let s1 := skip_spaces s in
  let '(neg, s2) :=
    match s1 with
    | c :: r => if Ascii.eqb c "-"%char then (true, r)
                else if Ascii.eqb c "+"%char then (false, r)
                else (false, s1)
    | [] => (false, s1)
    end in
  match scan_digits s2 0 false with
  | (v, true) => Some (if neg then - v else v)
  | (_, false) => None
  end.

Definition sscanf_ld (valueStr : list ascii) (value : Z) : Z :=
  match scan_ld (c_string valueStr) with
  | Some v => v
  | None => value
  end.

(** ** The primitive field decoder *)

(** What a read of the input file gives: a result and the rest of the
    stream, or the unexpected end of file, on which the program exits. *)
Inductive reading (A : Type) : Type :=
  | Read (a : A) (rest : stream)
  | UnexpectedEOF.
Arguments Read {A} a rest.
Arguments UnexpectedEOF {A}.

(** The loop of getIntDigits, [for(i=0; i<numDigits; i++)]: a line
    terminator is read without being counted (the [i--] of the source),
    every other character is appended to [valueStr].  [nextch] is the last
    character read; it is a [char], so the test [nextch==EOF] holds at the
    end of the stream and on the byte 255.  [valueStr] is declared with 10
    bytes, enough for the nine digits that a one-digit length can announce
    and for the constant widths 1, 2 and 4 of the callers; the list here
    has no such bound. *)
Fixpoint getIntDigits_loop (fp : stream) (i numDigits : Z)
    (valueStr : list ascii) (nextch : ascii) {struct fp}
  : reading (list ascii * ascii) :=
  if i <? numDigits then
    match fp with
    | [] => UnexpectedEOF
    | c :: fp' =>
        if Ascii.eqb c xFF then UnexpectedEOF
        else if is_newline c then getIntDigits_loop fp' i numDigits valueStr c
        else getIntDigits_loop fp' (i + 1) numDigits (valueStr ++ [c]) c
    end
  else Read (valueStr, nextch) fp.

(** The loop of skipToNextStation: here the end of file is read like any
    other character that is not a line terminator, so the loop counts on
    without consuming anything. *)
Fixpoint skip_loop (fp : stream) (i bytesLeftInStation : Z) {struct fp} : stream :=
  if i <? bytesLeftInStation then
    match fp with
    | [] => []
    | c :: fp' =>
        if is_newline c then skip_loop fp' i bytesLeftInStation
        else skip_loop fp' (i + 1) bytesLeftInStation
    end
  else fp.

(** fgets(dummy, size, fp): at most size-1 characters, up to and including
    the first newline.  The line read and the rest of the stream. *)
Fixpoint fgets (size_minus_1 : nat) (fp : stream) : list ascii * stream :=
  match size_minus_1, fp with
  | S n, c :: fp' =>
      if Ascii.eqb c LF then ([c], fp')
      else let '(l, r) := fgets n fp' in (c :: l, r)
  | _, _ => ([], fp)
  end.

(** int skipToNextStation(FILE *fp, long int bytesLeftInStation); the status
    it returns is always SUCCESSFUL.  The final fgetc/ungetc pair leaves the
    unread characters as they are. *)
Definition skipToNextStation (fp : stream) (bytesLeftInStation : Z) : stream :=
  snd (fgets 79 (skip_loop fp 0 bytesLeftInStation)).

(** (double)z for a long int z *)
Definition double_of_long (z : Z) : float :=
  SF2Prim (binary_normalize prec emax z 0 false).

(** double nan(): sqrt(-1/x) with x=0 *)
Definition nan : float := PrimFloat.sqrt (PrimFloat.div (-1)%float 0%float).

(** A counted loop [for(j=0; j<n; j++)] over an accumulator. *)
Fixpoint for_range {A : Type} (n : nat) (j : Z) (body : Z -> A -> A) (a : A) : A :=
  match n with
  | O => a
  | S n' => for_range n' (j + 1) body (body j a)
  end.

(** int checkVarsInclAndNoErrors(long int *varRequestedList,
      long int *varCodeList, long int *errCodeList,
      long int numVarsRequested, long int numVarCodes);
    the accumulator is (numMatch, applicableErrorFlags). *)
Definition checkVarsInclAndNoErrors (varRequestedList varCodeList errCodeList : Z -> Z)
    (numVarsRequested numVarCodes : Z) : Z :=
  let '(numMatch, applicableErrorFlags) :=
    for_range (Z.to_nat numVarsRequested) 0 (fun j acc =>
      for_range (Z.to_nat numVarCodes) 0 (fun k acc =>
        if varCodeList k =? varRequestedList j then
          (fst acc + 1, if 0 <? errCodeList k then snd acc + 1 else snd acc)
        else acc) acc) (0, 0) in
  if (numVarsRequested <=? numMatch) && (applicableErrorFlags =? 0) then 1 else 0.

(** int zeroLatLonOkay(char *wmoSquare, char *latlon) *)
Definition zeroLatLonOkay (wmoSquare : list ascii) (latlon : string) : Z :=
  if String.eqb latlon "lat" && Ascii.eqb (nth 1 wmoSquare NUL) "0"%char then 1
  else if String.eqb latlon "lon" && Ascii.eqb (nth 2 wmoSquare NUL) "0"%char
          && Ascii.eqb (nth 3 wmoSquare NUL) "0"%char then 1
  else 0.

(** ** The station structure of ocl.h

    OCLStationType groups its members by type here: a member is read and
    written through its name in one of the enumerations below.  An array
    member is a function of the index; the capacity that ocl.h declares for
    it (MAX_VARS, MAX_LEVELS) is not part of the function, so a store at an
    index beyond the capacity is visible as such.  It does not reach the
    members that lie after the array, as it does in C, and a read beyond
    the capacity finds what the function holds there: the properties that
    depend on what the members hold after such a store or read are stated
    for stations within the capacity ([within_capacity], and a number of
    levels of at most MAX_LEVELS). *)

Inductive long_member : Type :=
  | stationNumber | bytesLeftInStation | bytesInStation | oclStationNumber
  | countryCode | cruiseNumber | year | month | day | numberOfLevels
  | stationType | numberOfVarCodes | bytesInCharPI | bytesInSecHdr
  | numberOfSecHdrEntries | bytesInBioHdr.

Inductive long_array : Type :=
  | varCode | errCodeForVarCode | secHdrCode | errCodeForDepthValue.

Inductive double_member : Type := time | lat | lon | dbBathy.

Inductive double_array : Type := secHdrValue | depthValue.

Inductive int_member : Type :=
  | varListChecksOut | badLatLon | latlonInRange | monthInRange | yearInRange
  | enoughProfileLevels.

Definition long_member_tag (f : long_member) : Z :=
  match f with
  | stationNumber => 0 | bytesLeftInStation => 1 | bytesInStation => 2
  | oclStationNumber => 3 | countryCode => 4 | cruiseNumber => 5 | year => 6
  | month => 7 | day => 8 | numberOfLevels => 9 | stationType => 10
  | numberOfVarCodes => 11 | bytesInCharPI => 12 | bytesInSecHdr => 13
  | numberOfSecHdrEntries => 14 | bytesInBioHdr => 15
  end.

Definition long_array_tag (a : long_array) : Z :=
  match a with
  | varCode => 0 | errCodeForVarCode => 1 | secHdrCode => 2
  | errCodeForDepthValue => 3
  end.

Definition double_member_tag (f : double_member) : Z :=
  match f with time => 0 | lat => 1 | lon => 2 | dbBathy => 3 end.

Definition double_array_tag (a : double_array) : Z :=
  match a with secHdrValue => 0 | depthValue => 1 end.

Definition int_member_tag (f : int_member) : Z :=
  match f with
  | varListChecksOut => 0 | badLatLon => 1 | latlonInRange => 2
  | monthInRange => 3 | yearInRange => 4 | enoughProfileLevels => 5
  end.

(** The objects that a [long int *] of the decoder points to: a member of
    the station, an element of one of its arrays, or the local ld_dummy. *)
Inductive long_ptr : Type :=
  | LongMember (f : long_member)
  | LongElem (a : long_array) (j : Z)
  | ErrCodeForVarValue (k j : Z)
  | Local_ld_dummy.

(** The objects that a [double *] points to; the last one is the static
    databaseBathyValue of getOCLStationData. *)
Inductive double_ptr : Type :=
  | DoubleMember (f : double_member)
  | DoubleElem (a : double_array) (j : Z)
  | VarValue (k j : Z)
  | Static_databaseBathyValue.

Record OCLStationType : Type := {
  long_members : long_member -> Z;
  long_arrays : long_array -> Z -> Z;
  errCodeForVarValue : Z -> Z -> Z;
  double_members : double_member -> float;
  double_arrays : double_array -> Z -> float;
  varValue : Z -> Z -> float;
  bottomDepthPtr : option double_ptr;      (* None is NULL *)
  bottomDepthSource : ascii;
  int_members : int_member -> Z
}.

(** ** The arguments of getOCLStationData

    fp_in, stnData and fp_dbBathy are part of the state below. *)
Record arguments : Type := {
  stn : Z;
  wantProfileFlag : Z;
  skipFlag : Z;
  stnToSkipTo : Z;
  varListFlag : Z;
  varList : Z -> Z;
  numVarsOnVarList : Z;
  minLevelsFlag : Z;
  minLevels : Z;
  latlonRegionFlag : Z;
  latlonRegion : Z -> float;
  yearRangeFlag : Z;
  yearRange : Z -> Z;
  monthRangeFlag : Z;
  monthRange : Z -> Z;
  dbBathyFlag : Z;
  zeroLatLonFlag : Z;
  wmoSquare : list ascii
}.

(** ** The state of a run *)

(** One line of the bathymetry file, as the conversion
    "%lf %lf %ld %lf\n" of fscanf reads it: longitude, latitude, station
    number and depth (negative down).  The file is the list of its lines. *)
Record bathy_line : Type := {
  bathy_lon : float;
  bathy_lat : float;
  bathy_stn : Z;
  bathy_depth : float
}.

(** What the decoder writes to stderr. *)
Inductive diagnostic : Type :=
  | unexpected_EOF
  | numLevels_exceeds_MAX_LEVELS (stn numLevels max_levels : Z)
  | botDepth_might_be_wrong.

(** The steps of a run, for the statements about them: the calls of the
    field decoders by getOCLStationData, each with the object that receives
    the value and, for the fields of variable length and for the skip, with
    the stream and the byte budget that the call starts from; and the
    iterations of the loop over the profile levels.  The decoder never reads
    this record. *)
Inductive step : Type :=
  | Call_getIntDigits (numDigits : Z) (value : long_ptr)
  | Call_getVarlenIntField (value : long_ptr) (fp : stream) (bytesLeft : Z)
  | Call_getVarlenFloatField (value : double_ptr) (fp : stream) (bytesLeft : Z)
  | Call_skipToNextStation (fp : stream) (bytesLeft : Z)
  | Profile_level (j : Z).

Record state : Type := {
  fp_in : stream;
  fp_dbBathy : list bathy_line;
  databaseBathyValue : float;
  stderr : list diagnostic;
  stnData : OCLStationType;
  steps : list step
}.

Definition set_fp_in (v : stream) (s : state) : state :=
  {| fp_in := v; fp_dbBathy := fp_dbBathy s;
     databaseBathyValue := databaseBathyValue s; stderr := stderr s;
     stnData := stnData s; steps := steps s |}.

Definition set_fp_dbBathy (v : list bathy_line) (s : state) : state :=
  {| fp_in := fp_in s; fp_dbBathy := v;
     databaseBathyValue := databaseBathyValue s; stderr := stderr s;
     stnData := stnData s; steps := steps s |}.

Definition set_databaseBathyValue (v : float) (s : state) : state :=
  {| fp_in := fp_in s; fp_dbBathy := fp_dbBathy s;
     databaseBathyValue := v; stderr := stderr s;
     stnData := stnData s; steps := steps s |}.

Definition set_stderr (v : list diagnostic) (s : state) : state :=
  {| fp_in := fp_in s; fp_dbBathy := fp_dbBathy s;
     databaseBathyValue := databaseBathyValue s; stderr := v;
     stnData := stnData s; steps := steps s |}.

Definition set_stnData (v : OCLStationType) (s : state) : state :=
  {| fp_in := fp_in s; fp_dbBathy := fp_dbBathy s;
     databaseBathyValue := databaseBathyValue s; stderr := stderr s;
     stnData := v; steps := steps s |}.

Definition set_steps (v : list step) (s : state) : state :=
  {| fp_in := fp_in s; fp_dbBathy := fp_dbBathy s;
     databaseBathyValue := databaseBathyValue s; stderr := stderr s;
     stnData := stnData s; steps := v |}.

(** Loads and stores through the members of the station. *)
Definition long_of (f : long_member) (s : state) : Z := long_members (stnData s) f.

Definition long_at (a : long_array) (j : Z) (s : state) : Z :=
  long_arrays (stnData s) a j.

Definition double_of (f : double_member) (s : state) : float :=
  double_members (stnData s) f.

Definition double_at (a : double_array) (j : Z) (s : state) : float :=
  double_arrays (stnData s) a j.

Definition int_of (f : int_member) (s : state) : Z := int_members (stnData s) f.

Definition set_long_members (v : long_member -> Z) (d : OCLStationType) :=
  {| long_members := v; long_arrays := long_arrays d;
     errCodeForVarValue := errCodeForVarValue d;
     double_members := double_members d; double_arrays := double_arrays d;
     varValue := varValue d; bottomDepthPtr := bottomDepthPtr d;
     bottomDepthSource := bottomDepthSource d; int_members := int_members d |}.

Definition set_long_arrays (v : long_array -> Z -> Z) (d : OCLStationType) :=
  {| long_members := long_members d; long_arrays := v;
     errCodeForVarValue := errCodeForVarValue d;
     double_members := double_members d; double_arrays := double_arrays d;
     varValue := varValue d; bottomDepthPtr := bottomDepthPtr d;
     bottomDepthSource := bottomDepthSource d; int_members := int_members d |}.

Definition set_errCodeForVarValue (v : Z -> Z -> Z) (d : OCLStationType) :=
  {| long_members := long_members d; long_arrays := long_arrays d;
     errCodeForVarValue := v;
     double_members := double_members d; double_arrays := double_arrays d;
     varValue := varValue d; bottomDepthPtr := bottomDepthPtr d;
     bottomDepthSource := bottomDepthSource d; int_members := int_members d |}.

Definition set_double_members (v : double_member -> float) (d : OCLStationType) :=
  {| long_members := long_members d; long_arrays := long_arrays d;
     errCodeForVarValue := errCodeForVarValue d;
     double_members := v; double_arrays := double_arrays d;
     varValue := varValue d; bottomDepthPtr := bottomDepthPtr d;
     bottomDepthSource := bottomDepthSource d; int_members := int_members d |}.

Definition set_double_arrays (v : double_array -> Z -> float) (d : OCLStationType) :=
  {| long_members := long_members d; long_arrays := long_arrays d;
     errCodeForVarValue := errCodeForVarValue d;
     double_members := double_members d; double_arrays := v;
     varValue := varValue d; bottomDepthPtr := bottomDepthPtr d;
     bottomDepthSource := bottomDepthSource d; int_members := int_members d |}.

Definition set_varValue (v : Z -> Z -> float) (d : OCLStationType) :=
  {| long_members := long_members d; long_arrays := long_arrays d;
     errCodeForVarValue := errCodeForVarValue d;
     double_members := double_members d; double_arrays := double_arrays d;
     varValue := v; bottomDepthPtr := bottomDepthPtr d;
     bottomDepthSource := bottomDepthSource d; int_members := int_members d |}.

Definition set_bottomDepth (p : option double_ptr) (src : ascii) (d : OCLStationType) :=
  {| long_members := long_members d; long_arrays := long_arrays d;
     errCodeForVarValue := errCodeForVarValue d;
     double_members := double_members d; double_arrays := double_arrays d;
     varValue := varValue d; bottomDepthPtr := p;
     bottomDepthSource := src; int_members := int_members d |}.

Definition set_int_members (v : int_member -> Z) (d : OCLStationType) :=
  {| long_members := long_members d; long_arrays := long_arrays d;
     errCodeForVarValue := errCodeForVarValue d;
     double_members := double_members d; double_arrays := double_arrays d;
     varValue := varValue d; bottomDepthPtr := bottomDepthPtr d;
     bottomDepthSource := bottomDepthSource d; int_members := v |}.

(** [upd eqb x v f] is [f] with the value [v] at [x]. *)
Definition upd {K V : Type} (tag : K -> Z) (x : K) (v : V) (f : K -> V) : K -> V :=
  fun y => if tag y =? tag x then v else f y.

Definition store_long_member (f : long_member) (v : Z) (s : state) : state :=
  set_stnData (set_long_members (upd long_member_tag f v (long_members (stnData s)))
                 (stnData s)) s.

Definition store_int_member (f : int_member) (v : Z) (s : state) : state :=
  set_stnData (set_int_members (upd int_member_tag f v (int_members (stnData s)))
                 (stnData s)) s.

(** ** Runs *)

Inductive outcome (A : Type) : Type :=
  | Ret (a : A) (s : state)
  | Exit (err : list diagnostic).      (* exit(1), with what stderr holds *)
Arguments Ret {A} a s.
Arguments Exit {A} err.

Definition M (A : Type) : Type := state -> outcome A.

Definition ret {A : Type} (a : A) : M A := fun s => Ret a s.

Definition bind {A B : Type} (m : M A) (k : A -> M B) : M B :=
  fun s => match m s with
           | Ret a s' => k a s'
           | Exit err => Exit err
           end.

Notation "x <- m ;; k" := (bind m (fun x => k))
  (at level 100, m at next level, right associativity).
Notation "m ;; k" := (bind m (fun _ => k))
  (at level 100, right associativity).

Definition get : M state := fun s => Ret s s.
Definition modify (f : state -> state) : M unit := fun s => Ret tt (f s).

(** A test of a C condition: any value but 0 is true. *)
Definition truth (z : Z) : bool := negb (z =? 0).

(** [for(j=j0; j<j0+n; j++) body] *)
Fixpoint for_upto (n : nat) (j : Z) (body : Z -> M unit) : M unit :=
  match n with
  | O => ret tt
  | S n' => body j ;; for_upto n' (j + 1) body
  end.

(** [for(; cond; j++) body], for a condition that fails after at most
    [fuel] iterations. *)
Fixpoint for_while (fuel : nat) (cond : Z -> state -> bool) (j : Z)
    (body : Z -> M unit) : M unit :=
  match fuel with
  | O => ret tt
  | S fuel' =>
      fun s => if cond j s then (body j ;; for_while fuel' cond (j + 1) body) s
               else Ret tt s
  end.

Section Decoder.

Variable pf : platform.

(** int getIntDigits(FILE *fp, int numDigits, long int *value) *)
Definition getIntDigits (fp : stream) (numDigits : Z) (value : Z)
  : reading (status * Z) :=
  match getIntDigits_loop fp 0 numDigits [] NUL with
  | UnexpectedEOF => UnexpectedEOF
  | Read (valueStr, nextch) fp' =>
      if (0 <? numDigits) && isdigit nextch then
        Read (SUCCESSFUL, sscanf_ld valueStr value) fp'
      else if (numDigits =? 0) || ((numDigits =? 1) && Ascii.eqb nextch "-"%char) then
        Read (ZERO_LENGTH_FIELD, nan_as_long pf) fp'
      else
        Read (UNSPECIFIED_PROBLEM, value) fp'
  end.

(** int getVarlenIntField(FILE *fp, long int *value,
      long int *bytesLeftInStation); the result is the status with the
    values left in *value and *bytesLeftInStation. *)
Definition getVarlenIntField (fp : stream) (value bytesLeftInStation : Z)
  : reading (status * Z * Z) :=
  match getIntDigits fp 1 (indeterminate pf) with
  | UnexpectedEOF => UnexpectedEOF
  | Read (_, bytesInNextField) fp1 =>
      let bytesLeftInStation := bytesLeftInStation - 1 in
      match getIntDigits fp1 (int_of_long bytesInNextField) value with
      | UnexpectedEOF => UnexpectedEOF
      | Read (ZERO_LENGTH_FIELD, _) fp2 =>
          Read (ZERO_LENGTH_FIELD, nan_as_long pf, bytesLeftInStation) fp2
      | Read (_, value) fp2 =>
          if bytesLeftInStation <? 0 then
            Read (SUCCESSFUL, value, value - bytesInNextField - 1) fp2
          else
            Read (SUCCESSFUL, value, bytesLeftInStation - bytesInNextField) fp2
      end
  end.

(** int getVarlenFloatField(FILE *fp, double *value,
      long int *bytesLeftInStation) *)
Definition getVarlenFloatField (fp : stream) (value : float) (bytesLeftInStation : Z)
  : reading (status * float * Z) :=
  match getIntDigits fp 1 (indeterminate pf) with
  | UnexpectedEOF => UnexpectedEOF
  | Read (SUCCESSFUL, sigDigits) fp1 =>
      let bytesLeftInStation := bytesLeftInStation - 1 in
      match getIntDigits fp1 1 (indeterminate pf) with
      | UnexpectedEOF => UnexpectedEOF
      | Read (_, totalDigits) fp2 =>
          let bytesLeftInStation := bytesLeftInStation - 1 in
          match getIntDigits fp2 1 (indeterminate pf) with
          | UnexpectedEOF => UnexpectedEOF
          | Read (_, precision) fp3 =>
              let bytesLeftInStation := bytesLeftInStation - 1 in
              match getIntDigits fp3 (int_of_long totalDigits) (indeterminate pf) with
              | UnexpectedEOF => UnexpectedEOF
              | Read (_, intvalue) fp4 =>
                  let bytesLeftInStation := bytesLeftInStation - totalDigits in
                  Read (SUCCESSFUL,
                        PrimFloat.div (double_of_long intvalue)
                          (pow pf 10%float (double_of_long precision)),
                        bytesLeftInStation) fp4
              end
          end
      end
  | Read (ZERO_LENGTH_FIELD, _) fp1 =>
      Read (ZERO_LENGTH_FIELD, nan, bytesLeftInStation - 1) fp1
  | Read (status, _) fp1 =>
      Read (status, value, bytesLeftInStation - 1) fp1
  end.

(** *** Loads and stores through pointers *)

Definition load_long (p : long_ptr) (s : state) : Z :=
  match p with
  | LongMember f => long_of f s
  | LongElem a j => long_at a j s
  | ErrCodeForVarValue k j => errCodeForVarValue (stnData s) k j
  | Local_ld_dummy => indeterminate pf
  end.

Definition store_long (p : long_ptr) (v : Z) (s : state) : state :=
  match p with
  | LongMember f => store_long_member f v s
  | LongElem a j =>
      set_stnData (set_long_arrays
        (upd long_array_tag a (upd id j v (long_arrays (stnData s) a))
           (long_arrays (stnData s))) (stnData s)) s
  | ErrCodeForVarValue k j =>
      set_stnData (set_errCodeForVarValue
        (upd id k (upd id j v (errCodeForVarValue (stnData s) k))
           (errCodeForVarValue (stnData s))) (stnData s)) s
  | Local_ld_dummy => s
  end.

Definition load_double (p : double_ptr) (s : state) : float :=
  match p with
  | DoubleMember f => double_of f s
  | DoubleElem a j => double_at a j s
  | VarValue k j => varValue (stnData s) k j
  | Static_databaseBathyValue => databaseBathyValue s
  end.

Definition store_double (p : double_ptr) (v : float) (s : state) : state :=
  match p with
  | DoubleMember f =>
      set_stnData (set_double_members
        (upd double_member_tag f v (double_members (stnData s))) (stnData s)) s
  | DoubleElem a j =>
      set_stnData (set_double_arrays
        (upd double_array_tag a (upd id j v (double_arrays (stnData s) a))
           (double_arrays (stnData s))) (stnData s)) s
  | VarValue k j =>
      set_stnData (set_varValue
        (upd id k (upd id j v (varValue (stnData s) k))
           (varValue (stnData s))) (stnData s)) s
  | Static_databaseBathyValue => set_databaseBathyValue v s
  end.

Definition store_bottomDepth (p : option double_ptr) (src : ascii) (s : state) : state :=
  set_stnData (set_bottomDepth p src (stnData s)) s.

(** *(stnData->bottomDepthPtr); the source dereferences the pointer only
    where it is not NULL. *)
Definition bottomDepth (s : state) : float :=
  match bottomDepthPtr (stnData s) with
  | Some p => load_double p s
  | None => indeterminate_double pf
  end.

Definition record_step (e : step) (s : state) : state :=
  set_steps (steps s ++ [e]) s.

(** *** The calls of the field decoders *)

(** getIntDigits(fp_in, numDigits, value) *)
Definition call_getIntDigits (numDigits : Z) (value : long_ptr) : M status :=
  fun s =>
    match getIntDigits (fp_in s) numDigits (load_long value s) with
    | UnexpectedEOF => Exit (stderr s ++ [unexpected_EOF])
    | Read (st, v) fp' =>
        Ret st (record_step (Call_getIntDigits numDigits value)
                  (store_long value v (set_fp_in fp' s)))
    end.

(** getVarlenIntField(fp_in, value, &(stnData->bytesLeftInStation)) *)
Definition call_getVarlenIntField (value : long_ptr) : M status :=
  fun s =>
    match getVarlenIntField (fp_in s) (load_long value s)
            (long_of bytesLeftInStation s) with
    | UnexpectedEOF => Exit (stderr s ++ [unexpected_EOF])
    | Read (st, v, b) fp' =>
        Ret st (record_step
                  (Call_getVarlenIntField value (fp_in s) (long_of bytesLeftInStation s))
                  (store_long_member bytesLeftInStation b
                     (store_long value v (set_fp_in fp' s))))
    end.

(** getVarlenFloatField(fp_in, value, &(stnData->bytesLeftInStation)) *)
Definition call_getVarlenFloatField (value : double_ptr) : M status :=
  fun s =>
    match getVarlenFloatField (fp_in s) (load_double value s)
            (long_of bytesLeftInStation s) with
    | UnexpectedEOF => Exit (stderr s ++ [unexpected_EOF])
    | Read (st, v, b) fp' =>
        Ret st (record_step
                  (Call_getVarlenFloatField value (fp_in s) (long_of bytesLeftInStation s))
                  (store_long_member bytesLeftInStation b
                     (store_double value v (set_fp_in fp' s))))
    end.

(** skipToNextStation(fp_in, stnData->bytesLeftInStation) *)
Definition call_skipToNextStation : M unit :=
  modify (fun s =>
    record_step (Call_skipToNextStation (fp_in s) (long_of bytesLeftInStation s))
      (set_fp_in (skipToNextStation (fp_in s) (long_of bytesLeftInStation s)) s)).

(** stnData->bytesLeftInStation-=n *)
Definition decrement_bytesLeftInStation (n : Z) : M unit :=
  modify (fun s => store_long_member bytesLeftInStation
                     (long_of bytesLeftInStation s - n) s).

(** fscanf(fp_dbBathy, "%lf %lf %ld %lf\n", ...): one line of the
    bathymetry file, if there is one left.  [keep] tells whether the last
    conversion goes to databaseBathyValue or to lf_dummy. *)
Definition fscanf_dbBathy (keep : bool) : M unit :=
  modify (fun s =>
    match fp_dbBathy s with
    | [] => s
    | l :: rest =>
        let s' := set_fp_dbBathy rest s in
        if keep then set_databaseBathyValue (bathy_depth l) s' else s'
    end).

Definition fprintf_stderr (d : diagnostic) : M unit :=
  modify (fun s => set_stderr (stderr s ++ [d]) s).

(** double stdLevelDepth[] *)
Definition stdLevelDepth : list float :=
  [0; 10; 20; 30; 50; 75; 100; 125; 150; 200; 250;
   300; 400; 500; 600; 700; 800; 900; 1000; 1100; 1200; 1300; 1400; 1500;
   1750; 2000; 2500; 3000; 3500; 4000; 4500; 5000; 5500; 6000; 6500; 7000;
   7500; 8000; 8500; 9000]%float.

(** ** getOCLStationData

    The body of the function, section by section as its comments divide
    it.  [a] holds the arguments. *)

Section Station.

Variable a : arguments.

(** if( call == ZERO_LENGTH_FIELD ) member=v; *)
Definition if_zero_length (st : status) (f : long_member) (v : Z) : M unit :=
  if status_eqb st ZERO_LENGTH_FIELD then modify (store_long_member f v)
  else ret tt.

(** The first two fields of the station: its size and its number. *)
Definition read_station_size : M unit :=
  modify (store_long_member bytesLeftInStation (-1));;
  st <- call_getVarlenIntField (LongMember bytesInStation);;
  if_zero_length st bytesInStation 0;;
  st <- call_getVarlenIntField (LongMember oclStationNumber);;
  if_zero_length st oclStationNumber (-1).

(** if( skipFlag && stn<stnToSkipTo ) *)
Definition skipping : bool := truth (skipFlag a) && (stn a <? stnToSkipTo a).

Definition skip_station : M status :=
  call_skipToNextStation;;
  (if truth (dbBathyFlag a) then fscanf_dbBathy false else ret tt);;
  ret SKIPPED.

(** The rest of the station header. *)
Definition read_variable_code (j : Z) : M unit :=
  call_getVarlenIntField (LongElem varCode j);;
  call_getIntDigits 1 (LongElem errCodeForVarCode j);;
  decrement_bytesLeftInStation 1.

Definition read_station_header : M unit :=
  st <- call_getIntDigits 2 (LongMember countryCode);;
  if_zero_length st countryCode (-1);;
  decrement_bytesLeftInStation 2;;
  st <- call_getVarlenIntField (LongMember cruiseNumber);;
  if_zero_length st cruiseNumber (-1);;
  call_getIntDigits 4 (LongMember year);;
  decrement_bytesLeftInStation 4;;
  call_getIntDigits 2 (LongMember month);;
  decrement_bytesLeftInStation 2;;
  call_getIntDigits 2 (LongMember day);;
  decrement_bytesLeftInStation 2;;
  call_getVarlenFloatField (DoubleMember time);;
  call_getVarlenFloatField (DoubleMember lat);;
  call_getVarlenFloatField (DoubleMember lon);;
  st <- call_getVarlenIntField (LongMember numberOfLevels);;
  if_zero_length st numberOfLevels 0;;
  call_getIntDigits 1 (LongMember stationType);;
  decrement_bytesLeftInStation 1;;
  call_getIntDigits 2 (LongMember numberOfVarCodes);;
  decrement_bytesLeftInStation 2;;
  s <- get;;
  for_upto (Z.to_nat (long_of numberOfVarCodes s)) 0 read_variable_code.

(** A section that is skipped byte by byte: its length, then, unless the
    length is a zero-length field, that many characters. *)
Definition skip_byte (j : Z) : M unit :=
  call_getIntDigits 1 Local_ld_dummy;;
  decrement_bytesLeftInStation 1.

Definition skip_section (length : long_member) : M unit :=
  st <- call_getVarlenIntField (LongMember length);;
  if negb (status_eqb st ZERO_LENGTH_FIELD) then
    s <- get;;
    for_upto (Z.to_nat (long_of length s)) 0 skip_byte
  else modify (store_long_member length 0).

(** Character data and principal investigator data *)
Definition read_character_data : M unit := skip_section bytesInCharPI.

(** Secondary header *)
Definition read_secondary_header_entry (j : Z) : M unit :=
  call_getVarlenIntField (LongElem secHdrCode j);;
  call_getVarlenFloatField (DoubleElem secHdrValue j);;
  ret tt.

Definition read_secondary_header : M unit :=
  st <- call_getVarlenIntField (LongMember bytesInSecHdr);;
  if negb (status_eqb st ZERO_LENGTH_FIELD) then
    call_getVarlenIntField (LongMember numberOfSecHdrEntries);;
    s <- get;;
    for_upto (Z.to_nat (long_of numberOfSecHdrEntries s)) 0
      read_secondary_header_entry
  else
    modify (store_long_member bytesInSecHdr 0);;
    modify (store_long_member numberOfSecHdrEntries 0).

(** The bottom depth before the profile is read: the entry of the secondary
    header with code 10, then the value of the bathymetry file. *)
Definition header_bottomDepth (j : Z) : M unit :=
  modify (fun s =>
    if long_at secHdrCode j s =? 10 then
      store_bottomDepth (Some (DoubleElem secHdrValue j)) "h"%char s
    else s).

Definition database_bottomDepth (s : state) : state :=
  if PrimFloat.leb (double_of lat s) 72%float
     && PrimFloat.leb (-72)%float (double_of lat s) then
    if negb (Ascii.eqb (bottomDepthSource (stnData s)) "h"%char)
       || PrimFloat.ltb (PrimFloat.sub (bottomDepth s) (databaseBathyValue s))
            (-80)%float
       || PrimFloat.ltb 80%float
            (PrimFloat.sub (bottomDepth s) (databaseBathyValue s))
    then store_bottomDepth (Some Static_databaseBathyValue) "d"%char s
    else s
  else s.

Definition first_bottomDepth : M unit :=
  modify (store_bottomDepth None "-"%char);;
  s <- get;;
  for_upto (Z.to_nat (long_of numberOfSecHdrEntries s)) 0 header_bottomDepth;;
  if truth (dbBathyFlag a) then
    fscanf_dbBathy true;;
    modify (fun s =>
      set_databaseBathyValue (PrimFloat.mul (databaseBathyValue s) (-1)%float) s);;
    modify database_bottomDepth
  else ret tt.

(** The filter flags, and whether the rest of the station is read (the
    value returned).  [small] is the double nearest to 0.0000001. *)
Definition small : float := 0x1.ad7f29abcaf48p-24%float.

Definition is_zero (x : float) : bool :=
  PrimFloat.ltb x small && PrimFloat.ltb (- small)%float x.

Definition logical_not (z : Z) : Z := if z =? 0 then 1 else 0.

Definition decide_on_rest : M bool :=
  modify (fun s =>
    store_int_member varListChecksOut
      (if truth (varListFlag a) then
         checkVarsInclAndNoErrors (varList a) (long_arrays (stnData s) varCode)
           (long_arrays (stnData s) errCodeForVarCode)
           (numVarsOnVarList a) (long_of numberOfVarCodes s)
       else 1) s);;
  s <- get;;
  let reallyWantProfile :=
    if negb (truth (wantProfileFlag a))
       && match bottomDepthPtr (stnData s) with Some _ => true | None => false end
    then false else true in
  modify (fun s =>
    store_int_member latlonInRange
      (if truth (latlonRegionFlag a)
          && (PrimFloat.ltb (double_of lon s) (latlonRegion a 0)
              || PrimFloat.ltb (latlonRegion a 1) (double_of lon s)
              || PrimFloat.ltb (double_of lat s) (latlonRegion a 2)
              || PrimFloat.ltb (latlonRegion a 3) (double_of lat s))
       then 0 else 1) s);;
  modify (fun s =>
    store_int_member yearInRange
      (if truth (yearRangeFlag a)
          && ((long_of year s <? yearRange a 0) || (yearRange a 1 <? long_of year s))
       then 0 else 1) s);;
  modify (fun s =>
    store_int_member monthInRange
      (if truth (monthRangeFlag a)
          && ((long_of month s <? monthRange a 0)
              || (monthRange a 1 <? long_of month s))
       then 0 else 1) s);;
  modify (fun s =>
    store_int_member enoughProfileLevels
      (if truth (minLevelsFlag a) && (long_of numberOfLevels s <? minLevels a)
       then 0 else 1) s);;
  modify (store_int_member badLatLon 0);;
  (if truth (zeroLatLonFlag a) then
     modify (fun s =>
       if is_zero (double_of lat s) then
         store_int_member badLatLon
           (int_of badLatLon s + logical_not (zeroLatLonOkay (wmoSquare a) "lat")) s
       else s);;
     modify (fun s =>
       if is_zero (double_of lon s) then
         store_int_member badLatLon
           (int_of badLatLon s + logical_not (zeroLatLonOkay (wmoSquare a) "lon")) s
       else s)
   else ret tt);;
  s <- get;;
  ret (reallyWantProfile && truth (int_of varListChecksOut s)
       && negb (truth (int_of badLatLon s)) && truth (int_of latlonInRange s)
       && truth (int_of monthInRange s) && truth (int_of yearInRange s)
       && truth (int_of enoughProfileLevels s)).

(** Biological header *)
Definition read_biological_header : M unit := skip_section bytesInBioHdr.

(** Profile data *)
Definition read_value (value : double_ptr) (errCode : long_ptr) : M unit :=
  st <- call_getVarlenFloatField value;;
  if negb (status_eqb st ZERO_LENGTH_FIELD) then
    call_getIntDigits 1 errCode;;
    decrement_bytesLeftInStation 1
  else ret tt.

Definition read_profile_level (j : Z) : M unit :=
  modify (record_step (Profile_level j));;
  s <- get;;
  (if long_of stationType s =? 0 then
     read_value (DoubleElem depthValue j) (LongElem errCodeForDepthValue j)
   else
     modify (store_double (DoubleElem depthValue j)
               (nth (Z.to_nat j) stdLevelDepth (indeterminate_double pf))));;
  s <- get;;
  for_upto (Z.to_nat (long_of numberOfVarCodes s)) 0
    (fun k => read_value (VarValue k j) (ErrCodeForVarValue k j)).

Definition read_profile : M unit :=
  s <- get;;
  (if MAX_LEVELS <? long_of numberOfLevels s then
     fprintf_stderr (numLevels_exceeds_MAX_LEVELS (stn a)
                       (long_of numberOfLevels s) MAX_LEVELS);;
     fprintf_stderr botDepth_might_be_wrong
   else ret tt);;
  for_while (Z.to_nat MAX_LEVELS)
    (fun j s => (j <? long_of numberOfLevels s) && (j <? MAX_LEVELS)) 0
    read_profile_level.

(** The bottom depth after the profile is read.  The source compares with
    depthValue[numberOfLevels-1] also where numberOfLevels is more than
    MAX_LEVELS, the capacity of depthValue: [last] is then what lies past
    the array. *)
Definition last_bottomDepth (s : state) : state :=
  if 0 <? long_of numberOfLevels s then
    let last := double_at depthValue (long_of numberOfLevels s - 1) s in
    let profile :=
      store_bottomDepth (Some (DoubleElem depthValue (long_of numberOfLevels s - 1)))
        "p"%char s in
    match bottomDepthPtr (stnData s) with
    | None => profile
    | Some _ =>
        if Ascii.eqb (bottomDepthSource (stnData s)) "h"%char
           && PrimFloat.ltb (bottomDepth s) last then
          if truth (dbBathyFlag a) then
            if PrimFloat.ltb (databaseBathyValue s) last then profile
            else store_bottomDepth (Some Static_databaseBathyValue) "d"%char s
          else profile
        else if Ascii.eqb (bottomDepthSource (stnData s)) "d"%char
                && PrimFloat.ltb (bottomDepth s) last then profile
        else s
    end
  else s.

Definition read_rest_of_station : M unit :=
  read_biological_header;;
  read_profile;;
  modify last_bottomDepth.

(** int getOCLStationData( FILE *fp_in, long int stn, OCLStationType *stnData,
      int wantProfileFlag, ... ) *)
Definition getOCLStationData : M status :=
  read_station_size;;
  if skipping then skip_station
  else
    read_station_header;;
    read_character_data;;
    read_secondary_header;;
    first_bottomDepth;;
    wanted <- decide_on_rest;;
    (if wanted then read_rest_of_station else ret tt);;
    call_skipToNextStation;;
    ret SUCCESSFUL.

End Station.

End Decoder.

(** * Properties *)

(** ** Streams *)

Lemma content_app (x y : stream) : content (x ++ y) = content x ++ content y.
Proof. unfold content. apply filter_app. Qed.

Lemma content_length_app (x y : stream) :
  content_length (x ++ y) = content_length x + content_length y.
Proof. unfold content_length. rewrite content_app, length_app. lia. Qed.

Lemma content_length_nonneg (x : stream) : 0 <= content_length x.
Proof. unfold content_length. lia. Qed.

Lemma content_length_cons (c : ascii) (x : stream) :
  content_length (c :: x) =
  (if is_newline c then 0 else 1) + content_length x.
Proof.
  unfold content_length, content. cbn [filter].
  destruct (is_newline c); cbn [negb List.length]; lia.
Qed.

Lemma last_default {A : Type} (l : list A) (d d' : A) :
  l <> [] -> last l d = last l d'.
Proof.
  induction l as [|x l IH]; intros H; [congruence|].
  destruct l as [|y l]; [reflexivity|].
  change (last (y :: l) d = last (y :: l) d'). apply IH. discriminate.
Qed.

Lemma last_cons_nonempty {A : Type} (x : A) (l : list A) (d : A) :
  l <> [] -> last (x :: l) d = last l d.
Proof. destruct l; [congruence | reflexivity]. Qed.

Lemma content_cons (c : ascii) (x : stream) :
  content (c :: x) = if is_newline c then content x else c :: content x.
Proof. unfold content. cbn [filter]. destruct (is_newline c); reflexivity. Qed.

Lemma content_nonempty (x : stream) : 0 < content_length x -> content x <> [].
Proof. unfold content_length. destruct (content x); simpl; [lia | discriminate]. Qed.

(** What getIntDigits can read of a stream: the characters before the
    first byte 255, if there is one. *)
Fixpoint until_EOF (fp : stream) : stream :=
  match fp with
  | [] => []
  | c :: fp' => if Ascii.eqb c xFF then [] else c :: until_EOF fp'
  end.

Lemma until_EOF_all (fp : stream) : ~ In xFF fp -> until_EOF fp = fp.
Proof.
  induction fp as [|c fp IH]; intros H; [reflexivity|].
  cbn [until_EOF]. destruct (Ascii.eqb_spec c xFF) as [->|_].
  - exfalso. apply H. left. reflexivity.
  - rewrite IH; [reflexivity|]. intros X. apply H. right. exact X.
Qed.

(** What the loop of getIntDigits gives: the characters consumed hold
    numDigits - i content characters and no byte 255; the content
    characters are appended to valueStr, and nextch is the last of them.
    The loop exits where the end of the file comes first. *)
Lemma getIntDigits_loop_spec (fp : stream) :
  forall i n vs c,
  match getIntDigits_loop fp i n vs c with
  | UnexpectedEOF => content_length (until_EOF fp) < n - i
  | Read (vs', c') rest =>
      exists consumed,
        fp = consumed ++ rest /\
        vs' = vs ++ content consumed /\
        content_length consumed = Z.max 0 (n - i) /\
        c' = last (content consumed) c /\
        ~ In xFF consumed
  end.
Proof.
  induction fp as [|c0 fp IH]; intros i n vs c; cbn [getIntDigits_loop until_EOF].
  - destruct (Z.ltb_spec i n).
    + unfold content_length; simpl; lia.
    + exists []. simpl. rewrite app_nil_r. repeat split; auto.
      unfold content_length; simpl; lia.
  - destruct (Z.ltb_spec i n) as [Hlt|Hge].
    + destruct (Ascii.eqb_spec c0 xFF) as [->|Hff].
      { unfold content_length; simpl; lia. }
      assert (Hin : forall l, ~ In xFF l -> ~ In xFF (c0 :: l)).
      { intros l Hl [X|X]; [apply Hff; exact X | apply Hl; exact X]. }
      destruct (is_newline c0) eqn:Hnl.
      * specialize (IH i n vs c0).
        destruct (getIntDigits_loop fp i n vs c0) as [[vs' c'] rest|].
        -- destruct IH as (consumed & -> & -> & Hlen & -> & Hno).
           exists (c0 :: consumed).
           rewrite content_cons, content_length_cons, Hnl.
           split; [reflexivity|]. split; [reflexivity|]. split; [lia|].
           split; [|apply Hin; exact Hno].
           apply last_default, content_nonempty. lia.
        -- rewrite content_length_cons, Hnl. lia.
      * specialize (IH (i + 1) n (vs ++ [c0]) c0).
        destruct (getIntDigits_loop fp (i + 1) n (vs ++ [c0]) c0) as [[vs' c'] rest|].
        -- destruct IH as (consumed & -> & -> & Hlen & -> & Hno).
           exists (c0 :: consumed).
           rewrite content_cons, content_length_cons, Hnl.
           split; [reflexivity|]. split; [|split; [|split]].
           ++ rewrite <- app_assoc. reflexivity.
           ++ lia.
           ++ destruct (content consumed) as [|y l]; [reflexivity|].
              rewrite (last_cons_nonempty c0 (y :: l)) by discriminate.
              apply last_default. discriminate.
           ++ apply Hin; exact Hno.
        -- rewrite content_length_cons, Hnl. lia.
    + exists []. simpl. rewrite app_nil_r. repeat split; auto.
      unfold content_length; simpl; lia.
Qed.

(** ** getIntDigits *)

(** The number that a string of decimal digits denotes. *)
Definition decimal (digits : list ascii) : Z :=
  fold_left (fun acc c => 10 * acc + digit_value c) digits 0.

Lemma isdigit_not_NUL (c : ascii) : isdigit c = true -> Ascii.eqb c NUL = false.
Proof.
  intros H. destruct (Ascii.eqb_spec c NUL) as [->|]; [discriminate H | reflexivity].
Qed.

Lemma c_string_digits (l : list ascii) : forallb isdigit l = true -> c_string l = l.
Proof.
  induction l as [|c l IH]; simpl; [reflexivity|].
  intros H. apply andb_true_iff in H. destruct H as [Hc Hl].
  rewrite (isdigit_not_NUL c Hc), IH by assumption. reflexivity.
Qed.

Lemma scan_digits_all (l : list ascii) :
  forall acc seen, forallb isdigit l = true ->
  scan_digits l acc seen =
  (fold_left (fun acc c => 10 * acc + digit_value c) l acc,
   match l with [] => seen | _ => true end).
Proof.
  induction l as [|c l IH]; intros acc seen H; simpl; [reflexivity|].
  simpl in H. apply andb_true_iff in H. destruct H as [Hc Hl].
  rewrite Hc, IH by assumption. destruct l; reflexivity.
Qed.

Lemma isdigit_cases (c : ascii) :
  isdigit c = true ->
  isspace c = false /\ Ascii.eqb c "-"%char = false /\ Ascii.eqb c "+"%char = false.
Proof.
  intros H. repeat split.
  - unfold isdigit, isspace in *. lia.
  - destruct (Ascii.eqb_spec c "-"%char) as [->|]; [discriminate H | reflexivity].
  - destruct (Ascii.eqb_spec c "+"%char) as [->|]; [discriminate H | reflexivity].
Qed.

(** On a field of decimal digits, sscanf stores the number they denote. *)
Lemma sscanf_ld_digits (l : list ascii) (v : Z) :
  l <> [] -> forallb isdigit l = true -> sscanf_ld l v = decimal l.
Proof.
  intros Hne H. unfold sscanf_ld, scan_ld. rewrite c_string_digits by assumption.
  destruct l as [|c l]; [congruence|].
  pose proof H as H'. simpl in H'. apply andb_true_iff in H'. destruct H' as [Hc _].
  destruct (isdigit_cases c Hc) as (Hs & Hm & Hp).
  cbn [skip_spaces]. rewrite Hs, Hm, Hp.
  rewrite scan_digits_all by assumption. reflexivity.
Qed.

Lemma one_content_char (l : list ascii) :
  Z.of_nat (List.length l) = 1 -> l = [last l NUL].
Proof.
  destruct l as [|c [|d l]]; simpl; intros H; try lia. reflexivity.
Qed.

(** The outcomes of getIntDigits: the exit where the end of the file comes
    before the field is read, and the three statuses. *)
Lemma getIntDigits_read (pf : platform) (fp : stream) (n v : Z) :
  match getIntDigits pf fp n v with
  | UnexpectedEOF => content_length (until_EOF fp) < n
  | Read (st, v') rest =>
      exists consumed,
        fp = consumed ++ rest /\
        content_length consumed = Z.max 0 n /\
        ~ In xFF consumed /\
        let field := content consumed in
        let terminal := last field NUL in
        (0 < n -> isdigit terminal = true ->
           st = SUCCESSFUL /\ v' = sscanf_ld field v /\
           (forallb isdigit field = true -> v' = decimal field)) /\
        (n = 0 \/ (n = 1 /\ field = ["-"%char]) ->
           st = ZERO_LENGTH_FIELD /\ v' = nan_as_long pf) /\
        (~ (0 < n /\ isdigit terminal = true) ->
         ~ (n = 0 \/ (n = 1 /\ field = ["-"%char])) ->
           st = UNSPECIFIED_PROBLEM /\ v' = v)
  end.
Proof.
  unfold getIntDigits.
  pose proof (getIntDigits_loop_spec fp 0 n [] NUL) as H.
  destruct (getIntDigits_loop fp 0 n [] NUL) as [[vs c] rest|].
  2: { lia. }
  destruct H as (consumed & Hfp & Hvs & Hlen & Hc & Hno).
  simpl in Hvs. rewrite Z.sub_0_r in Hlen. subst vs c.
  assert (Hone : n = 1 -> content consumed = [last (content consumed) NUL]).
  { intros ->. apply one_content_char. unfold content_length in Hlen. lia. }
  assert (Hne : 0 < n -> content consumed <> []).
  { intros Hn. apply content_nonempty. lia. }
  set (field := content consumed) in *.
  destruct (Z.ltb_spec 0 n) as [Hpos|Hle]; cbn [andb].
  - destruct (isdigit (last field NUL)) eqn:Hd.
    + exists consumed. split; [assumption|]. split; [assumption|].
      split; [assumption|]. cbn zeta.
      fold field. rewrite Hd. split; [|split].
      * intros _ _. split; [reflexivity|]. split; [reflexivity|].
        intros Hall. apply sscanf_ld_digits; [|assumption].
        apply Hne. assumption.
      * intros [->|[-> E]]; [lia|]. rewrite E in Hd. discriminate Hd.
      * intros Hn. exfalso. apply Hn. split; [assumption | reflexivity].
    + destruct (Z.eqb_spec n 0) as [->|Hn0]; [lia|]. cbn [orb].
      destruct (Z.eqb_spec n 1) as [->|Hn1]; cbn [andb].
      * destruct (Ascii.eqb_spec (last field NUL) "-"%char) as [Em|Em].
        -- exists consumed. split; [assumption|]. split; [assumption|].
           split; [assumption|]. cbn zeta.
           fold field. rewrite Hd. split; [|split].
           ++ intros _ Habs. discriminate Habs.
           ++ intros _. split; reflexivity.
           ++ intros _ Hn. exfalso. apply Hn. right. split; [reflexivity|].
              rewrite (Hone eq_refl), Em. reflexivity.
        -- exists consumed. split; [assumption|]. split; [assumption|].
           split; [assumption|]. cbn zeta.
           fold field. rewrite Hd. split; [|split].
           ++ intros _ Habs. discriminate Habs.
           ++ intros [E|[_ E]]; [lia|]. rewrite E in Em. exfalso. apply Em. reflexivity.
           ++ intros _ _. split; reflexivity.
      * exists consumed. split; [assumption|]. split; [assumption|].
        split; [assumption|]. cbn zeta.
        fold field. rewrite Hd. split; [|split].
        -- intros _ Habs. discriminate Habs.
        -- intros [E|[E _]]; lia.
        -- intros _ _. split; reflexivity.
  - destruct (Z.eqb_spec n 0) as [->|Hn0]; cbn [orb].
    + exists consumed. split; [assumption|]. split; [assumption|].
      split; [assumption|]. cbn zeta.
      split; [|split].
      * intros Habs. lia.
      * intros _. split; reflexivity.
      * intros _ Hn. exfalso. apply Hn. left. reflexivity.
    + destruct (Z.eqb_spec n 1) as [->|Hn1]; [lia|]. cbn [andb].
      exists consumed. split; [assumption|]. split; [assumption|].
      split; [assumption|]. cbn zeta.
      split; [|split].
      * intros Habs. lia.
      * intros [E|[E _]]; lia.
      * intros _ _. split; reflexivity.
Qed.

(** The same, without the part on the byte 255. *)
Lemma getIntDigits_cases (pf : platform) (fp : stream) (n v : Z) :
  match getIntDigits pf fp n v with
  | UnexpectedEOF => content_length (until_EOF fp) < n
  | Read (st, v') rest =>
      exists consumed,
        fp = consumed ++ rest /\
        content_length consumed = Z.max 0 n /\
        let field := content consumed in
        let terminal := last field NUL in
        (0 < n -> isdigit terminal = true ->
           st = SUCCESSFUL /\ v' = sscanf_ld field v /\
           (forallb isdigit field = true -> v' = decimal field)) /\
        (n = 0 \/ (n = 1 /\ field = ["-"%char]) ->
           st = ZERO_LENGTH_FIELD /\ v' = nan_as_long pf) /\
        (~ (0 < n /\ isdigit terminal = true) ->
         ~ (n = 0 \/ (n = 1 /\ field = ["-"%char])) ->
           st = UNSPECIFIED_PROBLEM /\ v' = v)
  end.
Proof.
  pose proof (getIntDigits_read pf fp n v) as H.
  destruct (getIntDigits pf fp n v) as [[st v'] rest|]; [|exact H].
  destruct H as (consumed & H1 & H2 & _ & H3).
  exists consumed. split; [exact H1|]. split; [exact H2 | exact H3].
Qed.

(** C6.  getIntDigits(fp, n, value), for the n <= 9 characters that
    valueStr has room for.  It exits where the end of the file (the end of
    the stream, or the byte 255, which the char nextch cannot tell from
    EOF) comes before n content characters.  Otherwise it consumes exactly
    n content characters (line terminators between them are skipped), and
    with [terminal] the last of them: for n > 0 and a digit as terminal it
    returns SUCCESSFUL with the integer that sscanf converts (the decimal
    value of a field of digits); for n = 0, or n = 1 and a minus sign as
    the sole character, it returns ZERO_LENGTH_FIELD with the value of
    (long int)nan(); for every other terminal character it returns
    UNSPECIFIED_PROBLEM and leaves the value as it was. *)
Theorem getIntDigits_status (pf : platform) (fp : stream) (n v : Z) :
  n <= 9 ->
  match getIntDigits pf fp n v with
  | UnexpectedEOF => content_length (until_EOF fp) < n
  | Read (st, v') rest =>
      exists consumed,
        fp = consumed ++ rest /\
        content_length consumed = Z.max 0 n /\
        ~ In xFF consumed /\
        let field := content consumed in
        let terminal := last field NUL in
        (0 < n -> isdigit terminal = true ->
           st = SUCCESSFUL /\ v' = sscanf_ld field v /\
           (forallb isdigit field = true -> v' = decimal field)) /\
        (n = 0 \/ (n = 1 /\ field = ["-"%char]) ->
           st = ZERO_LENGTH_FIELD /\ v' = nan_as_long pf) /\
        (~ (0 < n /\ isdigit terminal = true) ->
         ~ (n = 0 \/ (n = 1 /\ field = ["-"%char])) ->
           st = UNSPECIFIED_PROBLEM /\ v' = v)
  end.
Proof. intros _. apply getIntDigits_read. Qed.

(** ** getVarlenIntField *)

(** C7.  getVarlenIntField reads the one-digit length L and takes 1 from the
    budget.  If the inner read of the L digits is a zero-length field, it
    stores the value of (long int)nan() and returns ZERO_LENGTH_FIELD, the
    budget being the one after the length digit.  Otherwise it returns
    SUCCESSFUL with the value read, and the budget is value - L - 1 if it
    was negative (not yet set) after the length digit, and L less than after
    the length digit if it was not. *)
Theorem getVarlenIntField_budget (pf : platform) (fp : stream) (value budget : Z) :
  match getIntDigits pf fp 1 (indeterminate pf) with
  | UnexpectedEOF => getVarlenIntField pf fp value budget = UnexpectedEOF
  | Read (_, L) fp1 =>
      match getIntDigits pf fp1 (int_of_long L) value with
      | UnexpectedEOF => getVarlenIntField pf fp value budget = UnexpectedEOF
      | Read (inner, v) fp2 =>
          exists st value' budget',
            getVarlenIntField pf fp value budget = Read (st, value', budget') fp2 /\
            (inner = ZERO_LENGTH_FIELD ->
               st = ZERO_LENGTH_FIELD /\ value' = nan_as_long pf /\
               budget' = budget - 1) /\
            (inner <> ZERO_LENGTH_FIELD ->
               st = SUCCESSFUL /\ value' = v /\
               (budget - 1 < 0 -> budget' = value' - L - 1) /\
               (0 <= budget - 1 -> budget' = budget - 1 - L))
      end
  end.
Proof.
  unfold getVarlenIntField.
  destruct (getIntDigits pf fp 1 (indeterminate pf)) as [[st1 L] fp1|]; [|reflexivity].
  destruct (getIntDigits pf fp1 (int_of_long L) value) as [[inner v] fp2|];
    [|reflexivity].
  assert (Hother : inner <> ZERO_LENGTH_FIELD ->
    exists st value' budget',
      (if budget - 1 <? 0
       then Read (SUCCESSFUL, v, v - L - 1) fp2
       else Read (SUCCESSFUL, v, budget - 1 - L) fp2)
      = Read (st, value', budget') fp2 /\
      (inner = ZERO_LENGTH_FIELD ->
         st = ZERO_LENGTH_FIELD /\ value' = nan_as_long pf /\ budget' = budget - 1) /\
      (inner <> ZERO_LENGTH_FIELD ->
         st = SUCCESSFUL /\ value' = v /\
         (budget - 1 < 0 -> budget' = value' - L - 1) /\
         (0 <= budget - 1 -> budget' = budget - 1 - L))).
  { intros Hinner.
    destruct (Z.ltb_spec (budget - 1) 0) as [Hneg|Hset].
    - exists SUCCESSFUL, v, (v - L - 1). split; [reflexivity|].
      split; [intros E; contradiction|]. intros _.
      split; [reflexivity|]. split; [reflexivity|]. split; intros; [reflexivity | lia].
    - exists SUCCESSFUL, v, (budget - 1 - L). split; [reflexivity|].
      split; [intros E; contradiction|]. intros _.
      split; [reflexivity|]. split; [reflexivity|]. split; intros; [lia | reflexivity]. }
  destruct inner; try (apply Hother; discriminate).
  exists ZERO_LENGTH_FIELD, (nan_as_long pf), (budget - 1).
  split; [reflexivity|]. split.
  - intros _. repeat split.
  - intros E. exfalso. apply E. reflexivity.
Qed.

(** ** getVarlenFloatField *)

(** C10.  When the first control digit of getVarlenFloatField (the number of
    significant digits) is read with the status SUCCESSFUL, the function
    returns SUCCESSFUL whatever the statuses [st2], [st3] and [st4] of the
    reads of the total digits, of the precision and of the digits
    themselves (the digits being no more than the 9 that valueStr has room
    for): none of them reaches the caller, and the stream is left where the
    last of the four reads leaves it. *)
Theorem getVarlenFloatField_inner_statuses (pf : platform) (fp : stream)
    (value : float) (budget : Z)
    (sigDigits totalDigits precision intvalue : Z) (st2 st3 st4 : status)
    (fp1 fp2 fp3 fp4 : stream) :
  getIntDigits pf fp 1 (indeterminate pf) = Read (SUCCESSFUL, sigDigits) fp1 ->
  getIntDigits pf fp1 1 (indeterminate pf) = Read (st2, totalDigits) fp2 ->
  getIntDigits pf fp2 1 (indeterminate pf) = Read (st3, precision) fp3 ->
  int_of_long totalDigits <= 9 ->
  getIntDigits pf fp3 (int_of_long totalDigits) (indeterminate pf)
    = Read (st4, intvalue) fp4 ->
  exists value' budget',
    getVarlenFloatField pf fp value budget = Read (SUCCESSFUL, value', budget') fp4.
Proof.
  intros H1 H2 H3 _ H4. unfold getVarlenFloatField.
  rewrite H1, H2, H3, H4. eexists. eexists. reflexivity.
Qed.

(** The platform of the examples: long int of 64 bits, the conversion of a
    NaN giving LONG_MIN, zeroes in unassigned variables, and a pow that is
    exact on the exponents 0 to 9 that a one-digit precision asks for, and
    not a number on every other exponent. *)
Fixpoint power (x : float) (n : nat) : float :=
  match n with
  | O => 1%float
  | S m => PrimFloat.mul x (power x m)
  end.

Definition pow_example (x y : float) : float :=
  match find (fun n => PrimFloat.eqb y (double_of_long (Z.of_nat n))) (seq 0 10) with
  | Some n => power x n
  | None => nan
  end.

Definition example_platform : platform :=
  {| nan_as_long := - 2 ^ 63;
     indeterminate := 0;
     indeterminate_double := 0%float;
     pow := pow_example |}.

(** On the two digits 1 and 2 with a line feed between them, getIntDigits
    returns 12; the bytes consumed hold no byte 255. *)
Lemma getIntDigits_status_witness :
  exists consumed,
    getIntDigits example_platform ["1"; LF; "2"; "x"]%char 2 0
      = Read (SUCCESSFUL, 12) ["x"%char] /\
    ["1"; LF; "2"; "x"]%char = consumed ++ ["x"%char] /\
    content_length consumed = 2 /\
    ~ In xFF consumed.
Proof.
  pose proof (getIntDigits_status example_platform ["1"; LF; "2"; "x"]%char 2 0) as T.
  assert (E : getIntDigits example_platform ["1"; LF; "2"; "x"]%char 2 0
              = Read (SUCCESSFUL, 12) ["x"%char]) by (vm_compute; reflexivity).
  rewrite E in T. destruct T as (consumed & Hfp & Hlen & Hno & _); [lia|].
  exists consumed. split; [exact E|]. split; [exact Hfp|].
  split; [exact Hlen | exact Hno].
Defined.

(** On "1-x" the total digits are a zero-length field and the precision is
    no digit at all, and the call still returns SUCCESSFUL. *)
Lemma getVarlenFloatField_inner_statuses_witness :
  exists value' budget',
    getVarlenFloatField example_platform (list_ascii_of_string "1-x2") 5%float 10 =
    Read (SUCCESSFUL, value', budget') (list_ascii_of_string "2").
Proof.
  apply (getVarlenFloatField_inner_statuses example_platform
           (list_ascii_of_string "1-x2") 5%float 10
           1 (- 2 ^ 63) 0 (- 2 ^ 63) ZERO_LENGTH_FIELD UNSPECIFIED_PROBLEM
           ZERO_LENGTH_FIELD
           (list_ascii_of_string "-x2") (list_ascii_of_string "x2")
           (list_ascii_of_string "2") (list_ascii_of_string "2"));
    vm_compute; first [reflexivity | intros X; discriminate X].
Defined.

(** ** Comparisons of doubles *)

Lemma SFcompare_antisym (x y : spec_float) :
  SFcompare y x = option_map CompOpp (SFcompare x y).
Proof.
  destruct x as [sx|sx| |sx mx ex], y as [sy|sy| |sy my ey]; simpl;
    try (destruct sx; reflexivity); try (destruct sy; reflexivity);
    try (destruct sx, sy; reflexivity); try reflexivity.
  change (Pos.compare_cont Eq) with Pos.compare.
  destruct sx, sy; simpl; try reflexivity;
    rewrite (Z.compare_antisym ex ey);
    destruct (ex ?= ey); simpl; try reflexivity;
    rewrite (Pos.compare_antisym mx my);
    destruct (Pos.compare mx my); reflexivity.
Qed.

Lemma SFcompare_refl (x : spec_float) :
  SFcompare x x = None \/ SFcompare x x = Some Eq.
Proof.
  destruct x as [s|s| |s m e]; simpl; auto.
  - destruct s; auto.
  - right. destruct s; rewrite Z.compare_refl;
      change (Pos.compare_cont Eq m m) with (Pos.compare m m);
      rewrite Pos.compare_refl; reflexivity.
Qed.

(** x < x is false. *)
Lemma ltb_irrefl (x : float) : PrimFloat.ltb x x = false.
Proof.
  rewrite ltb_spec. unfold SFltb.
  destruct (SFcompare_refl (Prim2SF x)) as [-> | ->]; reflexivity.
Qed.

(** x != x, the test for a NaN. *)
Definition is_NaN (x : float) : bool := negb (PrimFloat.eqb x x).

Lemma is_NaN_compare (x y : float) :
  is_NaN x = false -> is_NaN y = false ->
  exists c, SFcompare (Prim2SF x) (Prim2SF y) = Some c.
Proof.
  unfold is_NaN. rewrite !eqb_spec. unfold SFeqb.
  destruct (Prim2SF x) as [sx|sx| |sx mx ex], (Prim2SF y) as [sy|sy| |sy my ey];
    simpl; intros Hx Hy; try discriminate; eexists; reflexivity.
Qed.

(** Where no NaN is involved, "not x < y" is "x >= y". *)
Lemma not_ltb_geb (x y : float) :
  is_NaN x = false -> is_NaN y = false ->
  PrimFloat.ltb x y = false -> PrimFloat.leb y x = true.
Proof.
  intros Hx Hy. rewrite ltb_spec, leb_spec. unfold SFltb, SFleb.
  rewrite (SFcompare_antisym (Prim2SF x) (Prim2SF y)).
  destruct (is_NaN_compare x y Hx Hy) as [c ->]. destruct c; simpl; congruence.
Qed.

Lemma SFltb_abs (m0 : positive) (e0 : Z) (x : spec_float) :
  SFltb (S754_finite false m0 e0) (SFabs x) =
  SFltb x (S754_finite true m0 e0) || SFltb (S754_finite false m0 e0) x.
Proof.
  unfold SFltb.
  destruct x as [s|s| |s m e].
  - destruct s; reflexivity.
  - destruct s; reflexivity.
  - reflexivity.
  - unfold SFabs, SFcompare.
    change (Pos.compare_cont Eq) with Pos.compare.
    destruct s.
    + rewrite (Z.compare_antisym e e0).
      destruct (e ?= e0); cbn [CompOpp orb]; try reflexivity.
      rewrite (Pos.compare_antisym m m0).
      destruct (Pos.compare m m0); reflexivity.
    + destruct (e0 ?= e); reflexivity.
Qed.

Lemma Prim2SF_80 : Prim2SF 80%float = S754_finite false 5629499534213120 (-46).
Proof. vm_compute. reflexivity. Qed.

Lemma Prim2SF_minus_80 :
  Prim2SF (-80)%float = S754_finite true 5629499534213120 (-46).
Proof. vm_compute. reflexivity. Qed.

(** |x| > 80 is "x > 80 or -80 > x". *)
Lemma abs_gt_80 (x : float) :
  PrimFloat.ltb 80%float (PrimFloat.abs x) =
  PrimFloat.ltb x (-80)%float || PrimFloat.ltb 80%float x.
Proof.
  rewrite !ltb_spec, abs_spec, Prim2SF_80, Prim2SF_minus_80.
  apply SFltb_abs.
Qed.

(** ** Runs: sequencing and loops *)

Lemma bind_Ret {A B : Type} (m : M A) (k : A -> M B) (s s1 : state) (x : A) :
  m s = Ret x s1 -> bind m k s = k x s1.
Proof. unfold bind. intros ->. reflexivity. Qed.

Lemma bind_Exit {A B : Type} (m : M A) (k : A -> M B) (s : state) err :
  m s = Exit err -> bind m k s = Exit err.
Proof. unfold bind. intros ->. reflexivity. Qed.

Lemma bind_inv {A B : Type} (m : M A) (k : A -> M B) (s s' : state) (y : B) :
  bind m k s = Ret y s' ->
  exists x s1, m s = Ret x s1 /\ k x s1 = Ret y s'.
Proof.
  unfold bind. destruct (m s) as [x s1|err]; [|discriminate].
  intros H. exists x, s1. split; [reflexivity | exact H].
Qed.

Lemma for_upto_snoc (body : Z -> M unit) (n : nat) :
  forall j s,
  for_upto (S n) j body s =
  bind (for_upto n j body) (fun _ => body (j + Z.of_nat n)) s.
Proof.
  induction n as [|n IH]; intros j s.
  - cbn [for_upto]. unfold bind, ret. rewrite Z.add_0_r.
    destruct (body j s) as [[] s1|err]; reflexivity.
  - change (for_upto (S (S n)) j body s)
      with (bind (body j) (fun _ => for_upto (S n) (j + 1) body) s).
    change (for_upto (S n) j body)
      with (bind (body j) (fun _ => for_upto n (j + 1) body)).
    unfold bind.
    destruct (body j s) as [[] s1|err]; [|reflexivity].
    rewrite IH. unfold bind.
    replace (j + 1 + Z.of_nat n) with (j + Z.of_nat (S n)) by lia.
    reflexivity.
Qed.

(** ** The bottom depth before the profile *)

(** The last entry with code 10 among the first [n] entries of the
    secondary header. *)
Fixpoint last_code_10 (secHdrCode : Z -> Z) (n : nat) : option Z :=
  match n with
  | O => None
  | S m => if secHdrCode (Z.of_nat m) =? 10 then Some (Z.of_nat m)
           else last_code_10 secHdrCode m
  end.

Lemma last_code_10_Some (codes : Z -> Z) (n : nat) (j : Z) :
  last_code_10 codes n = Some j <->
  0 <= j < Z.of_nat n /\ codes j = 10 /\
  forall k, j < k < Z.of_nat n -> codes k <> 10.
Proof.
  induction n as [|n IH]; cbn [last_code_10].
  - split; [discriminate | lia].
  - destruct (Z.eqb_spec (codes (Z.of_nat n)) 10) as [E|E].
    + split.
      * intros H. injection H as <-. repeat split; lia.
      * intros (Hj & Hc & Hk). f_equal.
        destruct (Z.eq_dec j (Z.of_nat n)) as [->|Hne]; [reflexivity|].
        exfalso. apply (Hk (Z.of_nat n)); [lia | exact E].
    + rewrite IH. split.
      * intros (Hj & Hc & Hk). split; [lia|]. split; [exact Hc|].
        intros k Hk'. destruct (Z.eq_dec k (Z.of_nat n)) as [->|Hne];
          [exact E | apply Hk; lia].
      * intros (Hj & Hc & Hk).
        assert (j <> Z.of_nat n) by (intros ->; contradiction).
        split; [lia|]. split; [exact Hc|]. intros k Hk'. apply Hk. lia.
Qed.

Lemma last_code_10_None (codes : Z -> Z) (n : nat) :
  last_code_10 codes n = None <->
  forall k, 0 <= k < Z.of_nat n -> codes k <> 10.
Proof.
  induction n as [|n IH]; cbn [last_code_10].
  - split; [intros _ k Hk; lia | reflexivity].
  - destruct (Z.eqb_spec (codes (Z.of_nat n)) 10) as [E|E].
    + split; [discriminate|]. intros H. exfalso. apply (H (Z.of_nat n)); [lia|exact E].
    + rewrite IH. split.
      * intros H k Hk. destruct (Z.eq_dec k (Z.of_nat n)) as [->|Hne];
          [exact E | apply H; lia].
      * intros H k Hk. apply H. lia.
Qed.

(** The state after the search of the secondary header for code 10. *)
Definition header_selection (found : option Z) (s : state) : state :=
  match found with
  | Some j => store_bottomDepth (Some (DoubleElem secHdrValue j)) "h"%char s
  | None => s
  end.

Lemma header_loop (n : nat) (s : state) :
  for_upto n 0 header_bottomDepth s =
  Ret tt (header_selection (last_code_10 (long_arrays (stnData s) secHdrCode) n) s).
Proof.
  induction n as [|n IH].
  - reflexivity.
  - rewrite for_upto_snoc. rewrite (bind_Ret _ _ _ _ _ IH).
    cbn [last_code_10]. unfold header_bottomDepth, modify. rewrite Z.add_0_l.
    assert (E : long_at secHdrCode (Z.of_nat n)
                  (header_selection
                     (last_code_10 (long_arrays (stnData s) secHdrCode) n) s)
                = long_arrays (stnData s) secHdrCode (Z.of_nat n)).
    { destruct (last_code_10 (long_arrays (stnData s) secHdrCode) n); reflexivity. }
    rewrite E.
    destruct (long_arrays (stnData s) secHdrCode (Z.of_nat n) =? 10); [|reflexivity].
    destruct (last_code_10 (long_arrays (stnData s) secHdrCode) n); reflexivity.
Qed.

(** The test of the database value against the header value, with the
    absolute difference written out. *)
Lemma database_bottomDepth_cases (pf : platform) (s : state) :
  database_bottomDepth pf s =
  if (PrimFloat.leb (double_of lat s) 72%float
      && PrimFloat.leb (-72)%float (double_of lat s))
     && (negb (Ascii.eqb (bottomDepthSource (stnData s)) "h"%char)
         || PrimFloat.ltb 80%float
              (PrimFloat.abs (PrimFloat.sub (bottomDepth pf s) (databaseBathyValue s))))
  then store_bottomDepth (Some Static_databaseBathyValue) "d"%char s
  else s.
Proof.
  unfold database_bottomDepth. rewrite abs_gt_80.
  destruct (PrimFloat.leb (double_of lat s) 72%float
            && PrimFloat.leb (-72)%float (double_of lat s)); [|reflexivity].
  rewrite <- orb_assoc. reflexivity.
Qed.

(** C3.  With the bathymetry file in use, the first pass over the bottom
    depth reads one line of the file and negates its depth, and selects
    that database value, with the source 'd', exactly when the latitude of
    the station is within [-72, 72] and either the secondary header has no
    entry with code 10 or the header depth (the value of the last such
    entry) differs from the database value by more than 80 in absolute
    value; otherwise the header value stays selected with the source 'h',
    and nothing is selected if there is none. *)
Theorem first_bottomDepth_database (pf : platform) (a : arguments) (s : state) :
  truth (dbBathyFlag a) = true ->
  let found := last_code_10 (long_arrays (stnData s) secHdrCode)
                 (Z.to_nat (long_of numberOfSecHdrEntries s)) in
  let db := PrimFloat.mul
              (match fp_dbBathy s with
               | l :: _ => bathy_depth l
               | [] => databaseBathyValue s
               end) (-1)%float in
  let within_band := PrimFloat.leb (double_of lat s) 72%float
                     && PrimFloat.leb (-72)%float (double_of lat s) in
  let far := match found with
             | Some j => PrimFloat.ltb 80%float
                           (PrimFloat.abs (PrimFloat.sub (double_at secHdrValue j s) db))
             | None => true
             end in
  exists s',
    first_bottomDepth pf a s = Ret tt s' /\
    databaseBathyValue s' = db /\
    fp_dbBathy s' = tl (fp_dbBathy s) /\
    (within_band && far = true ->
       bottomDepthPtr (stnData s') = Some Static_databaseBathyValue /\
       bottomDepthSource (stnData s') = "d"%char /\
       bottomDepth pf s' = db) /\
    (within_band && far = false ->
       match found with
       | Some j =>
           bottomDepthPtr (stnData s') = Some (DoubleElem secHdrValue j) /\
           bottomDepthSource (stnData s') = "h"%char /\
           bottomDepth pf s' = double_at secHdrValue j s
       | None =>
           bottomDepthPtr (stnData s') = None /\
           bottomDepthSource (stnData s') = "-"%char
       end).
Proof.
  intros Hflag found db within_band far.
  unfold first_bottomDepth. rewrite Hflag.
  unfold bind at 1. unfold modify at 1.
  unfold bind at 1. unfold get at 1.
  unfold bind at 1.
  change (long_of numberOfSecHdrEntries (store_bottomDepth None "-"%char s))
    with (long_of numberOfSecHdrEntries s).
  rewrite header_loop.
  change (long_arrays (stnData (store_bottomDepth None "-"%char s)) secHdrCode)
    with (long_arrays (stnData s) secHdrCode).
  fold found.
  unfold bind, fscanf_dbBathy, modify.
  eexists. split; [reflexivity|].
  rewrite database_bottomDepth_cases.
  set (s0 := header_selection found (store_bottomDepth None "-"%char s)).
  assert (Hfile : fp_dbBathy s0 = fp_dbBathy s)
    by (unfold s0; destruct found; reflexivity).
  assert (Hstatic : databaseBathyValue s0 = databaseBathyValue s)
    by (unfold s0; destruct found; reflexivity).
  assert (Hlat : double_of lat s0 = double_of lat s)
    by (unfold s0; destruct found; reflexivity).
  assert (Hval : forall j, double_at secHdrValue j s0 = double_at secHdrValue j s)
    by (intros j; unfold s0; destruct found; reflexivity).
  assert (Hsel : match found with
                 | Some j => bottomDepthPtr (stnData s0) = Some (DoubleElem secHdrValue j)
                             /\ bottomDepthSource (stnData s0) = "h"%char
                 | None => bottomDepthPtr (stnData s0) = None
                           /\ bottomDepthSource (stnData s0) = "-"%char
                 end)
    by (unfold s0; destruct found; split; reflexivity).
  set (s1 := set_databaseBathyValue _ _).
  assert (Hdb : databaseBathyValue s1 = db).
  { unfold s1, db. rewrite <- Hfile, <- Hstatic.
    destruct (fp_dbBathy s0); reflexivity. }
  assert (Hfile1 : fp_dbBathy s1 = tl (fp_dbBathy s)).
  { unfold s1. rewrite <- Hfile.
    destruct (fp_dbBathy s0) eqn:E; cbn; rewrite ?E; reflexivity. }
  assert (Hstn : stnData s1 = stnData s0).
  { unfold s1. destruct (fp_dbBathy s0); reflexivity. }
  assert (Hlat1 : double_of lat s1 = double_of lat s).
  { unfold double_of. rewrite Hstn. exact Hlat. }
  assert (Hval1 : forall j, double_at secHdrValue j s1 = double_at secHdrValue j s).
  { intros j. unfold double_at. rewrite Hstn. apply Hval. }
  rewrite Hlat1, Hdb. fold within_band.
  assert (Hfar : negb (Ascii.eqb (bottomDepthSource (stnData s1)) "h"%char)
                 || PrimFloat.ltb 80%float
                      (PrimFloat.abs (PrimFloat.sub (bottomDepth pf s1) db)) = far).
  { unfold far, bottomDepth. rewrite Hstn.
    destruct found as [j|]; destruct Hsel as [-> ->]; cbn [negb orb Ascii.eqb].
    - cbn [load_double]. rewrite Hval1. reflexivity.
    - reflexivity. }
  rewrite Hfar.
  destruct (within_band && far).
  - split; [exact Hdb|]. split; [exact Hfile1|]. split; [|discriminate].
    intros _. split; [reflexivity|]. split; [reflexivity|]. exact Hdb.
  - split; [exact Hdb|]. split; [exact Hfile1|]. split; [discriminate|].
    intros _. rewrite Hstn. destruct found as [j|]; destruct Hsel as [Hp Hs].
    + split; [exact Hp|]. split; [exact Hs|].
      unfold bottomDepth. rewrite Hstn, Hp. cbn [load_double]. apply Hval1.
    + split; assumption.
Qed.

(** ** Relations between the state before and after a run *)

(** Every return of [m] relates the states before and after by [R]. *)
Definition respects {A : Type} (R : state -> state -> Prop) (m : M A) : Prop :=
  forall s x s', m s = Ret x s' -> R s s'.

Section Respects.

Variable R : state -> state -> Prop.
Hypothesis R_refl : forall s, R s s.
Hypothesis R_trans : forall s1 s2 s3, R s1 s2 -> R s2 s3 -> R s1 s3.

Lemma respects_ret {A : Type} (x : A) : respects R (ret x).
Proof. intros s y s' H. injection H as _ <-. apply R_refl. Qed.

Lemma respects_get : respects R get.
Proof. intros s y s' H. injection H as _ <-. apply R_refl. Qed.

Lemma respects_bind {A B : Type} (m : M A) (k : A -> M B) :
  respects R m -> (forall x, respects R (k x)) -> respects R (bind m k).
Proof.
  intros Hm Hk s y s' H. apply bind_inv in H. destruct H as (x & s1 & H1 & H2).
  apply (R_trans s s1 s'); [apply (Hm s x s1 H1) | apply (Hk x s1 y s' H2)].
Qed.

Lemma respects_modify (f : state -> state) :
  (forall s, R s (f s)) -> respects R (modify f).
Proof. intros Hf s y s' H. injection H as _ <-. apply Hf. Qed.

Lemma respects_if {A : Type} (b : bool) (m1 m2 : M A) :
  respects R m1 -> respects R m2 -> respects R (if b then m1 else m2).
Proof. destruct b; auto. Qed.

Lemma respects_for_upto (body : Z -> M unit) (n : nat) :
  (forall j, respects R (body j)) -> forall j, respects R (for_upto n j body).
Proof.
  intros Hb. induction n as [|n IH]; intros j.
  - apply respects_ret.
  - apply respects_bind; [apply Hb | intros _; apply IH].
Qed.

Lemma respects_for_while (cond : Z -> state -> bool) (body : Z -> M unit)
    (fuel : nat) :
  (forall j, respects R (body j)) ->
  forall j, respects R (for_while fuel cond j body).
Proof.
  intros Hb. induction fuel as [|n IH]; intros j.
  - apply respects_ret.
  - intros s y s' H. cbn [for_while] in H. destruct (cond j s).
    + revert H. apply respects_bind; [apply Hb | intros _; apply IH].
    + injection H as _ <-. apply R_refl.
Qed.

Lemma respects_call_getIntDigits (pf : platform) (n : Z) (p : long_ptr) :
  (forall s v fp',
     R s (record_step (Call_getIntDigits n p) (store_long p v (set_fp_in fp' s)))) ->
  respects R (call_getIntDigits pf n p).
Proof.
  intros Hs s y s' H. unfold call_getIntDigits in H.
  destruct (getIntDigits pf (fp_in s) n (load_long pf p s)) as [[st v] fp'|];
    [|discriminate].
  injection H as _ <-. apply Hs.
Qed.

Lemma respects_call_getVarlenIntField (pf : platform) (p : long_ptr) :
  (forall s v b fp',
     R s (record_step
            (Call_getVarlenIntField p (fp_in s) (long_of bytesLeftInStation s))
            (store_long_member bytesLeftInStation b
               (store_long p v (set_fp_in fp' s))))) ->
  respects R (call_getVarlenIntField pf p).
Proof.
  intros Hs s y s' H. unfold call_getVarlenIntField in H.
  destruct (getVarlenIntField pf (fp_in s) (load_long pf p s)
              (long_of bytesLeftInStation s)) as [[[st v] b] fp'|];
    [|discriminate].
  injection H as _ <-. apply Hs.
Qed.

Lemma respects_call_getVarlenFloatField (pf : platform) (p : double_ptr) :
  (forall s v b fp',
     R s (record_step
            (Call_getVarlenFloatField p (fp_in s) (long_of bytesLeftInStation s))
            (store_long_member bytesLeftInStation b
               (store_double p v (set_fp_in fp' s))))) ->
  respects R (call_getVarlenFloatField pf p).
Proof.
  intros Hs s y s' H. unfold call_getVarlenFloatField in H.
  destruct (getVarlenFloatField pf (fp_in s) (load_double p s)
              (long_of bytesLeftInStation s)) as [[[st v] b] fp'|];
    [|discriminate].
  injection H as _ <-. apply Hs.
Qed.

End Respects.

(** The structure of a run, down to the calls and the assignments. *)
Ltac respects_structure :=
  repeat first
    [ apply respects_bind; [assumption | | intros ?]
    | apply respects_ret; assumption
    | apply respects_get; assumption
    | apply respects_if
    | apply respects_for_upto; [assumption | assumption | intros ?]
    | apply respects_for_while; [assumption | assumption | intros ?]
    | apply respects_modify; intros ?
    | apply respects_call_getIntDigits; intros ? ? ?
    | apply respects_call_getVarlenIntField; intros ? ? ? ?
    | apply respects_call_getVarlenFloatField; intros ? ? ? ? ].

Ltac unfold_station :=
  unfold getOCLStationData, read_station_size, skip_station, read_station_header,
    read_variable_code, read_character_data, read_secondary_header,
    read_secondary_header_entry, first_bottomDepth, header_bottomDepth,
    decide_on_rest, read_rest_of_station, read_biological_header, skip_section,
    skip_byte, read_profile, read_profile_level, read_value, if_zero_length,
    call_skipToNextStation, decrement_bytesLeftInStation, fscanf_dbBathy,
    fprintf_stderr.

(** *** The steps of a run only grow *)

Definition steps_grow (s s' : state) : Prop :=
  exists more, steps s' = steps s ++ more.

Lemma steps_grow_refl (s : state) : steps_grow s s.
Proof. exists []. symmetry. apply app_nil_r. Qed.

Lemma steps_grow_trans (s1 s2 s3 : state) :
  steps_grow s1 s2 -> steps_grow s2 s3 -> steps_grow s1 s3.
Proof.
  intros [m1 H1] [m2 H2]. exists (m1 ++ m2). rewrite H2, H1, app_assoc. reflexivity.
Qed.

(** *** The steps that tell what a run did *)

Definition profile_levels (l : list step) : list Z :=
  flat_map (fun e => match e with Profile_level j => [j] | _ => [] end) l.

(** The call that reads the length of the biological header: the first
    thing done when the rest of the station is read. *)
Definition is_rest_of_station (e : step) : bool :=
  match e with
  | Call_getVarlenIntField (LongMember bytesInBioHdr) _ _ => true
  | _ => false
  end.

Definition reads_rest_of_station (l : list step) : bool :=
  existsb is_rest_of_station l.

Lemma profile_levels_app (l1 l2 : list step) :
  profile_levels (l1 ++ l2) = profile_levels l1 ++ profile_levels l2.
Proof. apply flat_map_app. Qed.

Lemma reads_rest_of_station_app (l1 l2 : list step) :
  reads_rest_of_station (l1 ++ l2) =
  reads_rest_of_station l1 || reads_rest_of_station l2.
Proof. apply existsb_app. Qed.

(** A stretch of a run that decodes no profile level and does not start on
    the rest of the station. *)
Definition quiet (s s' : state) : Prop :=
  exists more, steps s' = steps s ++ more /\
               profile_levels more = [] /\ reads_rest_of_station more = false.

Lemma quiet_refl (s : state) : quiet s s.
Proof. exists []. rewrite app_nil_r. repeat split. Qed.

Lemma quiet_trans (s1 s2 s3 : state) : quiet s1 s2 -> quiet s2 s3 -> quiet s1 s3.
Proof.
  intros (m1 & H1 & L1 & B1) (m2 & H2 & L2 & B2). exists (m1 ++ m2).
  rewrite H2, H1, app_assoc, profile_levels_app, reads_rest_of_station_app, L1, L2, B1, B2.
  repeat split.
Qed.

Lemma quiet_steps_grow (s s' : state) : quiet s s' -> steps_grow s s'.
Proof. intros (m & H & _). exists m. exact H. Qed.

Ltac break_match :=
  match goal with
  | |- context [match ?x with _ => _ end] => destruct x
  end.

(** A state change that records no step. *)
Ltac quiet_store :=
  exists []; rewrite app_nil_r;
  split; [repeat break_match; reflexivity | split; reflexivity].

(** A call, which records itself. *)
Ltac quiet_call := eexists [_]; split; [reflexivity | split; reflexivity].

Ltac quiet_leaves := first [quiet_call | quiet_store].

Ltac quiet_run :=
  pose proof quiet_refl; pose proof quiet_trans;
  unfold_station; respects_structure; quiet_leaves.

Lemma read_station_size_quiet (pf : platform) : respects quiet (read_station_size pf).
Proof. quiet_run. Qed.

Lemma skip_station_quiet (a : arguments) : respects quiet (skip_station a).
Proof. quiet_run. Qed.

Lemma read_station_header_quiet (pf : platform) :
  respects quiet (read_station_header pf).
Proof. quiet_run. Qed.

Lemma read_character_data_quiet (pf : platform) :
  respects quiet (read_character_data pf).
Proof. quiet_run. Qed.

Lemma read_secondary_header_quiet (pf : platform) :
  respects quiet (read_secondary_header pf).
Proof. quiet_run. Qed.

Lemma first_bottomDepth_quiet (pf : platform) (a : arguments) :
  respects quiet (first_bottomDepth pf a).
Proof.
  pose proof quiet_refl; pose proof quiet_trans.
  unfold_station; respects_structure; try quiet_leaves.
  unfold database_bottomDepth. quiet_store.
Qed.

Lemma decide_on_rest_quiet (a : arguments) : respects quiet (decide_on_rest a).
Proof. quiet_run. Qed.

Lemma call_skipToNextStation_quiet : respects quiet call_skipToNextStation.
Proof. quiet_run. Qed.

(** ** The course of a run of getOCLStationData *)

Lemma getOCLStationData_run (pf : platform) (a : arguments) (s s' : state)
    (st : status) :
  getOCLStationData pf a s = Ret st s' ->
  exists s1,
    read_station_size pf s = Ret tt s1 /\
    ((skipping a = true /\ skip_station a s1 = Ret st s') \/
     (skipping a = false /\ st = SUCCESSFUL /\
      exists s2 s3 s4 s5 s6 s7 wanted,
        read_station_header pf s1 = Ret tt s2 /\
        read_character_data pf s2 = Ret tt s3 /\
        read_secondary_header pf s3 = Ret tt s4 /\
        first_bottomDepth pf a s4 = Ret tt s5 /\
        decide_on_rest a s5 = Ret wanted s6 /\
        (if wanted then read_rest_of_station pf a s6 = Ret tt s7 else s7 = s6) /\
        call_skipToNextStation s7 = Ret tt s')).
Proof.
  unfold getOCLStationData. intros H.
  apply bind_inv in H. destruct H as ([] & s1 & H1 & H).
  exists s1. split; [exact H1|].
  destruct (skipping a); [left; split; [reflexivity | exact H]|].
  right. split; [reflexivity|].
  apply bind_inv in H. destruct H as ([] & s2 & H2 & H).
  apply bind_inv in H. destruct H as ([] & s3 & H3 & H).
  apply bind_inv in H. destruct H as ([] & s4 & H4 & H).
  apply bind_inv in H. destruct H as ([] & s5 & H5 & H).
  apply bind_inv in H. destruct H as (wanted & s6 & H6 & H).
  apply bind_inv in H. destruct H as ([] & s7 & H7 & H).
  apply bind_inv in H. destruct H as ([] & s8 & H8 & H).
  injection H as <- <-.
  split; [reflexivity|].
  exists s2, s3, s4, s5, s6, s7, wanted. repeat split; try assumption.
  destruct wanted; [exact H7 | injection H7 as <-; reflexivity].
Qed.

(** ** Skipping ahead *)





(** The two calls that read_station_size records. *)
Lemma read_station_size_steps (pf : platform) (s s1 : state) (x : unit) :
  read_station_size pf s = Ret x s1 ->
  exists fp1 b1,
    steps s1 = steps s ++
      [Call_getVarlenIntField (LongMember bytesInStation) (fp_in s) (-1);
       Call_getVarlenIntField (LongMember oclStationNumber) fp1 b1].
Proof.
  destruct x. unfold read_station_size. intros H.
  apply bind_inv in H. destruct H as ([] & s0 & H0 & H).
  injection H0 as <-.
  apply bind_inv in H. destruct H as (st1 & sa & Ha & H).
  apply bind_inv in H. destruct H as ([] & sb & Hb & H).
  apply bind_inv in H. destruct H as (st2 & sc & Hc & H).
  unfold call_getVarlenIntField in Ha, Hc.
  destruct (getVarlenIntField pf _ _ _) as [[[st v] b] fp'|] in Ha; [|discriminate].
  injection Ha as _ <-.
  destruct (getVarlenIntField pf _ _ _) as [[[st' v'] b'] fp''|] in Hc; [|discriminate].
  injection Hc as _ <-.
  exists (fp_in sb), (long_of bytesLeftInStation sb).
  assert (Hsb : steps sb = steps s ++
            [Call_getVarlenIntField (LongMember bytesInStation) (fp_in s) (-1)]).
  { unfold if_zero_length in Hb.
    destruct (status_eqb st1 ZERO_LENGTH_FIELD); injection Hb as E; rewrite <- E;
      reflexivity. }
  unfold if_zero_length in H.
  destruct (status_eqb st2 ZERO_LENGTH_FIELD); injection H as E; rewrite <- E;
    cbn; rewrite Hsb, <- app_assoc; reflexivity.
Qed.

Ltac steps_grow_leaves :=
  unfold last_bottomDepth, database_bottomDepth;
  first [ eexists [_]; reflexivity
        | exists []; rewrite app_nil_r; repeat break_match; reflexivity ].

Lemma read_rest_of_station_steps_grow (pf : platform) (a : arguments) :
  respects steps_grow (read_rest_of_station pf a).
Proof.
  pose proof steps_grow_refl. pose proof steps_grow_trans.
  unfold_station. respects_structure; steps_grow_leaves.
Qed.



(** *** What a stretch of a run leaves as it was *)

Definition same {T : Type} (obs : state -> T) (s s' : state) : Prop := obs s' = obs s.

Lemma same_refl {T : Type} (obs : state -> T) (s : state) : same obs s s.
Proof. reflexivity. Qed.

Lemma same_trans {T : Type} (obs : state -> T) (s1 s2 s3 : state) :
  same obs s1 s2 -> same obs s2 s3 -> same obs s1 s3.
Proof. unfold same. congruence. Qed.

Ltac same_leaves :=
  unfold same, last_bottomDepth, database_bottomDepth;
  repeat break_match; reflexivity.

Ltac same_run obs :=
  pose proof (same_refl obs); pose proof (same_trans obs);
  unfold_station; respects_structure; same_leaves.

(** The bottom depth that is selected, and its source. *)
Definition selection (s : state) : option double_ptr * ascii :=
  (bottomDepthPtr (stnData s), bottomDepthSource (stnData s)).

Lemma decide_on_rest_selection (a : arguments) :
  respects (same selection) (decide_on_rest a).
Proof. same_run selection. Qed.

Lemma read_biological_header_selection (pf : platform) :
  respects (same selection) (read_biological_header pf).
Proof. same_run selection. Qed.

Lemma read_profile_selection (pf : platform) (a : arguments) :
  respects (same selection) (read_profile pf a).
Proof. same_run selection. Qed.

Lemma read_biological_header_levels (pf : platform) :
  respects (same (long_of numberOfLevels)) (read_biological_header pf).
Proof. same_run (long_of numberOfLevels). Qed.

Lemma read_profile_level_levels (pf : platform) (j : Z) :
  respects (same (long_of numberOfLevels)) (read_profile_level pf j).
Proof. same_run (long_of numberOfLevels). Qed.

Lemma read_rest_of_station_levels (pf : platform) (a : arguments) :
  respects (same (long_of numberOfLevels)) (read_rest_of_station pf a).
Proof. same_run (long_of numberOfLevels). Qed.

Lemma call_skipToNextStation_station :
  respects (same (fun s => (stnData s, databaseBathyValue s, stderr s)))
    call_skipToNextStation.
Proof. same_run (fun s => (stnData s, databaseBathyValue s, stderr s)). Qed.

Lemma read_station_size_stderr (pf : platform) :
  respects (same stderr) (read_station_size pf).
Proof. same_run stderr. Qed.

Lemma read_station_header_stderr (pf : platform) :
  respects (same stderr) (read_station_header pf).
Proof. same_run stderr. Qed.

Lemma read_character_data_stderr (pf : platform) :
  respects (same stderr) (read_character_data pf).
Proof. same_run stderr. Qed.

Lemma read_secondary_header_stderr (pf : platform) :
  respects (same stderr) (read_secondary_header pf).
Proof. same_run stderr. Qed.

Lemma first_bottomDepth_stderr (pf : platform) (a : arguments) :
  respects (same stderr) (first_bottomDepth pf a).
Proof. same_run stderr. Qed.

Lemma decide_on_rest_stderr (a : arguments) :
  respects (same stderr) (decide_on_rest a).
Proof. same_run stderr. Qed.

Lemma skip_station_stderr (a : arguments) :
  respects (same stderr) (skip_station a).
Proof. same_run stderr. Qed.

Lemma read_biological_header_stderr (pf : platform) :
  respects (same stderr) (read_biological_header pf).
Proof. same_run stderr. Qed.

Lemma read_profile_level_stderr (pf : platform) (j : Z) :
  respects (same stderr) (read_profile_level pf j).
Proof. same_run stderr. Qed.

(** ** The profile levels that are decoded *)

(** j, j+1, ..., j+n-1 *)
Fixpoint range (j : Z) (n : nat) : list Z :=
  match n with
  | O => []
  | S m => j :: range (j + 1) m
  end.

(** A stretch of a run that decodes no profile level. *)
Definition no_level (s s' : state) : Prop :=
  exists more, steps s' = steps s ++ more /\ profile_levels more = [].

Lemma no_level_refl (s : state) : no_level s s.
Proof. exists []. rewrite app_nil_r. split; reflexivity. Qed.

Lemma no_level_trans (s1 s2 s3 : state) :
  no_level s1 s2 -> no_level s2 s3 -> no_level s1 s3.
Proof.
  intros (m1 & H1 & L1) (m2 & H2 & L2). exists (m1 ++ m2).
  rewrite H2, H1, app_assoc, profile_levels_app, L1, L2. split; reflexivity.
Qed.

Ltac no_level_leaves :=
  first [ eexists [_]; split; reflexivity
        | exists []; rewrite app_nil_r;
          split; [repeat break_match; reflexivity | reflexivity] ].

Ltac no_level_run :=
  pose proof no_level_refl; pose proof no_level_trans;
  unfold_station; respects_structure; no_level_leaves.

(** One iteration of the loop over the levels records its level and
    decodes no other. *)
Lemma read_profile_level_steps (pf : platform) (j : Z) (s s' : state) (x : unit) :
  read_profile_level pf j s = Ret x s' ->
  exists more, steps s' = steps s ++ Profile_level j :: more /\
               profile_levels more = [] /\ reads_rest_of_station more = false.
Proof.
  unfold read_profile_level. intros H.
  apply bind_inv in H. destruct H as ([] & s0 & H0 & H). injection H0 as <-.
  assert (Hq : quiet (record_step (Profile_level j) s) s').
  { revert H.
    match goal with |- ?m _ = _ -> _ => assert (Hm : respects quiet m) end.
    { quiet_run. }
    apply Hm. }
  destruct Hq as (more & Hmore & Hl & Hr). exists more.
  rewrite Hmore. cbn. rewrite <- app_assoc. repeat split; assumption.
Qed.

Definition more_levels (j : Z) (s : state) : bool :=
  (j <? long_of numberOfLevels s) && (j <? MAX_LEVELS).

(** The loop over the levels decodes the levels from j up to the declared
    number of them or to MAX_LEVELS, whichever is less. *)
Lemma profile_loop_levels (pf : platform) (fuel : nat) :
  forall j s x s',
  for_while fuel more_levels j (read_profile_level pf) s = Ret x s' ->
  MAX_LEVELS - j <= Z.of_nat fuel ->
  exists more,
    steps s' = steps s ++ more /\
    profile_levels more =
      range j (Z.to_nat (Z.min (long_of numberOfLevels s) MAX_LEVELS - j)) /\
    reads_rest_of_station more = false /\
    long_of numberOfLevels s' = long_of numberOfLevels s /\
    stderr s' = stderr s.
Proof.
  induction fuel as [|fuel IH]; intros j s x s' H Hfuel.
  - injection H as _ <-. exists []. rewrite app_nil_r.
    replace (Z.to_nat (Z.min (long_of numberOfLevels s) MAX_LEVELS - j)) with O by lia.
    repeat split.
  - cbn [for_while] in H. unfold more_levels at 1 in H.
    destruct (Z.ltb_spec j (long_of numberOfLevels s)) as [H1|H1];
      [destruct (Z.ltb_spec j MAX_LEVELS) as [H2|H2]|]; cbn [andb] in H.
    + apply bind_inv in H. destruct H as ([] & s1 & Hb & H).
      destruct (read_profile_level_steps pf j s s1 tt Hb) as (m1 & E1 & L1 & R1).
      pose proof (read_profile_level_levels pf j s tt s1 Hb) as N1.
      pose proof (read_profile_level_stderr pf j s tt s1 Hb) as S1.
      unfold same in N1, S1.
      apply IH in H; [|lia].
      destruct H as (m2 & E2 & L2 & R2 & N2 & S2).
      exists (Profile_level j :: m1 ++ m2).
      rewrite E2, E1, <- app_assoc. split; [reflexivity|].
      split.
      * change (Profile_level j :: m1 ++ m2) with ([Profile_level j] ++ m1 ++ m2).
        rewrite !profile_levels_app, L1, L2, N1. cbn [profile_levels flat_map app].
        replace (Z.to_nat (Z.min (long_of numberOfLevels s) MAX_LEVELS - j))
          with (S (Z.to_nat (Z.min (long_of numberOfLevels s) MAX_LEVELS - (j + 1))))
          by lia.
        reflexivity.
      * split.
        { change (Profile_level j :: m1 ++ m2) with ([Profile_level j] ++ m1 ++ m2).
          rewrite !reads_rest_of_station_app, R1, R2. reflexivity. }
        split; congruence.
    + injection H as _ <-. exists []. rewrite app_nil_r.
      replace (Z.to_nat (Z.min (long_of numberOfLevels s) MAX_LEVELS - j)) with O by lia.
      repeat split.
    + injection H as _ <-. exists []. rewrite app_nil_r.
      replace (Z.to_nat (Z.min (long_of numberOfLevels s) MAX_LEVELS - j)) with O by lia.
      repeat split.
Qed.

(** The diagnostic of a station that declares more than MAX_LEVELS levels. *)
Definition too_many_levels (a : arguments) (numLevels : Z) : list diagnostic :=
  if MAX_LEVELS <? numLevels then
    [numLevels_exceeds_MAX_LEVELS (stn a) numLevels MAX_LEVELS;
     botDepth_might_be_wrong]
  else [].

Lemma read_biological_header_steps (pf : platform) (s s' : state) (x : unit) :
  read_biological_header pf s = Ret x s' ->
  exists more, steps s' = steps s ++ more /\
               profile_levels more = [] /\ reads_rest_of_station more = true.
Proof.
  unfold read_biological_header, skip_section. intros H.
  apply bind_inv in H. destruct H as (st & s0 & H0 & H). cbv beta in H.
  assert (Hn : no_level s0 s').
  { revert H.
    match goal with |- ?m _ = _ -> _ => assert (Hm : respects no_level m) end.
    { no_level_run. }
    apply Hm. }
  unfold call_getVarlenIntField in H0.
  destruct (getVarlenIntField pf _ _ _) as [[[st' v] b] fp'|] in H0; [|discriminate].
  injection H0 as _ <-.
  destruct Hn as (more & Hmore & Hl).
  eexists (_ :: more). rewrite Hmore. cbn. rewrite <- app_assoc.
  split; [reflexivity|]. split; [exact Hl | reflexivity].
Qed.

Lemma last_bottomDepth_frame (pf : platform) (a : arguments) (s : state) :
  steps (last_bottomDepth pf a s) = steps s /\
  stderr (last_bottomDepth pf a s) = stderr s /\
  long_of numberOfLevels (last_bottomDepth pf a s) = long_of numberOfLevels s /\
  double_at depthValue (long_of numberOfLevels s - 1) (last_bottomDepth pf a s) =
    double_at depthValue (long_of numberOfLevels s - 1) s /\
  databaseBathyValue (last_bottomDepth pf a s) = databaseBathyValue s.
Proof.
  unfold last_bottomDepth. repeat break_match; repeat split.
Qed.

(** The rest of the station: the biological header, then the levels from 0
    up to the declared number or to MAX_LEVELS, with the diagnostic if
    that truncates the profile. *)
Lemma read_rest_of_station_steps (pf : platform) (a : arguments)
    (s s' : state) (x : unit) :
  read_rest_of_station pf a s = Ret x s' ->
  exists more,
    steps s' = steps s ++ more /\
    reads_rest_of_station more = true /\
    profile_levels more =
      range 0 (Z.to_nat (Z.min (long_of numberOfLevels s) MAX_LEVELS)) /\
    long_of numberOfLevels s' = long_of numberOfLevels s /\
    stderr s' = stderr s ++ too_many_levels a (long_of numberOfLevels s).
Proof.
  unfold read_rest_of_station. intros H.
  apply bind_inv in H. destruct H as ([] & s1 & H1 & H).
  apply bind_inv in H. destruct H as ([] & s2 & H2 & H).
  injection H as _ <-.
  destruct (read_biological_header_steps pf s s1 tt H1) as (m1 & E1 & L1 & R1).
  pose proof (read_biological_header_levels pf s tt s1 H1) as N1.
  pose proof (read_biological_header_stderr pf s tt s1 H1) as S1.
  unfold same in N1, S1.
  unfold read_profile in H2.
  apply bind_inv in H2. destruct H2 as (s1' & s1'' & Hg & H2).
  injection Hg as <- <-.
  apply bind_inv in H2. destruct H2 as ([] & sd & Hd & H2).
  assert (Hsd : steps sd = steps s1 /\
                long_of numberOfLevels sd = long_of numberOfLevels s1 /\
                stderr sd = stderr s1 ++ too_many_levels a (long_of numberOfLevels s1)).
  { unfold too_many_levels.
    destruct (MAX_LEVELS <? long_of numberOfLevels s1).
    - unfold fprintf_stderr, bind, modify in Hd. injection Hd as <-.
      cbn. rewrite <- app_assoc. repeat split.
    - injection Hd as <-. rewrite app_nil_r. repeat split. }
  destruct Hsd as (Ed & Nd & Sd).
  apply (profile_loop_levels pf) in H2; [|unfold MAX_LEVELS; lia].
  destruct H2 as (m2 & E2 & L2 & R2 & N2 & S2).
  destruct (last_bottomDepth_frame pf a s2) as (Fs & Fe & Fn & _).
  exists (m1 ++ m2).
  rewrite Fs, Fe, Fn, E2, Ed, E1, S2, Sd, S1, N2, Nd, N1, <- app_assoc.
  rewrite reads_rest_of_station_app, profile_levels_app, R1, L1, L2, Nd, N1, Z.sub_0_r.
  repeat split.
Qed.

(** Where a run of getOCLStationData reads the rest of the station, and
    what it leaves of it. *)
Lemma getOCLStationData_profile (pf : platform) (a : arguments) (s s' : state)
    (st : status) (new : list step) :
  getOCLStationData pf a s = Ret st s' ->
  steps s' = steps s ++ new ->
  (reads_rest_of_station new = false /\ profile_levels new = [] /\
   stderr s' = stderr s) \/
  (reads_rest_of_station new = true /\ st = SUCCESSFUL /\
   exists s5 s6 s7,
     first_bottomDepth pf a s5 = Ret tt s6 /\
     (exists wanted, decide_on_rest a s6 = Ret wanted s7) /\
     (exists s8, read_rest_of_station pf a s7 = Ret tt s8 /\
                 stnData s' = stnData s8 /\
                 databaseBathyValue s' = databaseBathyValue s8) /\
     profile_levels new =
       range 0 (Z.to_nat (Z.min (long_of numberOfLevels s') MAX_LEVELS)) /\
     stderr s' = stderr s ++ too_many_levels a (long_of numberOfLevels s')).
Proof.
  intros H Hnew.
  apply getOCLStationData_run in H.
  destruct H as (s1 & H1 & [(_ & Hs) | (_ & Hst & s2 & s3 & s4 & s5 & s6 & s7 & wanted
                 & H2 & H3 & H4 & H5 & H6 & H7 & H8)]).
  - left.
    pose proof (quiet_trans _ _ _ (read_station_size_quiet pf s tt s1 H1)
                  (skip_station_quiet a s1 st s' Hs)) as (m & Hm & Hl & Hr).
    rewrite Hm in Hnew. apply app_inv_head in Hnew. subst new.
    pose proof (read_station_size_stderr pf s tt s1 H1) as S1.
    pose proof (skip_station_stderr a s1 st s' Hs) as S2.
    unfold same in S1, S2. repeat split; congruence.
  - assert (Q : quiet s s6).
    { apply (quiet_trans s s1); [apply (read_station_size_quiet pf s tt s1 H1)|].
      apply (quiet_trans s1 s2); [apply (read_station_header_quiet pf s1 tt s2 H2)|].
      apply (quiet_trans s2 s3); [apply (read_character_data_quiet pf s2 tt s3 H3)|].
      apply (quiet_trans s3 s4); [apply (read_secondary_header_quiet pf s3 tt s4 H4)|].
      apply (quiet_trans s4 s5); [apply (first_bottomDepth_quiet pf a s4 tt s5 H5)|].
      apply (decide_on_rest_quiet a s5 wanted s6 H6). }
    assert (S : stderr s6 = stderr s).
    { pose proof (read_station_size_stderr pf s tt s1 H1).
      pose proof (read_station_header_stderr pf s1 tt s2 H2).
      pose proof (read_character_data_stderr pf s2 tt s3 H3).
      pose proof (read_secondary_header_stderr pf s3 tt s4 H4).
      pose proof (first_bottomDepth_stderr pf a s4 tt s5 H5).
      pose proof (decide_on_rest_stderr a s5 wanted s6 H6).
      unfold same in *. congruence. }
    pose proof (call_skipToNextStation_quiet s7 tt s' H8) as Q8.
    pose proof (call_skipToNextStation_station s7 tt s' H8) as F8.
    unfold same in F8. injection F8 as F8a F8b F8c.
    destruct wanted.
    + right.
      destruct (read_rest_of_station_steps pf a s6 s7 tt H7)
        as (m7 & E7 & R7 & L7 & N7 & S7).
      destruct Q as (m6 & E6 & L6 & R6). destruct Q8 as (m8 & E8 & L8 & R8).
      rewrite E8, E7, E6, <- !app_assoc in Hnew. apply app_inv_head in Hnew.
      subst new.
      rewrite !reads_rest_of_station_app, !profile_levels_app, R6, R7, R8, L6, L7, L8.
      split; [reflexivity|]. split; [exact Hst|].
      exists s4, s5, s6. split; [exact H5|]. split; [exists true; exact H6|].
      split; [exists s7; repeat split; assumption|].
      assert (N : long_of numberOfLevels s' = long_of numberOfLevels s6).
      { unfold long_of. rewrite F8a. exact N7. }
      rewrite N, app_nil_r, F8c, S7, S. split; reflexivity.
    + left. subst s7.
      pose proof (quiet_trans _ _ _ Q Q8) as (m & Hm & Hl & Hr).
      rewrite Hm in Hnew. apply app_inv_head in Hnew. subst new.
      repeat split; congruence.
Qed.

(** ** The only exit is the one at the end of the file *)

Definition exits_at_EOF {A : Type} (m : M A) : Prop :=
  forall s err, m s = Exit err -> exists pre, err = pre ++ [unexpected_EOF].

Lemma exits_ret {A : Type} (x : A) : exits_at_EOF (ret x).
Proof. intros s err H. discriminate H. Qed.

Lemma exits_get : exits_at_EOF get.
Proof. intros s err H. discriminate H. Qed.

Lemma exits_modify (f : state -> state) : exits_at_EOF (modify f).
Proof. intros s err H. discriminate H. Qed.

Lemma exits_bind {A B : Type} (m : M A) (k : A -> M B) :
  exits_at_EOF m -> (forall x, exits_at_EOF (k x)) -> exits_at_EOF (bind m k).
Proof.
  intros Hm Hk s err H. unfold bind in H.
  destruct (m s) as [x s1|err'] eqn:E.
  - apply (Hk x s1 err H).
  - injection H as <-. apply (Hm s err' E).
Qed.

Lemma exits_if {A : Type} (b : bool) (m1 m2 : M A) :
  exits_at_EOF m1 -> exits_at_EOF m2 -> exits_at_EOF (if b then m1 else m2).
Proof. destruct b; auto. Qed.

Lemma exits_for_upto (body : Z -> M unit) (n : nat) :
  (forall j, exits_at_EOF (body j)) -> forall j, exits_at_EOF (for_upto n j body).
Proof.
  intros Hb. induction n as [|n IH]; intros j.
  - apply exits_ret.
  - apply exits_bind; [apply Hb | intros _; apply IH].
Qed.

Lemma exits_for_while (cond : Z -> state -> bool) (body : Z -> M unit)
    (fuel : nat) :
  (forall j, exits_at_EOF (body j)) ->
  forall j, exits_at_EOF (for_while fuel cond j body).
Proof.
  intros Hb. induction fuel as [|n IH]; intros j.
  - apply exits_ret.
  - intros s err H. cbn [for_while] in H. destruct (cond j s); [|discriminate H].
    revert H. apply exits_bind; [apply Hb | intros _; apply IH].
Qed.

Lemma exits_call_getIntDigits (pf : platform) (n : Z) (p : long_ptr) :
  exits_at_EOF (call_getIntDigits pf n p).
Proof.
  intros s err H. unfold call_getIntDigits in H.
  destruct (getIntDigits pf _ _ _) as [[st v] fp'|]; [discriminate H|].
  injection H as <-. exists (stderr s). reflexivity.
Qed.

Lemma exits_call_getVarlenIntField (pf : platform) (p : long_ptr) :
  exits_at_EOF (call_getVarlenIntField pf p).
Proof.
  intros s err H. unfold call_getVarlenIntField in H.
  destruct (getVarlenIntField pf _ _ _) as [[[st v] b] fp'|]; [discriminate H|].
  injection H as <-. exists (stderr s). reflexivity.
Qed.

Lemma exits_call_getVarlenFloatField (pf : platform) (p : double_ptr) :
  exits_at_EOF (call_getVarlenFloatField pf p).
Proof.
  intros s err H. unfold call_getVarlenFloatField in H.
  destruct (getVarlenFloatField pf _ _ _) as [[[st v] b] fp'|]; [discriminate H|].
  injection H as <-. exists (stderr s). reflexivity.
Qed.

Lemma getOCLStationData_exits_at_EOF (pf : platform) (a : arguments) :
  exits_at_EOF (getOCLStationData pf a).
Proof.
  unfold_station.
  repeat first
    [ apply exits_bind; [| intros ?]
    | apply exits_ret
    | apply exits_get
    | apply exits_if
    | apply exits_for_upto; intros ?
    | apply exits_for_while; intros ?
    | apply exits_modify
    | apply exits_call_getIntDigits
    | apply exits_call_getVarlenIntField
    | apply exits_call_getVarlenFloatField ].
Qed.

Lemma range_length (n : nat) : forall j, List.length (range j n) = n.
Proof. induction n as [|n IH]; intros j; cbn [range List.length]; [|rewrite IH]; reflexivity. Qed.

(** ** The bottom depth after the profile *)

(** A selected bottom depth comes from the header or from the database. *)
Definition selection_ok (s : state) : Prop :=
  match bottomDepthPtr (stnData s) with
  | None => True
  | Some _ => bottomDepthSource (stnData s) = "h"%char \/
              bottomDepthSource (stnData s) = "d"%char
  end.

Lemma first_bottomDepth_selection_ok (pf : platform) (a : arguments)
    (s s' : state) (x : unit) :
  first_bottomDepth pf a s = Ret x s' -> selection_ok s'.
Proof.
  unfold first_bottomDepth. intros H.
  apply bind_inv in H. destruct H as ([] & s0 & H0 & H). injection H0 as <-.
  apply bind_inv in H. destruct H as (s0' & s0 & H0 & H). injection H0 as <- <-.
  apply bind_inv in H. destruct H as ([] & s1 & H1 & H).
  rewrite header_loop in H1. injection H1 as <-.
  set (found := last_code_10 _ _) in H.
  assert (K : selection_ok (header_selection found (store_bottomDepth None "-"%char s))).
  { unfold selection_ok. destruct found; cbn; auto. }
  set (s1 := header_selection found _) in *. clearbody s1.
  destruct (truth (dbBathyFlag a)).
  - unfold bind, fscanf_dbBathy, modify in H. injection H as _ <-.
    unfold selection_ok in *. unfold database_bottomDepth.
    repeat match goal with
           | |- context [if ?b then _ else _] =>
               match type of b with bool => destruct b end
           | |- context [match fp_dbBathy ?x with _ => _ end] =>
               destruct (fp_dbBathy x)
           end;
      cbn; auto.
  - injection H as _ <-. exact K.
Qed.

(** What the second pass leaves selected is not less than the depth of the
    level numberOfLevels-1. *)
Lemma last_bottomDepth_not_less (pf : platform) (a : arguments) (s : state) :
  selection_ok s ->
  0 < long_of numberOfLevels s ->
  bottomDepthPtr (stnData (last_bottomDepth pf a s)) <> None /\
  PrimFloat.ltb (bottomDepth pf (last_bottomDepth pf a s))
    (double_at depthValue (long_of numberOfLevels s - 1) s) = false.
Proof.
  intros K Hn. unfold last_bottomDepth.
  destruct (Z.ltb_spec 0 (long_of numberOfLevels s)) as [_|]; [|lia].
  cbv zeta. unfold selection_ok in K.
  set (last := double_at depthValue (long_of numberOfLevels s - 1) s).
  destruct (bottomDepthPtr (stnData s)) as [p|] eqn:Ep;
    [|split; [discriminate | apply ltb_irrefl]].
  destruct (PrimFloat.ltb (bottomDepth pf s) last) eqn:El.
  - rewrite !andb_true_r.
    destruct (Ascii.eqb (bottomDepthSource (stnData s)) "h"%char) eqn:Eh.
    + destruct (truth (dbBathyFlag a)).
      * destruct (PrimFloat.ltb (databaseBathyValue s) last) eqn:Ed.
        -- split; [discriminate | apply ltb_irrefl].
        -- split; [discriminate | exact Ed].
      * split; [discriminate | apply ltb_irrefl].
    + destruct K as [K|K]; [rewrite K in Eh; discriminate Eh|].
      rewrite K. cbn [Ascii.eqb Bool.eqb andb].
      split; [discriminate | apply ltb_irrefl].
  - rewrite !andb_false_r. split; [rewrite Ep; discriminate | exact El].
Qed.

Lemma bottomDepth_ext (pf : platform) (s s' : state) :
  stnData s' = stnData s -> databaseBathyValue s' = databaseBathyValue s ->
  bottomDepth pf s' = bottomDepth pf s.
Proof.
  intros Hs Hd. unfold bottomDepth. rewrite Hs.
  destruct (bottomDepthPtr (stnData s)) as [p|]; [|reflexivity].
  destruct p; unfold load_double, double_of, double_at; rewrite ?Hs, ?Hd; reflexivity.
Qed.

Lemma last_range (n : nat) :
  forall j d, n <> O -> last (range j n) d = j + Z.of_nat n - 1.
Proof.
  induction n as [|n IH]; intros j d Hn; [congruence|].
  destruct n as [|n].
  - cbn. lia.
  - change (range j (S (S n))) with (j :: range (j + 1) (S n)).
    rewrite last_cons_nonempty by (cbn; discriminate).
    rewrite IH by discriminate. lia.
Qed.

(** The rest of the station, taken apart. *)
Lemma read_rest_of_station_run (pf : platform) (a : arguments) (s s' : state)
    (x : unit) :
  read_rest_of_station pf a s = Ret x s' ->
  exists s1 s2,
    read_biological_header pf s = Ret tt s1 /\
    read_profile pf a s1 = Ret tt s2 /\
    s' = last_bottomDepth pf a s2.
Proof.
  unfold read_rest_of_station. intros H.
  apply bind_inv in H. destruct H as ([] & s1 & H1 & H).
  apply bind_inv in H. destruct H as ([] & s2 & H2 & H).
  injection H as _ <-. exists s1, s2. repeat split; assumption.
Qed.

(** In a run that decodes at least one profile level of a station that
    declares at most MAX_LEVELS levels, a bottom depth is selected at the
    end, and the comparison "selected < last" of the doubles is false. *)
Lemma last_level_not_below (pf : platform) (a : arguments)
    (s s' : state) (st : status) (new : list step) :
  getOCLStationData pf a s = Ret st s' ->
  steps s' = steps s ++ new ->
  profile_levels new <> [] ->
  long_of numberOfLevels s' <= MAX_LEVELS ->
  let last_level := last (profile_levels new) 0 in
  let selected := bottomDepth pf s' in
  last_level = long_of numberOfLevels s' - 1 /\
  bottomDepthPtr (stnData s') <> None /\
  PrimFloat.ltb selected (double_at depthValue last_level s') = false /\
  (is_NaN selected = false ->
   is_NaN (double_at depthValue last_level s') = false ->
   PrimFloat.leb (double_at depthValue last_level s') selected = true).
Proof.
  intros H Hnew Hlev Hmax last_level selected.
  destruct (getOCLStationData_profile pf a s s' st new H Hnew)
    as [(_ & L & _) | (_ & _ & s5 & s6 & s7 & H5 & (wanted & H6)
                       & (s8 & H7 & Fs & Fd) & L & _)]; [congruence|].
  assert (Hpos : 0 < long_of numberOfLevels s').
  { destruct (Z.lt_ge_cases 0 (long_of numberOfLevels s')) as [|Hle]; [assumption|].
    exfalso. apply Hlev. rewrite L.
    replace (Z.to_nat (Z.min (long_of numberOfLevels s') MAX_LEVELS)) with O by lia.
    reflexivity. }
  assert (Hlast : last_level = long_of numberOfLevels s' - 1).
  { unfold last_level. rewrite L, last_range; lia. }
  pose proof (first_bottomDepth_selection_ok pf a s5 s6 tt H5) as K6.
  pose proof (decide_on_rest_selection a s6 wanted s7 H6) as K7.
  destruct (read_rest_of_station_run pf a s7 s8 tt H7) as (sa & sb & Ha & Hb & E8).
  pose proof (read_biological_header_selection pf s7 tt sa Ha) as Ka.
  pose proof (read_profile_selection pf a sa tt sb Hb) as Kb.
  assert (K : selection_ok sb).
  { unfold same, selection in K7, Ka, Kb. unfold selection_ok in *.
    injection K7 as P7 S7. injection Ka as Pa Sa. injection Kb as Pb Sb.
    rewrite Pb, Pa, P7, Sb, Sa, S7. exact K6. }
  destruct (last_bottomDepth_frame pf a sb) as (_ & _ & Fn & Fv & _).
  rewrite <- E8 in Fn, Fv.
  assert (N : long_of numberOfLevels s' = long_of numberOfLevels sb).
  { unfold long_of at 1. rewrite Fs. exact Fn. }
  destruct (last_bottomDepth_not_less pf a sb K) as (Hp & Hl); [lia|].
  rewrite <- E8 in Hp, Hl.
  assert (Hsel : PrimFloat.ltb selected (double_at depthValue last_level s') = false).
  { unfold selected. rewrite (bottomDepth_ext pf s8 s' Fs Fd).
    unfold double_at. rewrite Fs. fold (double_at depthValue last_level s8).
    rewrite Hlast, N, Fv. exact Hl. }
  split; [exact Hlast|]. split; [rewrite Fs; exact Hp|]. split; [exact Hsel|].
  intros N1 N2. apply not_ltb_geb; assumption.
Qed.

(** ** The byte budget *)

(** *** Well-formed fields *)

(** The field of variable length at the head of [fp] starts with a digit,
    its length, and is not the length 1 followed by a minus sign. *)
Definition regular_int_field (fp : stream) : bool :=
  match content fp with
  | c1 :: rest =>
      isdigit c1
      && negb (Ascii.eqb c1 "1"%char
               && match rest with
                  | c2 :: _ => Ascii.eqb c2 "-"%char
                  | [] => false
                  end)
  | [] => false
  end.

(** The size of the station, the first field, is moreover not empty. *)
Definition regular_size_field (fp : stream) : bool :=
  regular_int_field fp
  && match content fp with
     | c1 :: _ => negb (Ascii.eqb c1 "0"%char)
     | [] => false
     end.

(** A floating-point field that starts with a digit goes on with a digit,
    the number of its digits. *)
Definition regular_float_field (fp : stream) : bool :=
  match content fp with
  | c1 :: c2 :: _ => if isdigit c1 then isdigit c2 else true
  | _ => true
  end.

Lemma digit_value_range (c : ascii) : isdigit c = true -> 0 <= digit_value c <= 9.
Proof. unfold isdigit, digit_value. lia. Qed.

Lemma int_of_long_small (z : Z) : 0 <= z <= 9 -> int_of_long z = z.
Proof.
  intros H. unfold int_of_long. rewrite Z.mod_small; lia.
Qed.

Lemma digit_value_0 (c : ascii) : digit_value c = 0 -> c = "0"%char.
Proof.
  unfold digit_value. intros H.
  rewrite <- (ascii_N_embedding c). replace (N_of_ascii c) with 48%N by lia.
  reflexivity.
Qed.

Lemma digit_value_1 (c : ascii) : digit_value c = 1 -> c = "1"%char.
Proof.
  unfold digit_value. intros H.
  rewrite <- (ascii_N_embedding c). replace (N_of_ascii c) with 49%N by lia.
  reflexivity.
Qed.

(** What the status ZERO_LENGTH_FIELD of getIntDigits tells, and what the
    characters consumed are. *)
Lemma getIntDigits_consumes (pf : platform) (fp fp' : stream) (n v v' : Z)
    (st : status) :
  getIntDigits pf fp n v = Read (st, v') fp' ->
  exists consumed,
    fp = consumed ++ fp' /\
    content_length consumed = Z.max 0 n /\
    (st = ZERO_LENGTH_FIELD -> n = 0 \/ (n = 1 /\ content consumed = ["-"%char])) /\
    (st = SUCCESSFUL -> 0 < n /\ isdigit (last (content consumed) NUL) = true) /\
    (0 < n -> isdigit (last (content consumed) NUL) = true ->
       st = SUCCESSFUL /\ v' = sscanf_ld (content consumed) v).
Proof.
  intros H. pose proof (getIntDigits_cases pf fp n v) as C. rewrite H in C.
  destruct C as (consumed & Hfp & Hlen & C1 & C2 & C3). cbv zeta in C1, C2, C3.
  exists consumed. split; [exact Hfp|]. split; [exact Hlen|].
  destruct (Z.ltb_spec 0 n) as [Hn|Hn];
    [destruct (isdigit (last (content consumed) NUL)) eqn:Ed|].
  - destruct (C1 Hn eq_refl) as (-> & -> & _).
    split; [discriminate|]. split; [auto|]. auto.
  - destruct (Z.eq_dec n 1) as [->|Hn1].
    + destruct (list_eq_dec ascii_dec (content consumed) ["-"%char]) as [E|E].
      * split; [intros _; right; auto|]. split; [|intros _ Habs; discriminate].
        intros ->. destruct C2 as [Habs _]; [right; auto | discriminate Habs].
      * destruct C3 as [-> ->].
        -- intros [_ Habs]. discriminate.
        -- intros [?|[_ ?]]; [lia | contradiction].
        -- split; [discriminate|]. split; [discriminate|]. intros _ Habs. discriminate.
    + destruct C3 as [-> ->].
      * intros [_ Habs]. discriminate.
      * intros [?|[? _]]; lia.
      * split; [discriminate|]. split; [discriminate|]. intros _ Habs. discriminate.
  - destruct (Z.eq_dec n 0) as [->|Hn0].
    + split; [intros _; left; reflexivity|]. split; [|intros; lia].
      intros ->. destruct C2 as [Habs _]; [left; reflexivity | discriminate Habs].
    + destruct C3 as [-> ->].
      * intros [? _]. lia.
      * intros [?|[? _]]; lia.
      * split; [discriminate|]. split; [discriminate|]. intros; lia.
Qed.

(** The read of one character. *)
Lemma getIntDigits_one (pf : platform) (fp fp' : stream) (v v' : Z) (st : status) :
  getIntDigits pf fp 1 v = Read (st, v') fp' ->
  exists consumed c,
    fp = consumed ++ fp' /\ content consumed = [c] /\
    (isdigit c = true -> st = SUCCESSFUL /\ v' = digit_value c) /\
    (isdigit c = false -> st <> SUCCESSFUL).
Proof.
  intros H. apply getIntDigits_consumes in H.
  destruct H as (consumed & Hfp & Hlen & _ & Hs & Hd).
  pose proof (one_content_char (content consumed)) as Hone.
  unfold content_length in Hlen. specialize (Hone ltac:(lia)).
  exists consumed, (last (content consumed) NUL).
  split; [exact Hfp|]. split; [exact Hone|]. split.
  - intros Hc. destruct (Hd ltac:(lia) Hc) as [-> ->]. split; [reflexivity|].
    rewrite Hone at 1. rewrite sscanf_ld_digits.
    + unfold decimal. cbn. lia.
    + discriminate.
    + cbn. rewrite Hc. reflexivity.
  - intros Hc E. destruct (Hs E) as [_ Habs]. congruence.
Qed.

(** A regular field of variable length takes from the budget what it
    consumes. *)
Lemma getVarlenIntField_regular (pf : platform) (fp fp' : stream)
    (v v' b b' : Z) (st : status) :
  regular_int_field fp = true -> 1 <= b ->
  getVarlenIntField pf fp v b = Read (st, v', b') fp' ->
  exists consumed, fp = consumed ++ fp' /\ b' + content_length consumed = b.
Proof.
  intros Hreg Hb H. unfold getVarlenIntField in H.
  destruct (getIntDigits pf fp 1 (indeterminate pf)) as [[st1 L] fp1|] eqn:E1;
    [|discriminate].
  destruct (getIntDigits_one pf fp fp1 _ L st1 E1) as (c1s & c1 & Hfp1 & Hc1 & Hd1 & _).
  unfold regular_int_field in Hreg. rewrite Hfp1, content_app, Hc1 in Hreg.
  cbn [app] in Hreg. apply andb_true_iff in Hreg. destruct Hreg as [Hdig Hnot].
  destruct (Hd1 Hdig) as [-> ->].
  pose proof (digit_value_range c1 Hdig) as HL.
  rewrite (int_of_long_small _ HL) in H.
  destruct (getIntDigits pf fp1 (digit_value c1) v) as [[st2 v2] fp2|] eqn:E2;
    [|discriminate].
  destruct (getIntDigits_consumes pf fp1 fp2 _ v v2 st2 E2)
    as (c2s & Hfp2 & Hlen2 & Hz & _ & _).
  assert (Hzero : st2 = ZERO_LENGTH_FIELD -> digit_value c1 = 0).
  { intros Est. destruct (Hz Est) as [?|[H1 Hm]]; [assumption|]. exfalso.
    rewrite (digit_value_1 c1 H1), Hfp2, content_app, Hm in Hnot.
    discriminate Hnot. }
  assert (Hc1len : content_length c1s = 1) by (unfold content_length; rewrite Hc1; reflexivity).
  assert (Hfp : fp = (c1s ++ c2s) ++ fp2) by (rewrite <- app_assoc, <- Hfp2; exact Hfp1).
  exists (c1s ++ c2s). rewrite content_length_app, Hlen2, Hc1len.
  destruct st2;
    try (destruct (Z.ltb_spec (b - 1) 0); [lia|]; injection H as _ _ <- <-;
         split; [exact Hfp | lia]).
  injection H as _ _ <- <-. rewrite (Hzero eq_refl). split; [exact Hfp | lia].
Qed.

(** The size of the station sets the budget: what is left of the station
    and what the field consumed make up the size. *)
Lemma getVarlenIntField_size (pf : platform) (fp fp' : stream)
    (v v' b' : Z) (st : status) :
  regular_size_field fp = true ->
  getVarlenIntField pf fp v (-1) = Read (st, v', b') fp' ->
  st = SUCCESSFUL /\
  exists consumed, fp = consumed ++ fp' /\ b' + content_length consumed = v'.
Proof.
  intros Hreg H. unfold getVarlenIntField in H.
  destruct (getIntDigits pf fp 1 (indeterminate pf)) as [[st1 L] fp1|] eqn:E1;
    [|discriminate].
  destruct (getIntDigits_one pf fp fp1 _ L st1 E1) as (c1s & c1 & Hfp1 & Hc1 & Hd1 & _).
  unfold regular_size_field, regular_int_field in Hreg.
  rewrite Hfp1, content_app, Hc1 in Hreg. cbn [app] in Hreg.
  apply andb_true_iff in Hreg. destruct Hreg as [Hreg Hnz].
  apply andb_true_iff in Hreg. destruct Hreg as [Hdig Hnot].
  destruct (Hd1 Hdig) as [-> ->].
  pose proof (digit_value_range c1 Hdig) as HL.
  rewrite (int_of_long_small _ HL) in H.
  destruct (getIntDigits pf fp1 (digit_value c1) v) as [[st2 v2] fp2|] eqn:E2;
    [|discriminate].
  destruct (getIntDigits_consumes pf fp1 fp2 _ v v2 st2 E2)
    as (c2s & Hfp2 & Hlen2 & Hz & _ & _).
  assert (Hzero : st2 <> ZERO_LENGTH_FIELD).
  { intros Est. destruct (Hz Est) as [H0|[H1 Hm]].
    - rewrite (digit_value_0 c1 H0) in Hnz. discriminate Hnz.
    - rewrite (digit_value_1 c1 H1), Hfp2, content_app, Hm in Hnot.
      discriminate Hnot. }
  assert (Hc1len : content_length c1s = 1) by (unfold content_length; rewrite Hc1; reflexivity).
  assert (Hfp : fp = (c1s ++ c2s) ++ fp2) by (rewrite <- app_assoc, <- Hfp2; exact Hfp1).
  change (-1 - 1 <? 0) with true in H.
  destruct st2; try contradiction; injection H as <- <- <- <-;
    (split; [reflexivity|]);
    exists (c1s ++ c2s); rewrite content_length_app, Hlen2, Hc1len;
    (split; [exact Hfp | lia]).
Qed.

(** A regular floating-point field takes from the budget what it
    consumes. *)
Lemma getVarlenFloatField_regular (pf : platform) (fp fp' : stream)
    (v v' : float) (b b' : Z) (st : status) :
  regular_float_field fp = true ->
  getVarlenFloatField pf fp v b = Read (st, v', b') fp' ->
  exists consumed, fp = consumed ++ fp' /\ b' + content_length consumed = b.
Proof.
  intros Hreg H. unfold getVarlenFloatField in H.
  destruct (getIntDigits pf fp 1 (indeterminate pf)) as [[st1 sig] fp1|] eqn:E1;
    [|discriminate].
  destruct (getIntDigits_one pf fp fp1 _ sig st1 E1)
    as (c1s & c1 & Hfp1 & Hc1 & Hd1 & Hn1).
  assert (Hc1len : content_length c1s = 1)
    by (unfold content_length; rewrite Hc1; reflexivity).
  destruct (isdigit c1) eqn:Hdig.
  - destruct (Hd1 eq_refl) as [-> ->].
    destruct (getIntDigits pf fp1 1 (indeterminate pf)) as [[st2 total] fp2|] eqn:E2;
      [|discriminate].
    destruct (getIntDigits_one pf fp1 fp2 _ total st2 E2)
      as (c2s & c2 & Hfp2 & Hc2 & Hd2 & _).
    assert (Hc2len : content_length c2s = 1)
      by (unfold content_length; rewrite Hc2; reflexivity).
    unfold regular_float_field in Hreg.
    rewrite Hfp1, Hfp2, !content_app, Hc1, Hc2 in Hreg. cbn [app] in Hreg.
    rewrite Hdig in Hreg. destruct (Hd2 Hreg) as [-> ->].
    pose proof (digit_value_range c2 Hreg) as HD.
    rewrite (int_of_long_small _ HD) in H.
    destruct (getIntDigits pf fp2 1 (indeterminate pf)) as [[st3 prec] fp3|] eqn:E3;
      [|discriminate].
    destruct (getIntDigits_one pf fp2 fp3 _ prec st3 E3)
      as (c3s & c3 & Hfp3 & Hc3 & _ & _).
    assert (Hc3len : content_length c3s = 1)
      by (unfold content_length; rewrite Hc3; reflexivity).
    destruct (getIntDigits pf fp3 (digit_value c2) (indeterminate pf))
      as [[st4 intvalue] fp4|] eqn:E4; [|discriminate].
    destruct (getIntDigits_consumes pf fp3 fp4 _ _ intvalue st4 E4)
      as (c4s & Hfp4 & Hlen4 & _).
    injection H as _ _ <- <-.
    exists (c1s ++ c2s ++ c3s ++ c4s).
    split.
    + rewrite <- !app_assoc, <- Hfp4, <- Hfp3, <- Hfp2. exact Hfp1.
    + rewrite !content_length_app, Hc1len, Hc2len, Hc3len, Hlen4. lia.
  - specialize (Hn1 eq_refl).
    exists c1s. destruct st1; try contradiction; injection H as _ _ <- <-;
      (split; [exact Hfp1 | lia]).
Qed.

(** The skip to the next station. *)
Lemma skip_loop_consumes (fp : stream) :
  forall i b, b - i <= content_length fp ->
  exists skipped,
    fp = skipped ++ skip_loop fp i b /\ content_length skipped = Z.max 0 (b - i).
Proof.
  induction fp as [|c fp IH]; intros i b Hb; cbn [skip_loop].
  - destruct (Z.ltb_spec i b).
    + unfold content_length in Hb. cbn in Hb. lia.
    + exists []. split; [reflexivity | unfold content_length; cbn; lia].
  - destruct (Z.ltb_spec i b).
    + rewrite content_length_cons in Hb. destruct (is_newline c) eqn:Hnl.
      * destruct (IH i b ltac:(lia)) as (sk & Hsk & Hlen).
        exists (c :: sk). split; [cbn; rewrite <- Hsk; reflexivity|].
        rewrite content_length_cons, Hnl. lia.
      * destruct (IH (i + 1) b ltac:(lia)) as (sk & Hsk & Hlen).
        exists (c :: sk). split; [cbn; rewrite <- Hsk; reflexivity|].
        rewrite content_length_cons, Hnl. lia.
    + exists []. split; [reflexivity | unfold content_length; cbn; lia].
Qed.

Lemma fgets_split (n : nat) :
  forall fp, fp = fst (fgets n fp) ++ snd (fgets n fp).
Proof.
  induction n as [|n IH]; intros fp; [reflexivity|].
  destruct fp as [|c fp]; [reflexivity|]. cbn [fgets].
  destruct (Ascii.eqb c LF); [reflexivity|].
  specialize (IH fp). destruct (fgets n fp) as [l r]. cbn in *.
  rewrite <- IH. reflexivity.
Qed.

Lemma skipToNextStation_consumes (fp : stream) (b : Z) :
  0 <= b <= content_length fp ->
  exists skipped line,
    fp = skipped ++ line ++ skipToNextStation fp b /\
    content_length skipped = b /\
    line = fst (fgets 79 (line ++ skipToNextStation fp b)).
Proof.
  intros Hb. unfold skipToNextStation.
  destruct (skip_loop_consumes fp 0 b ltac:(lia)) as (sk & Hsk & Hlen).
  exists sk, (fst (fgets 79 (skip_loop fp 0 b))).
  rewrite <- (fgets_split 79 (skip_loop fp 0 b)).
  split; [exact Hsk|]. split; [lia | reflexivity].
Qed.

(** *** Well-formed stations *)

(** What makes a step after the first one regular: a field of variable
    length is regular and, for an integer, starts within the budget; the
    skip to the next station has a budget that is not negative and that the
    stream can still serve. *)
Definition later_ok (e : step) : bool :=
  match e with
  | Call_getVarlenIntField _ fp b => regular_int_field fp && (1 <=? b)
  | Call_getVarlenFloatField _ fp _ => regular_float_field fp
  | Call_skipToNextStation fp b => (0 <=? b) && (b <=? content_length fp)
  | Call_getIntDigits _ _ => true
  | Profile_level _ => true
  end.

(** The steps of the decoding of a well-formed station: the first one reads
    the size of the station, and all of them are regular. *)
Definition well_formed_station (new : list step) : bool :=
  match new with
  | Call_getVarlenIntField _ fp _ :: rest =>
      regular_size_field fp && forallb later_ok rest
  | _ => false
  end.

(** A stretch of a run, if its steps are regular, leaves the size of the
    station alone and takes from the budget what it consumes of the
    stream, up to [d] bytes that are still to be taken. *)
Definition accounts (d : Z) (s s' : state) : Prop :=
  exists more,
    steps s' = steps s ++ more /\
    (forallb later_ok more = true ->
     long_of bytesInStation s' = long_of bytesInStation s /\
     exists consumed,
       fp_in s = consumed ++ fp_in s' /\
       long_of bytesLeftInStation s' + content_length consumed
       = long_of bytesLeftInStation s + d).

Lemma content_length_nil : content_length [] = 0.
Proof. reflexivity. Qed.

Lemma accounts_refl (s : state) : accounts 0 s s.
Proof.
  exists []. rewrite app_nil_r. split; [reflexivity|]. intros _.
  split; [reflexivity|]. exists []. split; [reflexivity|].
  unfold content_length. cbn. lia.
Qed.

Lemma accounts_trans (d1 d2 : Z) (s1 s2 s3 : state) :
  accounts d1 s1 s2 -> accounts d2 s2 s3 -> accounts (d1 + d2) s1 s3.
Proof.
  intros (m1 & E1 & A1) (m2 & E2 & A2). exists (m1 ++ m2).
  split; [rewrite E2, E1, app_assoc; reflexivity|].
  rewrite forallb_app. intros H. apply andb_true_iff in H. destruct H as [H1 H2].
  destruct (A1 H1) as (S1 & c1 & F1 & B1). destruct (A2 H2) as (S2 & c2 & F2 & B2).
  split; [congruence|]. exists (c1 ++ c2).
  split; [rewrite <- app_assoc, <- F2; exact F1|].
  rewrite content_length_app. lia.
Qed.

Lemma accounts_ret {A : Type} (x : A) : respects (accounts 0) (ret x).
Proof. intros s y s' H. injection H as _ <-. apply accounts_refl. Qed.

Lemma accounts_get : respects (accounts 0) get.
Proof. intros s y s' H. injection H as _ <-. apply accounts_refl. Qed.

Lemma accounts_bind {A B : Type} (d d1 d2 : Z) (m : M A) (k : A -> M B) :
  respects (accounts d1) m -> (forall x, respects (accounts d2) (k x)) ->
  d = d1 + d2 -> respects (accounts d) (bind m k).
Proof.
  intros Hm Hk -> s y s' H. apply bind_inv in H. destruct H as (x & s1 & H1 & H2).
  apply (accounts_trans d1 d2 s s1 s'); [apply (Hm s x s1 H1) | apply (Hk x s1 y s' H2)].
Qed.

Lemma accounts_if {A : Type} (d : Z) (b : bool) (m1 m2 : M A) :
  respects (accounts d) m1 -> respects (accounts d) m2 ->
  respects (accounts d) (if b then m1 else m2).
Proof. destruct b; auto. Qed.

Lemma accounts_for_upto (body : Z -> M unit) (n : nat) :
  (forall j, respects (accounts 0) (body j)) ->
  forall j, respects (accounts 0) (for_upto n j body).
Proof.
  intros Hb. induction n as [|n IH]; intros j.
  - apply accounts_ret.
  - apply (accounts_bind 0 0 0); [apply Hb | intros _; apply IH | reflexivity].
Qed.

Lemma accounts_for_while (cond : Z -> state -> bool) (body : Z -> M unit)
    (fuel : nat) :
  (forall j, respects (accounts 0) (body j)) ->
  forall j, respects (accounts 0) (for_while fuel cond j body).
Proof.
  intros Hb. induction fuel as [|n IH]; intros j.
  - apply accounts_ret.
  - intros s y s' H. cbn [for_while] in H. destruct (cond j s).
    + revert H. apply (accounts_bind 0 0 0); [apply Hb | intros _; apply IH | reflexivity].
    + injection H as _ <-. apply accounts_refl.
Qed.

(** An assignment that touches neither the stream nor the budget. *)
Lemma accounts_frame (f : state -> state) :
  (forall s, steps (f s) = steps s /\ fp_in (f s) = fp_in s /\
             long_of bytesLeftInStation (f s) = long_of bytesLeftInStation s /\
             long_of bytesInStation (f s) = long_of bytesInStation s) ->
  respects (accounts 0) (modify f).
Proof.
  intros Hf s y s' H. injection H as _ <-. destruct (Hf s) as (E & F & B & S).
  exists []. rewrite app_nil_r. split; [exact E|]. intros _.
  split; [exact S|]. exists []. split; [symmetry; exact F|].
  rewrite content_length_nil. lia.
Qed.

Lemma accounts_level (j : Z) :
  respects (accounts 0) (modify (record_step (Profile_level j))).
Proof.
  intros s y s' H. injection H as _ <-. exists [Profile_level j].
  split; [reflexivity|]. intros _. split; [reflexivity|].
  exists []. split; [reflexivity|].
  rewrite content_length_nil, !Z.add_0_r. reflexivity.
Qed.

Lemma accounts_decrement (n : Z) :
  respects (accounts (- n)) (decrement_bytesLeftInStation n).
Proof.
  intros s y s' H. injection H as _ <-. exists []. rewrite app_nil_r.
  split; [reflexivity|]. intros _. split; [reflexivity|].
  exists []. split; [reflexivity|].
  change (long_of bytesLeftInStation s - n + content_length []
          = long_of bytesLeftInStation s + - n).
  rewrite content_length_nil. lia.
Qed.

(** The objects that are neither the budget nor the size of the station. *)
Definition away (p : long_ptr) : Prop :=
  p <> LongMember bytesLeftInStation /\ p <> LongMember bytesInStation.

Lemma store_long_away (p : long_ptr) (v : Z) (s : state) :
  away p ->
  steps (store_long p v s) = steps s /\ fp_in (store_long p v s) = fp_in s /\
  long_of bytesLeftInStation (store_long p v s) = long_of bytesLeftInStation s /\
  long_of bytesInStation (store_long p v s) = long_of bytesInStation s.
Proof.
  intros [H1 H2]. destruct p as [f| | |]; try (repeat split; reflexivity).
  destruct f; try (repeat split; reflexivity); congruence.
Qed.

Lemma store_double_away (p : double_ptr) (v : float) (s : state) :
  steps (store_double p v s) = steps s /\ fp_in (store_double p v s) = fp_in s /\
  long_of bytesLeftInStation (store_double p v s) = long_of bytesLeftInStation s /\
  long_of bytesInStation (store_double p v s) = long_of bytesInStation s.
Proof. destruct p; repeat split; reflexivity. Qed.

Lemma accounts_call_getIntDigits (pf : platform) (n : Z) (p : long_ptr) :
  0 <= n -> away p -> respects (accounts n) (call_getIntDigits pf n p).
Proof.
  intros Hn Hp s y s' H. unfold call_getIntDigits in H.
  destruct (getIntDigits pf (fp_in s) n (load_long pf p s)) as [[st v] fp'|] eqn:E;
    [|discriminate].
  injection H as _ <-.
  destruct (store_long_away p v (set_fp_in fp' s) Hp) as (T & F' & B & S).
  exists [Call_getIntDigits n p].
  split; [change (steps (store_long p v (set_fp_in fp' s)) ++ [Call_getIntDigits n p]
                  = steps s ++ [Call_getIntDigits n p]); rewrite T; reflexivity|].
  intros _. split; [exact S|].
  destruct (getIntDigits_consumes pf _ _ _ _ _ _ E) as (consumed & F & L & _).
  exists consumed.
  split; [change (fp_in s = consumed ++ fp_in (store_long p v (set_fp_in fp' s)));
          rewrite F'; exact F|].
  change (long_of bytesLeftInStation (store_long p v (set_fp_in fp' s))
          + content_length consumed = long_of bytesLeftInStation s + n).
  rewrite B, L. change (long_of bytesLeftInStation (set_fp_in fp' s))
    with (long_of bytesLeftInStation s). lia.
Qed.

Lemma accounts_call_getVarlenIntField (pf : platform) (p : long_ptr) :
  away p -> respects (accounts 0) (call_getVarlenIntField pf p).
Proof.
  intros Hp s y s' H. unfold call_getVarlenIntField in H.
  destruct (getVarlenIntField pf (fp_in s) (load_long pf p s)
              (long_of bytesLeftInStation s)) as [[[st v] b] fp'|] eqn:E;
    [|discriminate].
  injection H as _ <-.
  destruct (store_long_away p v (set_fp_in fp' s) Hp) as (T & F' & _ & S).
  exists [Call_getVarlenIntField p (fp_in s) (long_of bytesLeftInStation s)].
  split; [change (steps (store_long p v (set_fp_in fp' s)) ++
                  [Call_getVarlenIntField p (fp_in s) (long_of bytesLeftInStation s)]
                  = steps s ++
                  [Call_getVarlenIntField p (fp_in s) (long_of bytesLeftInStation s)]);
          rewrite T; reflexivity|].
  cbn [forallb later_ok]. intros Hok.
  rewrite andb_true_r in Hok. apply andb_true_iff in Hok. destruct Hok as [Hreg Hb].
  apply Z.leb_le in Hb.
  split; [exact S|].
  destruct (getVarlenIntField_regular pf _ _ _ _ _ _ _ Hreg Hb E) as (consumed & F & L).
  exists consumed.
  split; [change (fp_in s = consumed ++ fp_in (store_long p v (set_fp_in fp' s)));
          rewrite F'; exact F|].
  change (b + content_length consumed = long_of bytesLeftInStation s + 0). lia.
Qed.

Lemma accounts_call_getVarlenFloatField (pf : platform) (p : double_ptr) :
  respects (accounts 0) (call_getVarlenFloatField pf p).
Proof.
  intros s y s' H. unfold call_getVarlenFloatField in H.
  destruct (getVarlenFloatField pf (fp_in s) (load_double p s)
              (long_of bytesLeftInStation s)) as [[[st v] b] fp'|] eqn:E;
    [|discriminate].
  injection H as _ <-.
  destruct (store_double_away p v (set_fp_in fp' s)) as (T & F' & _ & S).
  exists [Call_getVarlenFloatField p (fp_in s) (long_of bytesLeftInStation s)].
  split; [change (steps (store_double p v (set_fp_in fp' s)) ++
                  [Call_getVarlenFloatField p (fp_in s) (long_of bytesLeftInStation s)]
                  = steps s ++
                  [Call_getVarlenFloatField p (fp_in s) (long_of bytesLeftInStation s)]);
          rewrite T; reflexivity|].
  cbn [forallb later_ok]. intros Hreg.
  rewrite andb_true_r in Hreg.
  split; [exact S|].
  destruct (getVarlenFloatField_regular pf _ _ _ _ _ _ _ Hreg E) as (consumed & F & L).
  exists consumed.
  split; [change (fp_in s = consumed ++ fp_in (store_double p v (set_fp_in fp' s)));
          rewrite F'; exact F|].
  change (b + content_length consumed = long_of bytesLeftInStation s + 0). lia.
Qed.

Ltac away_tac := split; discriminate.

Ltac frame_tac :=
  intros ?; unfold last_bottomDepth, database_bottomDepth;
  repeat break_match; repeat split; reflexivity.

Ltac accounts_structure :=
  repeat first
    [ eapply accounts_bind; [ | intros ? | ]
    | apply accounts_ret
    | apply accounts_get
    | apply accounts_if
    | apply accounts_for_upto; intros ?
    | apply accounts_for_while; intros ?
    | apply accounts_decrement
    | apply accounts_level
    | apply accounts_call_getIntDigits; [lia | away_tac]
    | apply accounts_call_getVarlenIntField; away_tac
    | apply accounts_call_getVarlenFloatField
    | apply accounts_frame; frame_tac
    | match goal with |- @eq Z _ _ => reflexivity end ].

Ltac unfold_station_budget :=
  unfold read_station_header, read_variable_code, read_character_data,
    read_secondary_header, read_secondary_header_entry, first_bottomDepth,
    header_bottomDepth, decide_on_rest, read_rest_of_station,
    read_biological_header, skip_section, skip_byte, read_profile,
    read_profile_level, read_value, if_zero_length, fscanf_dbBathy, fprintf_stderr.

Lemma read_station_header_accounts (pf : platform) :
  respects (accounts 0) (read_station_header pf).
Proof. unfold_station_budget. accounts_structure. Qed.

Lemma read_character_data_accounts (pf : platform) :
  respects (accounts 0) (read_character_data pf).
Proof. unfold_station_budget. accounts_structure. Qed.

Lemma read_secondary_header_accounts (pf : platform) :
  respects (accounts 0) (read_secondary_header pf).
Proof. unfold_station_budget. accounts_structure. Qed.

Lemma first_bottomDepth_accounts (pf : platform) (a : arguments) :
  respects (accounts 0) (first_bottomDepth pf a).
Proof. unfold_station_budget. accounts_structure. Qed.

Lemma decide_on_rest_accounts (a : arguments) :
  respects (accounts 0) (decide_on_rest a).
Proof. unfold_station_budget. accounts_structure. Qed.

Lemma read_rest_of_station_accounts (pf : platform) (a : arguments) :
  respects (accounts 0) (read_rest_of_station pf a).
Proof. unfold_station_budget. accounts_structure. Qed.

(** The first two fields: the size sets the budget. *)
Lemma read_station_size_accounts (pf : platform) (s s1 : state) :
  read_station_size pf s = Ret tt s1 ->
  exists p b more,
    steps s1 = steps s ++ Call_getVarlenIntField p (fp_in s) b :: more /\
    (regular_size_field (fp_in s) = true -> forallb later_ok more = true ->
     exists consumed,
       fp_in s = consumed ++ fp_in s1 /\
       long_of bytesLeftInStation s1 + content_length consumed
       = long_of bytesInStation s1).
Proof.
  unfold read_station_size. intros H.
  apply bind_inv in H. destruct H as ([] & s0 & H0 & H). injection H0 as <-.
  apply bind_inv in H. destruct H as (st1 & sa & Ha & H).
  apply bind_inv in H. destruct H as ([] & sb & Hb & H).
  assert (Hrest : accounts 0 sb s1).
  { revert H.
    match goal with |- ?m _ = _ -> _ => assert (Hm : respects (accounts 0) m) end.
    { unfold_station_budget. accounts_structure. }
    apply Hm. }
  unfold call_getVarlenIntField in Ha.
  destruct (getVarlenIntField pf _ _ _) as [[[st v] b] fp'|] eqn:E in Ha;
    [|discriminate].
  injection Ha as <- <-.
  change (fp_in (store_long_member bytesLeftInStation (-1) s)) with (fp_in s) in E.
  change (long_of bytesLeftInStation (store_long_member bytesLeftInStation (-1) s))
    with (-1) in E.
  destruct Hrest as (more & Emore & Hacc).
  assert (Esb : steps sb = steps s ++
            [Call_getVarlenIntField (LongMember bytesInStation) (fp_in s) (-1)]).
  { unfold if_zero_length in Hb.
    destruct (status_eqb st ZERO_LENGTH_FIELD); injection Hb as Eb; rewrite <- Eb;
      reflexivity. }
  exists (LongMember bytesInStation), (-1), more.
  split; [rewrite Emore, Esb, <- app_assoc; reflexivity|].
  intros Hreg Hok.
  destruct (getVarlenIntField_size pf _ _ _ _ _ _ Hreg E) as (-> & c1 & F1 & B1).
  injection Hb as <-.
  destruct (Hacc Hok) as (S & c2 & F2 & B2).
  set (sa := record_step _ _) in *.
  assert (Va : long_of bytesInStation sa = v) by reflexivity.
  assert (Ba : long_of bytesLeftInStation sa = b) by reflexivity.
  assert (Fa : fp_in sa = fp') by reflexivity.
  exists (c1 ++ c2). split.
  - rewrite <- app_assoc, <- F2, Fa. exact F1.
  - rewrite content_length_app, S, Va. rewrite Ba in B2. lia.
Qed.

(** The end of a run: once the fields have been accounted for, the skip
    takes the bytes that are left and the line that follows them. *)
Lemma budget_spent (s s7 s' : state) (p : long_ptr) (b : Z)
    (more new : list step) :
  steps s7 = steps s ++ Call_getVarlenIntField p (fp_in s) b :: more ->
  (regular_size_field (fp_in s) = true -> forallb later_ok more = true ->
   exists consumed,
     fp_in s = consumed ++ fp_in s7 /\
     long_of bytesLeftInStation s7 + content_length consumed
     = long_of bytesInStation s7) ->
  steps s' = steps s7 ++
    [Call_skipToNextStation (fp_in s7) (long_of bytesLeftInStation s7)] ->
  fp_in s' = skipToNextStation (fp_in s7) (long_of bytesLeftInStation s7) ->
  long_of bytesInStation s' = long_of bytesInStation s7 ->
  steps s' = steps s ++ new ->
  well_formed_station new = true ->
  exists station line,
    fp_in s = station ++ line ++ fp_in s' /\
    content_length station = long_of bytesInStation s' /\
    line = fst (fgets 79 (line ++ fp_in s')).
Proof.
  intros E7 A7 E' F' S' Hnew Hwf.
  rewrite E', E7, <- app_assoc in Hnew. apply app_inv_head in Hnew.
  cbn [app] in Hnew. subst new. cbn [well_formed_station] in Hwf.
  apply andb_true_iff in Hwf. destruct Hwf as [Hsize Hok].
  rewrite forallb_app in Hok. apply andb_true_iff in Hok. destruct Hok as [Hok Hskip].
  cbn [forallb later_ok] in Hskip. rewrite andb_true_r in Hskip.
  apply andb_true_iff in Hskip. destruct Hskip as [Hb0 Hb1].
  apply Z.leb_le in Hb0. apply Z.leb_le in Hb1.
  destruct (A7 Hsize Hok) as (consumed & F & B).
  destruct (skipToNextStation_consumes (fp_in s7) (long_of bytesLeftInStation s7)
              (conj Hb0 Hb1)) as (skipped & line & Fs & Ls & Hline).
  rewrite <- F' in Fs, Hline.
  exists (consumed ++ skipped), line. split.
  - rewrite <- app_assoc, <- Fs. exact F.
  - split; [rewrite content_length_app, S'; lia | exact Hline].
Qed.

(** C1.  For a well-formed station (the first step reads a regular, non-empty
    size; every later field of variable length is regular and, for an
    integer, starts within the budget; the final skip has a budget that is
    not negative and that the stream can serve), what getOCLStationData
    consumes of the stream on either path, SUCCESSFUL or SKIPPED, is a
    stretch [station] that holds exactly bytesInStation content bytes (the
    bytes that the decoding steps consumed and the bytes that
    skipToNextStation discarded), followed by the one line that the fgets of
    skipToNextStation reads to realign. *)
Theorem station_bytes_accounted (pf : platform) (a : arguments) (s s' : state)
    (st : status) (new : list step) :
  getOCLStationData pf a s = Ret st s' ->
  steps s' = steps s ++ new ->
  well_formed_station new = true ->
  exists station line,
    fp_in s = station ++ line ++ fp_in s' /\
    content_length station = long_of bytesInStation s' /\
    line = fst (fgets 79 (line ++ fp_in s')).
Proof.
  intros H Hnew Hwf.
  apply getOCLStationData_run in H.
  destruct H as (s1 & H1 & [(_ & Hs) | (_ & _ & s2 & s3 & s4 & s5 & s6 & s7 & wanted
                 & H2 & H3 & H4 & H5 & H6 & H7 & H8)]).
  - destruct (read_station_size_accounts pf s s1 H1) as (p & b & more & E1 & A1).
    unfold skip_station, call_skipToNextStation, fscanf_dbBathy, bind, modify, ret in Hs.
    apply (budget_spent s s1 s' p b more new E1 A1); try assumption;
      destruct (truth (dbBathyFlag a));
      injection Hs as _ <-; repeat break_match; reflexivity.
  - destruct (read_station_size_accounts pf s s1 H1) as (p & b & more & E1 & A1).
    assert (A : accounts 0 s1 s7).
    { apply (accounts_trans 0 0 s1 s2); [apply (read_station_header_accounts pf s1 tt s2 H2)|].
      apply (accounts_trans 0 0 s2 s3); [apply (read_character_data_accounts pf s2 tt s3 H3)|].
      apply (accounts_trans 0 0 s3 s4); [apply (read_secondary_header_accounts pf s3 tt s4 H4)|].
      apply (accounts_trans 0 0 s4 s5); [apply (first_bottomDepth_accounts pf a s4 tt s5 H5)|].
      apply (accounts_trans 0 0 s5 s6); [apply (decide_on_rest_accounts a s5 wanted s6 H6)|].
      destruct wanted; [apply (read_rest_of_station_accounts pf a s6 tt s7 H7)|].
      subst s7. apply accounts_refl. }
    destruct A as (mid & Emid & Amid).
    unfold call_skipToNextStation, modify in H8. injection H8 as E8.
    apply (budget_spent s s7 s' p b (more ++ mid) new).
    + rewrite Emid, E1, <- app_assoc. reflexivity.
    + intros Hsize Hok. rewrite forallb_app in Hok. apply andb_true_iff in Hok.
      destruct Hok as [Hok1 Hok2].
      destruct (A1 Hsize Hok1) as (c1 & F1 & B1).
      destruct (Amid Hok2) as (S & c2 & F2 & B2).
      exists (c1 ++ c2). split; [rewrite <- app_assoc, <- F2; exact F1|].
      rewrite content_length_app, S. lia.
    + rewrite <- E8. reflexivity.
    + rewrite <- E8. reflexivity.
    + rewrite <- E8. reflexivity.
    + exact Hnew.
    + exact Hwf.
Qed.

(** ** checkVarsInclAndNoErrors *)

(** The number of k in [k, k+n) that satisfy p, and the sum of f over
    [j, j+n): what the two loops of checkVarsInclAndNoErrors compute. *)
Fixpoint count_range (n : nat) (k : Z) (p : Z -> bool) : Z :=
  match n with
  | O => 0
  | S n' => (if p k then 1 else 0) + count_range n' (k + 1) p
  end.

Fixpoint sum_range (n : nat) (j : Z) (f : Z -> Z) : Z :=
  match n with
  | O => 0
  | S n' => f j + sum_range n' (j + 1) f
  end.

Lemma count_range_nonneg (p : Z -> bool) (n : nat) : forall k, 0 <= count_range n k p.
Proof.
  induction n as [|n IH]; intros k; cbn [count_range]; [lia|].
  specialize (IH (k + 1)). destruct (p k); lia.
Qed.

Lemma count_range_zero (p : Z -> bool) (n : nat) : forall k,
  count_range n k p = 0 <-> (forall i, k <= i < k + Z.of_nat n -> p i = false).
Proof.
  induction n as [|n IH]; intros k; cbn [count_range].
  - split; [intros _ i Hi; lia | reflexivity].
  - pose proof (count_range_nonneg p n (k + 1)) as Hn.
    specialize (IH (k + 1)). split.
    + intros H i Hi. destruct (p k) eqn:Ek; [lia|].
      destruct (Z.eq_dec i k) as [->|Hne]; [exact Ek|].
      apply IH; lia.
    + intros H. rewrite (H k) by lia.
      apply IH. intros i Hi. apply H. lia.
Qed.

Lemma count_range_exists (p : Z -> bool) (n : nat) : forall k,
  0 < count_range n k p <-> (exists i, k <= i < k + Z.of_nat n /\ p i = true).
Proof.
  induction n as [|n IH]; intros k; cbn [count_range].
  - split; [lia | intros (i & Hi & _); lia].
  - pose proof (count_range_nonneg p n (k + 1)) as Hn.
    specialize (IH (k + 1)). split.
    + intros H. destruct (p k) eqn:Ek.
      * exists k. split; [lia | exact Ek].
      * destruct (proj1 IH) as (i & Hi & Ei); [lia|].
        exists i. split; [lia | exact Ei].
    + intros (i & Hi & Ei). destruct (Z.eq_dec i k) as [->|Hne].
      * rewrite Ei. lia.
      * assert (0 < count_range n (k + 1) p).
        { apply IH. exists i. split; [lia | exact Ei]. }
        destruct (p k); lia.
Qed.

Lemma count_range_le_1 (p : Z -> bool) (n : nat) : forall k,
  (forall i i', k <= i < k + Z.of_nat n -> k <= i' < k + Z.of_nat n ->
                p i = true -> p i' = true -> i = i') ->
  count_range n k p <= 1.
Proof.
  induction n as [|n IH]; intros k H; cbn [count_range]; [lia|].
  destruct (p k) eqn:Ek.
  - assert (Z0 : count_range n (k + 1) p = 0).
    { apply count_range_zero. intros i Hi.
      destruct (p i) eqn:Ei; [|reflexivity].
      assert (i = k) by (apply H; [lia | lia | exact Ei | exact Ek]). lia. }
    lia.
  - assert (count_range n (k + 1) p <= 1); [|lia].
    apply IH. intros i i' Hi Hi'. apply H; lia.
Qed.

Lemma sum_range_unit (f : Z -> Z) (n : nat) : forall j,
  (forall i, j <= i < j + Z.of_nat n -> 0 <= f i <= 1) ->
  sum_range n j f <= Z.of_nat n /\
  (Z.of_nat n <= sum_range n j f <->
   forall i, j <= i < j + Z.of_nat n -> f i = 1).
Proof.
  induction n as [|n IH]; intros j H; cbn [sum_range].
  - split; [lia|]. split; [intros _ i Hi; lia | lia].
  - destruct (IH (j + 1)) as (Hle & Hall); [intros i Hi; apply H; lia|].
    pose proof (H j ltac:(lia)) as Hj.
    split; [lia|]. split.
    + intros Hs i Hi. destruct (Z.eq_dec i j) as [->|Hne]; [lia|].
      apply Hall; lia.
    + intros Hs. rewrite (Hs j) by lia.
      assert (Z.of_nat n <= sum_range n (j + 1) f); [|lia].
      apply Hall. intros i Hi. apply Hs. lia.
Qed.

Lemma sum_range_zero (f : Z -> Z) (n : nat) : forall j,
  (forall i, j <= i < j + Z.of_nat n -> 0 <= f i) ->
  0 <= sum_range n j f /\
  (sum_range n j f = 0 <-> forall i, j <= i < j + Z.of_nat n -> f i = 0).
Proof.
  induction n as [|n IH]; intros j H; cbn [sum_range].
  - split; [lia|]. split; [intros _ i Hi; lia | reflexivity].
  - destruct (IH (j + 1)) as (Hle & Hall); [intros i Hi; apply H; lia|].
    pose proof (H j ltac:(lia)) as Hj.
    split; [lia|]. split.
    + intros Hs i Hi. destruct (Z.eq_dec i j) as [->|Hne]; [lia|].
      apply Hall; lia.
    + intros Hs. rewrite (Hs j) by lia.
      assert (sum_range n (j + 1) f = 0); [|lia].
      apply Hall. intros i Hi. apply Hs. lia.
Qed.

Section CheckVars.
Variables varRequestedList varCodeList errCodeList : Z -> Z.

Definition matches (j k : Z) : bool := varCodeList k =? varRequestedList j.
Definition flagged (j k : Z) : bool := matches j k && (0 <? errCodeList k).

Lemma inner_loop (j : Z) (n : nat) : forall k acc,
  for_range n k (fun k acc =>
    if varCodeList k =? varRequestedList j then
      (fst acc + 1, if 0 <? errCodeList k then snd acc + 1 else snd acc)
    else acc) acc
  = (fst acc + count_range n k (matches j), snd acc + count_range n k (flagged j)).
Proof.
  induction n as [|n IH]; intros k [m e]; cbn [for_range count_range fst snd].
  - f_equal; lia.
  - rewrite IH. unfold flagged, matches.
    destruct (varCodeList k =? varRequestedList j); cbn [fst snd andb];
      [destruct (0 <? errCodeList k)|]; cbn [fst snd]; f_equal; lia.
Qed.

Lemma outer_loop (nc : nat) (n : nat) : forall j acc,
  for_range n j (fun j acc =>
    for_range nc 0 (fun k acc =>
      if varCodeList k =? varRequestedList j then
        (fst acc + 1, if 0 <? errCodeList k then snd acc + 1 else snd acc)
      else acc) acc) acc
  = (fst acc + sum_range n j (fun j => count_range nc 0 (matches j)),
     snd acc + sum_range n j (fun j => count_range nc 0 (flagged j))).
Proof.
  induction n as [|n IH]; intros j [m e]; cbn [for_range sum_range fst snd].
  - f_equal; lia.
  - rewrite inner_loop, IH. cbn [fst snd]. f_equal; lia.
Qed.

(** What checkVarsInclAndNoErrors computes: it counts the pairs (j, k) of a
    requested and a declared code that are equal, and those of them with a
    positive error code. *)
Lemma checkVarsInclAndNoErrors_counts (numVarsRequested numVarCodes : Z) :
  checkVarsInclAndNoErrors varRequestedList varCodeList errCodeList
    numVarsRequested numVarCodes =
  if (numVarsRequested <=?
        sum_range (Z.to_nat numVarsRequested) 0
          (fun j => count_range (Z.to_nat numVarCodes) 0 (matches j)))
     && (sum_range (Z.to_nat numVarsRequested) 0
           (fun j => count_range (Z.to_nat numVarCodes) 0 (flagged j)) =? 0)
  then 1 else 0.
Proof.
  unfold checkVarsInclAndNoErrors. rewrite outer_loop. reflexivity.
Qed.

(** Where the declared codes are pairwise distinct and no error code is
    negative, the check passes exactly when every requested code is among
    the declared codes and none of the declared codes that are requested
    has an error code other than 0. *)
Lemma checkVarsInclAndNoErrors_distinct (numVarsRequested numVarCodes : Z) :
  (forall k k', 0 <= k < numVarCodes -> 0 <= k' < numVarCodes ->
                varCodeList k = varCodeList k' -> k = k') ->
  (forall k, 0 <= k < numVarCodes -> 0 <= errCodeList k) ->
  checkVarsInclAndNoErrors varRequestedList varCodeList errCodeList
    numVarsRequested numVarCodes = 1 <->
  (forall j, 0 <= j < numVarsRequested ->
     exists k, 0 <= k < numVarCodes /\ varCodeList k = varRequestedList j) /\
  (forall j k, 0 <= j < numVarsRequested -> 0 <= k < numVarCodes ->
     varCodeList k = varRequestedList j -> errCodeList k = 0).
Proof.
  intros Hdistinct Herr. rewrite checkVarsInclAndNoErrors_counts.
  set (nr := Z.to_nat numVarsRequested). set (nc := Z.to_nat numVarCodes).
  assert (Hin : forall k, 0 <= k < 0 + Z.of_nat nc <-> 0 <= k < numVarCodes)
    by (intros k; unfold nc; lia).
  assert (Hone : forall j, 0 <= count_range nc 0 (matches j) <= 1).
  { intros j. split; [apply count_range_nonneg|].
    apply count_range_le_1. intros i i' Hi Hi' Ei Ei'.
    unfold matches in Ei, Ei'. apply Z.eqb_eq in Ei, Ei'.
    apply Hdistinct; [apply Hin; exact Hi | apply Hin; exact Hi' | congruence]. }
  destruct (sum_range_unit (fun j => count_range nc 0 (matches j)) nr 0)
    as (Hle & Hall); [intros i _; apply Hone|].
  destruct (sum_range_zero (fun j => count_range nc 0 (flagged j)) nr 0)
    as (_ & Hnone); [intros i _; apply count_range_nonneg|].
  assert (Hpresent : forall j,
            count_range nc 0 (matches j) = 1 <->
            exists k, 0 <= k < numVarCodes /\ varCodeList k = varRequestedList j).
  { intros j. pose proof (Hone j) as H01.
    pose proof (count_range_exists (matches j) nc 0) as Hex. split.
    - intros H1. destruct (proj1 Hex) as (k & Hk & Ek); [lia|].
      exists k. split; [apply Hin; exact Hk | apply Z.eqb_eq; exact Ek].
    - intros (k & Hk & Ek).
      assert (0 < count_range nc 0 (matches j)); [|lia].
      apply Hex. exists k. split; [apply Hin; exact Hk | apply Z.eqb_eq; exact Ek]. }
  assert (Hclean : forall j,
            count_range nc 0 (flagged j) = 0 <->
            forall k, 0 <= k < numVarCodes ->
                      varCodeList k = varRequestedList j -> errCodeList k = 0).
  { intros j. rewrite count_range_zero. split.
    - intros H k Hk Ek. specialize (H k (proj2 (Hin k) Hk)).
      unfold flagged, matches in H. rewrite (proj2 (Z.eqb_eq _ _) Ek) in H.
      cbn [andb] in H. apply Z.ltb_ge in H. specialize (Herr k Hk). lia.
    - intros H k Hk. unfold flagged, matches.
      destruct (Z.eqb_spec (varCodeList k) (varRequestedList j)) as [Ek|_];
        [|reflexivity].
      cbn [andb]. apply Z.ltb_ge. rewrite (H k (proj1 (Hin k) Hk) Ek). lia. }
  assert (Hjs : forall j, 0 <= j < numVarsRequested -> 0 <= j < 0 + Z.of_nat nr)
    by (intros j; unfold nr; lia).
  destruct (Z.leb_spec numVarsRequested
              (sum_range nr 0 (fun j => count_range nc 0 (matches j)))) as [Hge|Hlt];
    cbn [andb].
  - destruct (Z.eqb_spec (sum_range nr 0 (fun j => count_range nc 0 (flagged j))) 0)
      as [Hz|Hnz].
    + split; [intros _|reflexivity]. split.
      * intros j Hj. apply Hpresent. apply Hall; [unfold nr in *; lia | apply Hjs; exact Hj].
      * intros j k Hj. apply Hclean. apply (proj1 Hnone Hz). apply Hjs. exact Hj.
    + split; [discriminate|]. intros (_ & Hc). exfalso. apply Hnz.
      apply Hnone. intros j Hj. apply Hclean. intros k. apply Hc. unfold nr in Hj. lia.
  - split; [discriminate|]. intros (Hp & _). exfalso.
    assert (Z.of_nat nr <= sum_range nr 0 (fun j => count_range nc 0 (matches j)));
      [|unfold nr in *; lia].
    apply Hall. intros j Hj. apply Hpresent. apply Hp. unfold nr in Hj. lia.
Qed.

End CheckVars.

(** ** Example stations

    Runs of the decoder on concrete stations.  A run is not normalised:
    what it returns is tested with a boolean, which is computed. *)

(** A station structure with nothing in it yet. *)
Definition blank_station : OCLStationType :=
  {| long_members := fun _ => 0; long_arrays := fun _ _ => 0;
     errCodeForVarValue := fun _ _ => 0;
     double_members := fun _ => 0%float; double_arrays := fun _ _ => 0%float;
     varValue := fun _ _ => 0%float;
     bottomDepthPtr := None; bottomDepthSource := NUL;
     int_members := fun _ => 0 |}.

(** The state a run starts in: a stream, a bathymetry file, and nothing
    written or called so far. *)
Definition start (fp : stream) (bathy : list bathy_line) : state :=
  {| fp_in := fp; fp_dbBathy := bathy; databaseBathyValue := 0%float;
     stderr := []; stnData := blank_station; steps := [] |}.

(** Station 0, the profile wanted, no filter and no bathymetry file. *)
Definition plain_arguments : arguments :=
  {| stn := 0; wantProfileFlag := 1; skipFlag := 0; stnToSkipTo := 0;
     varListFlag := 0; varList := fun _ => 0; numVarsOnVarList := 0;
     minLevelsFlag := 0; minLevels := 0;
     latlonRegionFlag := 0; latlonRegion := fun _ => 0%float;
     yearRangeFlag := 0; yearRange := fun _ => 0;
     monthRangeFlag := 0; monthRange := fun _ => 0;
     dbBathyFlag := 0; zeroLatLonFlag := 0; wmoSquare := [] |}.


Definition holds {A : Type} (r : outcome A) (P : A -> state -> bool) : bool :=
  match r with
  | Ret x s => P x s
  | Exit _ => false
  end.

Lemma holds_returns {A : Type} (r : outcome A) (P : A -> state -> bool) :
  holds r P = true -> exists x s, r = Ret x s /\ P x s = true.
Proof.
  destruct r as [x s|err]; cbn [holds]; intros H; [|discriminate H].
  exists x, s. split; [reflexivity | exact H].
Qed.

Definition stream_eqb (x y : stream) : bool :=
  String.eqb (string_of_list_ascii x) (string_of_list_ascii y).

Lemma stream_eqb_eq (x y : stream) : stream_eqb x y = true -> x = y.
Proof.
  unfold stream_eqb. intros H. apply String.eqb_eq in H.
  rewrite <- (list_ascii_of_string_of_list_ascii x),
          <- (list_ascii_of_string_of_list_ascii y), H.
  reflexivity.
Qed.

(** A station of 77 content bytes with one variable, one entry (code 10,
    value 400) in the secondary header and two levels, at depths 5 and
    12.5; the line that ends it is followed by the next station. *)
Definition station1 : stream :=
  list_ascii_of_string
    ("27715121319900615-" ++ "331123331456" ++ "12" ++ "0" ++ "01" ++ "110" ++ "0"
     ++ "17" ++ "11" ++ "210" ++ "330400" ++ "0"
     ++ "11050" ++ "221950" ++ "3311250" ++ "221900" ++ "   
NEXT").

Lemma station_bytes_accounted_witness :
  exists st s' station line,
    getOCLStationData example_platform plain_arguments (start station1 []) = Ret st s' /\
    station1 = station ++ line ++ fp_in s' /\
    content_length station = long_of bytesInStation s' /\
    line = fst (fgets 79 (line ++ fp_in s')) /\
    long_of bytesInStation s' = 77 /\
    fp_in s' = list_ascii_of_string "NEXT".
Proof.
  destruct (holds_returns
              (getOCLStationData example_platform plain_arguments (start station1 []))
              (fun _ s' => well_formed_station (steps s')
                           && (long_of bytesInStation s' =? 77)
                           && stream_eqb (fp_in s') (list_ascii_of_string "NEXT")))
    as (st & s' & E & H); [vm_compute; reflexivity|].
  apply andb_prop in H. destruct H as (H & Hrest).
  apply andb_prop in H. destruct H as (Hwf & Hsize).
  destruct (station_bytes_accounted example_platform plain_arguments
              (start station1 []) s' st (steps s') E eq_refl Hwf)
    as (station & line & Hsplit & Hlen & Hline).
  exists st, s', station, line.
  split; [exact E|]. split; [exact Hsplit|]. split; [exact Hlen|].
  split; [exact Hline|]. split; [apply Z.eqb_eq; exact Hsize|].
  apply stream_eqb_eq. exact Hrest.
Defined.

Definition levels_eqb (x y : list Z) : bool :=
  if list_eq_dec Z.eq_dec x y then true else false.

Lemma levels_eqb_eq (x y : list Z) : levels_eqb x y = true -> x = y.
Proof. unfold levels_eqb. destruct (list_eq_dec Z.eq_dec x y); [trivial | discriminate]. Qed.

(** A station of one level, at depth 5, whose secondary header has an entry
    with code 10 and no value (a field of length "-"). *)
Definition station2 : stream :=
  list_ascii_of_string
    ("25015121319900615-" ++ "331123331456" ++ "11" ++ "0" ++ "00" ++ "0"
     ++ "17" ++ "11" ++ "210" ++ "-" ++ "0"
     ++ "11050" ++ "
").

(** C2.  A station can leave a bottom depth that is not at or below its
    last level.  On the station above, whose header has the bottom depth
    entry without a value, getOCLStationData returns SUCCESSFUL, the
    profile is read and its one level is decoded at depth 5, and the bottom
    depth selected at the end is still the entry of the header, a NaN, with
    bottomDepthSource 'h': "selected >= last" is false. *)
Lemma bottomDepth_missing_header_value :
  exists st s',
    getOCLStationData example_platform plain_arguments (start station2 []) = Ret st s' /\
    st = SUCCESSFUL /\
    profile_levels (steps s') = [0] /\
    long_of numberOfLevels s' = 1 /\
    bottomDepthPtr (stnData s') = Some (DoubleElem secHdrValue 0) /\
    bottomDepthSource (stnData s') = "h"%char /\
    PrimFloat.eqb (double_at depthValue 0 s') 5%float = true /\
    PrimFloat.leb (double_at depthValue 0 s') (bottomDepth example_platform s') = false.
Proof.
  destruct (holds_returns
              (getOCLStationData example_platform plain_arguments (start station2 []))
              (fun st s' =>
                 status_eqb st SUCCESSFUL
                 && levels_eqb (profile_levels (steps s')) [0]
                 && (long_of numberOfLevels s' =? 1)
                 && match bottomDepthPtr (stnData s') with
                    | Some (DoubleElem secHdrValue 0) => true
                    | _ => false
                    end
                 && Ascii.eqb (bottomDepthSource (stnData s')) "h"%char
                 && PrimFloat.eqb (double_at depthValue 0 s') 5%float
                 && negb (PrimFloat.leb (double_at depthValue 0 s')
                            (bottomDepth example_platform s'))))
    as (st & s' & E & H); [vm_compute; reflexivity|].
  exists st, s'. split; [exact E|]. clear E.
  apply andb_prop in H. destruct H as (H & Hleb).
  apply andb_prop in H. destruct H as (H & Hdepth).
  apply andb_prop in H. destruct H as (H & Hsrc).
  apply andb_prop in H. destruct H as (H & Hptr).
  apply andb_prop in H. destruct H as (H & Hnl).
  apply andb_prop in H. destruct H as (Hst & Hlev).
  split; [destruct st; first [reflexivity | discriminate Hst]|].
  split; [apply levels_eqb_eq; exact Hlev|].
  split; [apply Z.eqb_eq; exact Hnl|].
  split.
  { destruct (bottomDepthPtr (stnData s')) as [[f | f j | j k |]|];
      try discriminate Hptr.
    destruct f; try discriminate Hptr.
    destruct j; first [reflexivity | discriminate Hptr]. }
  split; [apply Ascii.eqb_eq; exact Hsrc|].
  split; [exact Hdepth|].
  apply negb_true_iff. exact Hleb.
Defined.

(** A station at latitude 12.5 with the header depth 400, and a line of the
    bathymetry file that gives -500 for it. *)
Definition with_header_depth : state :=
  store_double (DoubleMember lat) 12.5%float
    (store_double (DoubleElem secHdrValue 0) 400%float
       (store_long (LongElem secHdrCode 0) 10
          (store_long_member numberOfSecHdrEntries 1
             (start []
                [{| bathy_lon := 45.5%float; bathy_lat := 12.5%float;
                    bathy_stn := 5; bathy_depth := (-500)%float |}])))).

Definition with_dbBathy : arguments :=
  {| stn := 0; wantProfileFlag := 1; skipFlag := 0; stnToSkipTo := 0;
     varListFlag := 0; varList := fun _ => 0; numVarsOnVarList := 0;
     minLevelsFlag := 0; minLevels := 0;
     latlonRegionFlag := 0; latlonRegion := fun _ => 0%float;
     yearRangeFlag := 0; yearRange := fun _ => 0;
     monthRangeFlag := 0; monthRange := fun _ => 0;
     dbBathyFlag := 1; zeroLatLonFlag := 0; wmoSquare := [] |}.

Lemma first_bottomDepth_database_witness :
  exists s',
    first_bottomDepth example_platform with_dbBathy with_header_depth = Ret tt s' /\
    databaseBathyValue s' = 500%float /\
    fp_dbBathy s' = [] /\
    bottomDepthPtr (stnData s') = Some Static_databaseBathyValue /\
    bottomDepthSource (stnData s') = "d"%char /\
    bottomDepth example_platform s' = 500%float.
Proof.
  pose proof (first_bottomDepth_database example_platform with_dbBathy
                with_header_depth eq_refl) as T.
  cbv zeta in T. destruct T as (s' & E & Hdb & Hfile & Hsel & _).
  exists s'. split; [exact E|]. clear E.
  split; [rewrite Hdb; vm_compute; reflexivity|].
  split; [rewrite Hfile; reflexivity|].
  destruct Hsel as (Hptr & Hsrc & Hval); [vm_compute; reflexivity|].
  split; [exact Hptr|]. split; [exact Hsrc|].
  rewrite Hval. vm_compute. reflexivity.
Defined.

(** A station that declares the variable code 1 (temperature) twice and no
    other, with one level. *)
Definition station4 : stream :=
  list_ascii_of_string
    ("26115121319900615-" ++ "331123331456" ++ "11" ++ "0" ++ "02" ++ "110" ++ "110" ++ "0"
     ++ "0" ++ "0"
     ++ "11050" ++ "221950" ++ "221960" ++ "
").

(** The variable list 1, 2 (temperature and salinity). *)
Definition temp_and_sal : arguments :=
  {| stn := 0; wantProfileFlag := 1; skipFlag := 0; stnToSkipTo := 0;
     varListFlag := 1; varList := fun j => j + 1; numVarsOnVarList := 2;
     minLevelsFlag := 0; minLevels := 0;
     latlonRegionFlag := 0; latlonRegion := fun _ => 0%float;
     yearRangeFlag := 0; yearRange := fun _ => 0;
     monthRangeFlag := 0; monthRange := fun _ => 0;
     dbBathyFlag := 0; zeroLatLonFlag := 0; wmoSquare := [] |}.

(** C4.  The check counts the pairs of a requested and a declared code that
    are equal and passes when there are at least as many as requested
    codes.  For the variable list 1, 2 and a station that declares the code
    1 twice, without errors, checkVarsInclAndNoErrors returns 1 although the
    code 2 is not among the declared codes; getOCLStationData on such a
    station sets varListChecksOut to 1 and goes on to read the profile. *)
Theorem checkVarsInclAndNoErrors_duplicate_codes :
  checkVarsInclAndNoErrors (varList temp_and_sal) (fun _ => 1) (fun _ => 0) 2 2 = 1 /\
  varList temp_and_sal 1 = 2 /\
  exists st s',
    getOCLStationData example_platform temp_and_sal (start station4 []) = Ret st s' /\
    st = SUCCESSFUL /\
    long_of numberOfVarCodes s' = 2 /\
    long_at varCode 0 s' = 1 /\ long_at varCode 1 s' = 1 /\
    long_at errCodeForVarCode 0 s' = 0 /\ long_at errCodeForVarCode 1 s' = 0 /\
    int_of varListChecksOut s' = 1 /\
    profile_levels (steps s') = [0].
Proof.
  split; [reflexivity|]. split; [reflexivity|].
  destruct (holds_returns
              (getOCLStationData example_platform temp_and_sal (start station4 []))
              (fun st s' =>
                 status_eqb st SUCCESSFUL
                 && levels_eqb
                      [long_of numberOfVarCodes s';
                       long_at varCode 0 s'; long_at varCode 1 s';
                       long_at errCodeForVarCode 0 s'; long_at errCodeForVarCode 1 s';
                       int_of varListChecksOut s']
                      [2; 1; 1; 0; 0; 1]
                 && levels_eqb (profile_levels (steps s')) [0]))
    as (st & s' & E & H); [vm_compute; reflexivity|].
  exists st, s'. split; [exact E|]. clear E.
  apply andb_prop in H. destruct H as (H & Hlev).
  apply andb_prop in H. destruct H as (Hst & Hvals).
  apply levels_eqb_eq in Hvals. injection Hvals as H1 H2 H3 H4 H5 H6.
  split; [destruct st; first [reflexivity | discriminate Hst]|].
  repeat (split; [assumption|]).
  apply levels_eqb_eq. exact Hlev.
Qed.

(** A station that declares 11 variables, and no level. *)
Definition station5 : stream :=
  list_ascii_of_string
    ("27415121319900615-" ++ "331123331456" ++ "10" ++ "0" ++ "11"
     ++ "110" ++ "120" ++ "130" ++ "140" ++ "160" ++ "170" ++ "180" ++ "190"
     ++ "2110" ++ "2170" ++ "2250" ++ "0"
     ++ "0" ++ "0" ++ "
").

(** The elements of varCode that a run decodes a variable code into. *)
Fixpoint varCode_stores (l : list step) : list Z :=
  match l with
  | [] => []
  | Call_getVarlenIntField (LongElem varCode j) _ _ :: l' => j :: varCode_stores l'
  | _ :: l' => varCode_stores l'
  end.

(** C5.  The number of variable codes is read from two digits and is not
    compared with MAX_VARS: on a station that declares 11 variables,
    getOCLStationData returns SUCCESSFUL with numberOfVarCodes = 11 and has
    decoded 11 pairs, the last of them into varCode[10] and
    errCodeForVarCode[10], past the MAX_VARS = 10 elements of the arrays. *)
Theorem variable_codes_past_MAX_VARS :
  exists st s',
    getOCLStationData example_platform plain_arguments (start station5 []) = Ret st s' /\
    st = SUCCESSFUL /\
    long_of numberOfVarCodes s' = 11 /\
    MAX_VARS < long_of numberOfVarCodes s' /\
    varCode_stores (steps s') = [0; 1; 2; 3; 4; 5; 6; 7; 8; 9; 10] /\
    long_at varCode 10 s' = 25.
Proof.
  destruct (holds_returns
              (getOCLStationData example_platform plain_arguments (start station5 []))
              (fun st s' =>
                 status_eqb st SUCCESSFUL
                 && levels_eqb
                      [long_of numberOfVarCodes s'; long_at varCode 10 s'] [11; 25]
                 && levels_eqb (varCode_stores (steps s'))
                      [0; 1; 2; 3; 4; 5; 6; 7; 8; 9; 10]))
    as (st & s' & E & H); [vm_compute; reflexivity|].
  exists st, s'. split; [exact E|]. clear E.
  apply andb_prop in H. destruct H as (H & Hstores).
  apply andb_prop in H. destruct H as (Hst & Hvals).
  apply levels_eqb_eq in Hvals. injection Hvals as H1 H2.
  split; [destruct st; first [reflexivity | discriminate Hst]|].
  split; [exact H1|]. split; [rewrite H1; reflexivity|].
  split; [apply levels_eqb_eq; exact Hstores | exact H2].
Qed.

(** Skipping ahead to the station of ordinal 5, with the bathymetry file. *)
Definition skip_to_5 : arguments :=
  {| stn := 0; wantProfileFlag := 1; skipFlag := 1; stnToSkipTo := 5;
     varListFlag := 0; varList := fun _ => 0; numVarsOnVarList := 0;
     minLevelsFlag := 0; minLevels := 0;
     latlonRegionFlag := 0; latlonRegion := fun _ => 0%float;
     yearRangeFlag := 0; yearRange := fun _ => 0;
     monthRangeFlag := 0; monthRange := fun _ => 0;
     dbBathyFlag := 1; zeroLatLonFlag := 0; wmoSquare := [] |}.

Definition one_bathy_line : list bathy_line :=
  [{| bathy_lon := 45.5%float; bathy_lat := 12.5%float;
      bathy_stn := 5; bathy_depth := (-500)%float |}].

(** ** Line terminators in the fields *)

(** A result of a read with the rest of the stream mapped. *)
Definition on_rest {A : Type} (f : stream -> stream) (r : reading A) : reading A :=
  match r with
  | Read x rest => Read x (f rest)
  | UnexpectedEOF => UnexpectedEOF
  end.

Lemma getIntDigits_loop_nextch (fp : stream) (i n : Z) (valueStr : list ascii)
    (c1 c2 : ascii) :
  i < n ->
  getIntDigits_loop fp i n valueStr c1 = getIntDigits_loop fp i n valueStr c2.
Proof.
  intros Hi. destruct fp as [|c fp]; cbn [getIntDigits_loop];
    destruct (Z.ltb_spec i n); try lia; reflexivity.
Qed.

Lemma getIntDigits_loop_content (fp : stream) :
  forall i n valueStr nextch,
    getIntDigits_loop (content fp) i n valueStr nextch =
    on_rest content (getIntDigits_loop fp i n valueStr nextch).
Proof.
  induction fp as [|c fp IH]; intros i n valueStr nextch.
  - cbn. destruct (i <? n); reflexivity.
  - rewrite content_cons. cbn [getIntDigits_loop].
    destruct (Z.ltb_spec i n) as [Hi|Hi].
    + destruct (Ascii.eqb_spec c xFF) as [->|Hff].
      { change (is_newline xFF) with false. cbn [getIntDigits_loop].
        destruct (Z.ltb_spec i n); [|lia].
        change (Ascii.eqb xFF xFF) with true. reflexivity. }
      destruct (is_newline c) eqn:Hc.
      * rewrite <- IH. apply getIntDigits_loop_nextch. exact Hi.
      * cbn [getIntDigits_loop]. destruct (Z.ltb_spec i n); [|lia].
        destruct (Ascii.eqb_spec c xFF) as [E|_]; [contradiction|].
        rewrite Hc. apply IH.
    + destruct (is_newline c) eqn:Hc.
      * destruct (content fp) as [|c' r] eqn:E; cbn [getIntDigits_loop on_rest];
          destruct (Z.ltb_spec i n); try lia;
          rewrite content_cons, Hc, E; reflexivity.
      * cbn [getIntDigits_loop on_rest]. destruct (Z.ltb_spec i n); [lia|].
        rewrite content_cons, Hc. reflexivity.
Qed.

Lemma getIntDigits_content (pf : platform) (fp : stream) (n v : Z) :
  getIntDigits pf (content fp) n v = on_rest content (getIntDigits pf fp n v).
Proof.
  unfold getIntDigits. rewrite getIntDigits_loop_content.
  destruct (getIntDigits_loop fp 0 n [] NUL) as [[valueStr nextch] rest|];
    cbn [on_rest]; [|reflexivity].
  repeat match goal with
         | |- context [if ?b then _ else _] => destruct b
         end; reflexivity.
Qed.

(** The three field decoders read through the line terminators: on the
    stream without its line feeds and carriage returns they return the same
    status, value and budget, and leave what they leave of the stream, without
    its line terminators.  getIntDigits is taken with at most the nine
    characters that valueStr has room for. *)
Theorem fields_through_line_terminators (pf : platform) (fp : stream)
    (n v b : Z) (x : float) :
  n <= 9 ->
  getIntDigits pf (content fp) n v = on_rest content (getIntDigits pf fp n v) /\
  getVarlenIntField pf (content fp) v b =
    on_rest content (getVarlenIntField pf fp v b) /\
  getVarlenFloatField pf (content fp) x b =
    on_rest content (getVarlenFloatField pf fp x b).
Proof.
  intros _. split; [apply getIntDigits_content|]. split.
  - unfold getVarlenIntField. rewrite getIntDigits_content.
    destruct (getIntDigits pf fp 1 (indeterminate pf)) as [[st1 L] fp1|];
      cbn [on_rest]; [|reflexivity].
    rewrite getIntDigits_content.
    destruct (getIntDigits pf fp1 (int_of_long L) v) as [[st2 v2] fp2|];
      cbn [on_rest]; [|reflexivity].
    destruct st2; cbn [on_rest]; try reflexivity;
      destruct (b - 1 <? 0); reflexivity.
  - unfold getVarlenFloatField. rewrite getIntDigits_content.
    destruct (getIntDigits pf fp 1 (indeterminate pf)) as [[st1 sig] fp1|];
      cbn [on_rest]; [|reflexivity].
    destruct st1; cbn [on_rest]; try reflexivity.
    rewrite getIntDigits_content.
    destruct (getIntDigits pf fp1 1 (indeterminate pf)) as [[st2 total] fp2|];
      cbn [on_rest]; [|reflexivity].
    rewrite getIntDigits_content.
    destruct (getIntDigits pf fp2 1 (indeterminate pf)) as [[st3 prec] fp3|];
      cbn [on_rest]; [|reflexivity].
    rewrite getIntDigits_content.
    destruct (getIntDigits pf fp3 (int_of_long total) (indeterminate pf))
      as [[st4 iv] fp4|]; cbn [on_rest]; reflexivity.
Qed.

(** ** The values of the fields *)

Lemma app_inv_length {A : Type} (x1 y1 x2 y2 : list A) :
  x1 ++ y1 = x2 ++ y2 -> List.length x1 = List.length x2 -> x1 = x2 /\ y1 = y2.
Proof.
  revert x2. induction x1 as [|a x1 IH]; intros [|b x2] H L; cbn in *;
    try discriminate L.
  - split; [reflexivity | exact H].
  - injection H as -> H. injection L as L.
    destruct (IH x2 H L) as [-> ->]. split; reflexivity.
Qed.

(** The content before the end of the file holds every field without a
    byte 255 that the content starts with. *)
Lemma until_EOF_field (fp : stream) :
  forall field tail,
    content fp = field ++ tail -> ~ In xFF field ->
    Z.of_nat (List.length field) <= content_length (until_EOF fp).
Proof.
  induction fp as [|c fp IH]; intros field tail Hfp Hno.
  - destruct field; [cbn; unfold content_length; cbn; lia | discriminate Hfp].
  - cbn [until_EOF]. destruct (Ascii.eqb_spec c xFF) as [->|Hff].
    + destruct field as [|d field]; [unfold content_length; cbn; lia|].
      rewrite content_cons in Hfp. change (is_newline xFF) with false in Hfp.
      injection Hfp as <- _. exfalso. apply Hno. left. reflexivity.
    + rewrite content_length_cons. rewrite content_cons in Hfp.
      destruct (is_newline c).
      * specialize (IH field tail Hfp Hno). lia.
      * destruct field as [|d field].
        -- pose proof (content_length_nonneg (until_EOF fp)).
           cbn [List.length]. lia.
        -- injection Hfp as <- Hfp.
           assert (Hno' : ~ In xFF field) by (intros X; apply Hno; right; exact X).
           specialize (IH field tail Hfp Hno'). cbn [List.length]. lia.
Qed.

Lemma isdigit_not_xFF (c : ascii) : isdigit c = true -> c <> xFF.
Proof. intros H ->. discriminate H. Qed.

Lemma digits_no_xFF (l : list ascii) : forallb isdigit l = true -> ~ In xFF l.
Proof.
  induction l as [|c l IH]; intros H X; [exact X|].
  cbn [forallb] in H. apply andb_true_iff in H. destruct H as [Hc Hl].
  destruct X as [X|X]; [exact (isdigit_not_xFF c Hc X) | exact (IH Hl X)].
Qed.

Lemma one_char_no_xFF (c : ascii) : c <> xFF -> ~ In xFF [c].
Proof. intros H [X|[]]. exact (H X). Qed.

(** getIntDigits on a stream whose content starts with the [n] characters of
    [field], none of them the byte 255: it consumes them and nothing else
    of the content, and returns what the last of them decides. *)
Lemma getIntDigits_field (pf : platform) (fp : stream) (n v : Z)
    (field tail : list ascii) :
  content fp = field ++ tail ->
  n = Z.of_nat (List.length field) ->
  ~ In xFF field ->
  exists consumed rest st v',
    fp = consumed ++ rest /\ content consumed = field /\ content rest = tail /\
    getIntDigits pf fp n v = Read (st, v') rest /\
    (0 < n -> isdigit (last field NUL) = true ->
       st = SUCCESSFUL /\ v' = sscanf_ld field v) /\
    (n = 0 \/ (n = 1 /\ field = ["-"%char]) ->
       st = ZERO_LENGTH_FIELD /\ v' = nan_as_long pf) /\
    (~ (0 < n /\ isdigit (last field NUL) = true) ->
     ~ (n = 0 \/ (n = 1 /\ field = ["-"%char])) ->
       st = UNSPECIFIED_PROBLEM /\ v' = v).
Proof.
  intros Hfp Hn Hno. pose proof (getIntDigits_cases pf fp n v) as C.
  destruct (getIntDigits pf fp n v) as [[st v'] rest|].
  - destruct C as (consumed & Hsplit & Hlen & C).
    assert (Hc : content consumed = field /\ content rest = tail).
    { apply app_inv_length.
      - rewrite <- content_app, <- Hsplit. exact Hfp.
      - unfold content_length in Hlen. lia. }
    destruct Hc as [Hc Hr]. rewrite Hc in C. cbv zeta in C.
    destruct C as (C1 & C2 & C3).
    exists consumed, rest, st, v'.
    split; [exact Hsplit|]. split; [exact Hc|]. split; [exact Hr|].
    split; [reflexivity|]. split; [|split; assumption].
    intros H0 Hd. destruct (C1 H0 Hd) as (? & ? & _). split; assumption.
  - exfalso. pose proof (until_EOF_field fp field tail Hfp Hno). lia.
Qed.

Lemma last_app_nonempty {A : Type} (x y : list A) (d : A) :
  y <> [] -> last (x ++ y) d = last y d.
Proof.
  intros Hy. induction x as [|a x IH]; [reflexivity|].
  cbn [app]. rewrite (last_cons_nonempty a (x ++ y)); [exact IH|].
  destruct x; [exact Hy | discriminate].
Qed.

Lemma forallb_last {A : Type} (p : A -> bool) (l : list A) (d : A) :
  l <> [] -> forallb p l = true -> p (last l d) = true.
Proof.
  induction l as [|a l IH]; intros Hne H; [congruence|].
  cbn [forallb] in H. apply andb_true_iff in H. destruct H as [Ha Hl].
  destruct l as [|b l]; [exact Ha|].
  rewrite (last_cons_nonempty a (b :: l)) by discriminate.
  apply IH; [discriminate | exact Hl].
Qed.

Definition SP : ascii := " "%char.

Lemma skip_spaces_pad (pad x : list ascii) :
  forallb (Ascii.eqb SP) pad = true ->
  skip_spaces (pad ++ x) = skip_spaces x.
Proof.
  induction pad as [|c pad IH]; intros H; [reflexivity|].
  cbn [forallb] in H. apply andb_true_iff in H. destruct H as [Hc Hp].
  apply Ascii.eqb_eq in Hc. subst c. cbn [app skip_spaces].
  change (isspace SP) with true. cbn iota. apply IH. exact Hp.
Qed.

Lemma c_string_app (x y : list ascii) :
  forallb (fun c => negb (Ascii.eqb c NUL)) x = true ->
  c_string (x ++ y) = x ++ c_string y.
Proof.
  induction x as [|c x IH]; intros H; [reflexivity|].
  cbn [forallb] in H. apply andb_true_iff in H. destruct H as [Hc Hx].
  cbn [app c_string]. apply negb_true_iff in Hc. rewrite Hc, IH by exact Hx.
  reflexivity.
Qed.

Lemma pad_not_NUL (pad : list ascii) :
  forallb (Ascii.eqb SP) pad = true ->
  forallb (fun c => negb (Ascii.eqb c NUL)) pad = true.
Proof.
  induction pad as [|c pad IH]; intros H; [reflexivity|].
  cbn [forallb] in H. apply andb_true_iff in H. destruct H as [Hc Hp].
  apply Ascii.eqb_eq in Hc. subst c. cbn [forallb].
  rewrite IH by exact Hp. reflexivity.
Qed.

(** What sscanf converts of a number that is padded with blanks on the left
    and may have a minus sign. *)
Lemma sscanf_ld_padded (pad digits : list ascii) (minus : bool) (v : Z) :
  forallb (Ascii.eqb SP) pad = true ->
  digits <> [] -> forallb isdigit digits = true ->
  sscanf_ld (pad ++ (if minus then ["-"%char] else []) ++ digits) v =
  if minus then - decimal digits else decimal digits.
Proof.
  intros Hpad Hne Hdig. unfold sscanf_ld, scan_ld.
  rewrite c_string_app by (apply pad_not_NUL; exact Hpad).
  rewrite skip_spaces_pad by exact Hpad.
  destruct digits as [|c digits]; [congruence|].
  pose proof Hdig as H'. cbn [forallb] in H'. apply andb_true_iff in H'. destruct H' as [Hc _].
  destruct (isdigit_cases c Hc) as (Hs & Hm & Hp).
  destruct minus; cbn [app].
  - change (c_string ("-"%char :: c :: digits))
      with ("-"%char :: c_string (c :: digits)).
    rewrite c_string_digits by exact Hdig.
    cbn [skip_spaces isspace]. 
    change (isspace "-"%char) with false. cbn iota.
    change (Ascii.eqb "-"%char "-"%char) with true. cbn iota.
    rewrite scan_digits_all by exact Hdig. reflexivity.
  - rewrite c_string_digits by exact Hdig.
    cbn [skip_spaces]. rewrite Hs, Hm, Hp.
    rewrite scan_digits_all by exact Hdig. reflexivity.
Qed.

(** getIntDigits on a field that holds a number. *)
Lemma getIntDigits_number_field (pf : platform) (fp : stream) (n v : Z)
    (pad digits tail : list ascii) (minus : bool) :
  content fp = (pad ++ (if minus then ["-"%char] else []) ++ digits) ++ tail ->
  n = Z.of_nat (List.length (pad ++ (if minus then ["-"%char] else []) ++ digits)) ->
  forallb (Ascii.eqb SP) pad = true ->
  digits <> [] -> forallb isdigit digits = true ->
  exists consumed rest,
    fp = consumed ++ rest /\
    content consumed = pad ++ (if minus then ["-"%char] else []) ++ digits /\
    getIntDigits pf fp n v =
      Read (SUCCESSFUL, if minus then - decimal digits else decimal digits) rest.
Proof.
  intros Hfp Hn Hpad Hne Hdig.
  set (field := pad ++ (if minus then ["-"%char] else []) ++ digits) in *.
  assert (Hno : ~ In xFF field).
  { unfold field. intros X. apply in_app_or in X. destruct X as [X|X].
    - rewrite forallb_forall in Hpad. specialize (Hpad xFF X). discriminate Hpad.
    - apply in_app_or in X. destruct X as [X|X].
      + destruct minus; [destruct X as [X|[]]; discriminate X | exact X].
      + exact (digits_no_xFF digits Hdig X). }
  destruct (getIntDigits_field pf fp n v field tail Hfp Hn Hno)
    as (consumed & rest & st & v' & Hsplit & Hc & _ & E & Hs & _).
  assert (Hlast : last field NUL = last digits NUL).
  { unfold field. rewrite app_assoc. apply last_app_nonempty. exact Hne. }
  assert (Hd : isdigit (last digits NUL) = true).
  { apply forallb_last; assumption. }
  assert (H0 : 0 < n).
  { rewrite Hn. unfold field. rewrite !length_app.
    destruct digits; [congruence | cbn [List.length]; lia]. }
  rewrite Hlast in Hs. destruct (Hs H0 Hd) as [-> ->].
  exists consumed, rest. split; [exact Hsplit|]. split; [exact Hc|].
  rewrite E. unfold field. rewrite sscanf_ld_padded by assumption. reflexivity.
Qed.

(** getIntDigits on a number of [n] characters, nine at most, that is
    right-justified, padded with blanks and may have a minus sign, returns
    SUCCESSFUL with its value, and consumes the [n] characters. *)
Theorem getIntDigits_padded_number (pf : platform) (fp : stream) (n v : Z)
    (pad digits tail : list ascii) (minus : bool) :
  content fp = (pad ++ (if minus then ["-"%char] else []) ++ digits) ++ tail ->
  n = Z.of_nat (List.length (pad ++ (if minus then ["-"%char] else []) ++ digits)) ->
  n <= 9 ->
  forallb (Ascii.eqb SP) pad = true ->
  digits <> [] -> forallb isdigit digits = true ->
  exists consumed rest,
    fp = consumed ++ rest /\
    content consumed = pad ++ (if minus then ["-"%char] else []) ++ digits /\
    getIntDigits pf fp n v =
      Read (SUCCESSFUL, if minus then - decimal digits else decimal digits) rest.
Proof.
  intros Hfp Hn _. apply (getIntDigits_number_field pf fp n v pad digits tail);
    assumption.
Qed.

(** ** Fields of variable length *)

Lemma getIntDigits_digit (pf : platform) (fp : stream) (v : Z) (c : ascii)
    (tail : list ascii) :
  content fp = c :: tail -> isdigit c = true ->
  exists consumed rest,
    fp = consumed ++ rest /\ content consumed = [c] /\ content rest = tail /\
    getIntDigits pf fp 1 v = Read (SUCCESSFUL, digit_value c) rest.
Proof.
  intros Hfp Hc.
  destruct (getIntDigits_field pf fp 1 v [c] tail Hfp eq_refl
              (one_char_no_xFF c (isdigit_not_xFF c Hc)))
    as (consumed & rest & st & v' & Hsplit & Hcon & Hrest & E & Hs & _).
  destruct (Hs ltac:(lia) Hc) as [-> ->].
  exists consumed, rest. split; [exact Hsplit|]. split; [exact Hcon|].
  split; [exact Hrest|]. rewrite E, sscanf_ld_digits.
  - unfold decimal. cbn [fold_left]. rewrite Z.mul_0_r. reflexivity.
  - discriminate.
  - cbn [forallb]. rewrite Hc. reflexivity.
Qed.

(** A field of variable length whose length is the digit 0, or a minus sign
    where the conversion of (long int)nan() to int gives 0 (as it does for
    LONG_MIN), is a missing value: getVarlenIntField returns
    ZERO_LENGTH_FIELD with the value of (long int)nan(), having consumed
    that one character and taken 1 from the budget. *)
Theorem getVarlenIntField_missing (pf : platform) (fp : stream) (v b : Z)
    (c : ascii) (tail : list ascii) :
  content fp = c :: tail ->
  c = "0"%char \/ (c = "-"%char /\ int_of_long (nan_as_long pf) = 0) ->
  exists consumed rest,
    fp = consumed ++ rest /\ content consumed = [c] /\
    getVarlenIntField pf fp v b = Read (ZERO_LENGTH_FIELD, nan_as_long pf, b - 1) rest.
Proof.
  intros Hfp Hc. unfold getVarlenIntField.
  assert (Hno : ~ In xFF [c]).
  { apply one_char_no_xFF. destruct Hc as [-> | [-> _]]; intros X; discriminate X. }
  destruct (getIntDigits_field pf fp 1 (indeterminate pf) [c] tail Hfp eq_refl Hno)
    as (c1 & fp1 & st1 & L & Hsplit1 & Hcon1 & Hrest1 & E1 & Hs1 & Hz1 & _).
  rewrite E1.
  assert (HL : int_of_long L = 0).
  { destruct Hc as [-> | [-> Hnan]].
    - destruct (Hs1 ltac:(lia) eq_refl) as [_ ->]. reflexivity.
    - destruct Hz1 as [_ ->]; [right; split; reflexivity | exact Hnan]. }
  rewrite HL.
  destruct (getIntDigits_field pf fp1 0 v [] tail Hrest1 eq_refl (@in_nil _ xFF))
    as (c2 & fp2 & st2 & v2 & Hsplit2 & Hcon2 & _ & E2 & _ & Hz2 & _).
  rewrite E2. destruct Hz2 as [-> _]; [left; reflexivity|].
  exists (c1 ++ c2), fp2.
  split; [rewrite <- app_assoc, <- Hsplit2; exact Hsplit1|].
  split; [rewrite content_app, Hcon1, Hcon2; reflexivity | reflexivity].
Qed.

(** The field "1-", a minus sign of length 1, is a missing value as well;
    it consumes two characters, of which only the first is taken from the
    budget. *)
Theorem getVarlenIntField_one_minus (pf : platform) (fp : stream) (v b : Z)
    (tail : list ascii) :
  content fp = "1"%char :: "-"%char :: tail ->
  exists consumed rest,
    fp = consumed ++ rest /\ content consumed = ["1"%char; "-"%char] /\
    getVarlenIntField pf fp v b = Read (ZERO_LENGTH_FIELD, nan_as_long pf, b - 1) rest.
Proof.
  intros Hfp. unfold getVarlenIntField.
  destruct (getIntDigits_digit pf fp (indeterminate pf) "1"%char _ Hfp eq_refl)
    as (c1 & fp1 & Hsplit1 & Hcon1 & Hrest1 & E1).
  rewrite E1. change (int_of_long (digit_value "1"%char)) with 1.
  destruct (getIntDigits_field pf fp1 1 v ["-"%char] tail Hrest1 eq_refl
              (one_char_no_xFF "-"%char ltac:(intros X; discriminate X)))
    as (c2 & fp2 & st2 & v2 & Hsplit2 & Hcon2 & _ & E2 & _ & Hz2 & _).
  rewrite E2. destruct Hz2 as [-> _]; [right; split; reflexivity|].
  exists (c1 ++ c2), fp2.
  split; [rewrite <- app_assoc, <- Hsplit2; exact Hsplit1|].
  split; [rewrite content_app, Hcon1, Hcon2; reflexivity | reflexivity].
Qed.

(** An integer field that holds a number: the digit of its length, then
    that many digits.  getVarlenIntField returns SUCCESSFUL with the number,
    having consumed the field; a budget that is set (not negative after
    the length digit) is less by what was consumed, and a budget that is
    not set becomes the number less what was consumed. *)
Theorem getVarlenIntField_number (pf : platform) (fp : stream) (v b : Z)
    (c : ascii) (digits tail : list ascii) :
  content fp = (c :: digits) ++ tail ->
  isdigit c = true -> digit_value c = Z.of_nat (List.length digits) ->
  digits <> [] -> forallb isdigit digits = true ->
  exists consumed rest,
    fp = consumed ++ rest /\ content consumed = c :: digits /\
    getVarlenIntField pf fp v b =
      Read (SUCCESSFUL, decimal digits,
            if b - 1 <? 0 then decimal digits - content_length consumed
            else b - content_length consumed) rest.
Proof.
  intros Hfp Hc HL Hne Hdig. unfold getVarlenIntField.
  destruct (getIntDigits_digit pf fp (indeterminate pf) c _ Hfp Hc)
    as (c1 & fp1 & Hsplit1 & Hcon1 & Hrest1 & E1).
  rewrite E1. rewrite int_of_long_small by (apply digit_value_range; exact Hc).
  destruct (getIntDigits_field pf fp1 (digit_value c) v digits tail Hrest1 HL
              (digits_no_xFF digits Hdig))
    as (c2 & fp2 & st2 & v2 & Hsplit2 & Hcon2 & _ & E2 & Hs2 & _).
  rewrite E2.
  assert (H0 : 0 < digit_value c).
  { rewrite HL. destruct digits; [congruence | cbn [List.length]; lia]. }
  destruct (Hs2 H0 (forallb_last _ _ _ Hne Hdig)) as [-> ->].
  rewrite sscanf_ld_digits by assumption.
  exists (c1 ++ c2), fp2.
  split; [rewrite <- app_assoc, <- Hsplit2; exact Hsplit1|].
  split; [rewrite content_app, Hcon1, Hcon2; reflexivity|].
  assert (Hlen : content_length (c1 ++ c2) = digit_value c + 1).
  { unfold content_length. rewrite content_app, Hcon1, Hcon2.
    cbn [app List.length]. lia. }
  rewrite Hlen. destruct (b - 1 <? 0); f_equal; f_equal; lia.
Qed.

(** A floating-point field that holds a number: three digits (significant
    digits, total digits, precision), then the total digits, which may
    start with a minus sign.  getVarlenFloatField returns SUCCESSFUL with
    the integer that the digits denote divided by 10 to the precision,
    having consumed the field and taken from the budget what it consumed. *)
Theorem getVarlenFloatField_number (pf : platform) (fp : stream) (v : float) (b : Z)
    (sig total prec : ascii) (minus : bool) (number digits tail : list ascii) :
  number = (if minus then ["-"%char] else []) ++ digits ->
  content fp = (sig :: total :: prec :: number) ++ tail ->
  isdigit sig = true -> isdigit total = true -> isdigit prec = true ->
  digit_value total = Z.of_nat (List.length number) ->
  digits <> [] -> forallb isdigit digits = true ->
  exists consumed rest,
    fp = consumed ++ rest /\
    content consumed = sig :: total :: prec :: number /\
    getVarlenFloatField pf fp v b =
      Read (SUCCESSFUL,
            PrimFloat.div
              (double_of_long (if minus then - decimal digits else decimal digits))
              (pow pf 10%float (double_of_long (digit_value prec))),
            b - content_length consumed) rest.
Proof.
  intros Hnum Hfp Hs Ht Hp HL Hne Hdig. subst number.
  set (number := (if minus then ["-"%char] else []) ++ digits) in *.
  unfold getVarlenFloatField.
  destruct (getIntDigits_digit pf fp (indeterminate pf) sig _ Hfp Hs)
    as (c1 & fp1 & Hsplit1 & Hcon1 & Hrest1 & E1).
  rewrite E1.
  destruct (getIntDigits_digit pf fp1 (indeterminate pf) total _ Hrest1 Ht)
    as (c2 & fp2 & Hsplit2 & Hcon2 & Hrest2 & E2).
  rewrite E2.
  destruct (getIntDigits_digit pf fp2 (indeterminate pf) prec _ Hrest2 Hp)
    as (c3 & fp3 & Hsplit3 & Hcon3 & Hrest3 & E3).
  rewrite E3. rewrite int_of_long_small by (apply digit_value_range; exact Ht).
  destruct (getIntDigits_number_field pf fp3 (digit_value total) (indeterminate pf)
              [] digits tail minus Hrest3 HL eq_refl Hne Hdig)
    as (c4 & fp4 & Hsplit4 & Hcon4 & E4).
  rewrite E4.
  exists (c1 ++ c2 ++ c3 ++ c4), fp4.
  split; [rewrite <- !app_assoc, <- Hsplit4, <- Hsplit3, <- Hsplit2; exact Hsplit1|].
  split; [rewrite !content_app, Hcon1, Hcon2, Hcon3, Hcon4; reflexivity|].
  assert (Hlen : content_length (c1 ++ c2 ++ c3 ++ c4) = 3 + digit_value total).
  { unfold content_length. rewrite !content_app, Hcon1, Hcon2, Hcon3, Hcon4.
    cbn [app]. fold number. cbn [List.length]. lia. }
  rewrite Hlen. f_equal. f_equal. lia.
Qed.

(** A floating-point field whose first character is not a digit ends with
    that character: a minus sign is a missing value, for which
    getVarlenFloatField returns ZERO_LENGTH_FIELD and stores a NaN; for any
    other character it returns UNSPECIFIED_PROBLEM and leaves the value as
    it was.  Either way one character is consumed and 1 is taken from the
    budget.  The byte 255 is left out: on it the call exits as at the end
    of the file. *)
Theorem getVarlenFloatField_no_number (pf : platform) (fp : stream) (v : float) (b : Z)
    (c : ascii) (tail : list ascii) :
  content fp = c :: tail -> isdigit c = false -> c <> xFF ->
  is_NaN nan = true /\
  exists consumed rest,
    fp = consumed ++ rest /\ content consumed = [c] /\
    getVarlenFloatField pf fp v b =
      Read (if Ascii.eqb c "-"%char then (ZERO_LENGTH_FIELD, nan, b - 1)
            else (UNSPECIFIED_PROBLEM, v, b - 1)) rest.
Proof.
  intros Hfp Hc Hff. split; [reflexivity|]. unfold getVarlenFloatField.
  destruct (getIntDigits_field pf fp 1 (indeterminate pf) [c] tail Hfp eq_refl
              (one_char_no_xFF c Hff))
    as (c1 & fp1 & st1 & L & Hsplit1 & Hcon1 & _ & E1 & _ & Hz1 & Hu1).
  rewrite E1. exists c1, fp1. split; [exact Hsplit1|]. split; [exact Hcon1|].
  destruct (Ascii.eqb_spec c "-"%char) as [->|Hne].
  - destruct Hz1 as [-> _]; [right; split; reflexivity | reflexivity].
  - destruct Hu1 as [-> _]; [| |reflexivity].
    + intros [_ Hd]. cbn [last] in Hd. congruence.
    + intros [H0|[_ H1]]; [discriminate H0|]. injection H1 as H1. contradiction.
Qed.

(** A floating-point field that announces no digits (total digits 0)
    is not a missing value: getVarlenFloatField returns SUCCESSFUL, with
    (long int)nan() converted to double and divided by 10 to the
    precision. *)
Theorem getVarlenFloatField_no_digits (pf : platform) (fp : stream) (v : float) (b : Z)
    (sig prec : ascii) (tail : list ascii) :
  content fp = sig :: "0"%char :: prec :: tail ->
  isdigit sig = true -> isdigit prec = true ->
  exists consumed rest,
    fp = consumed ++ rest /\
    content consumed = [sig; "0"%char; prec] /\
    getVarlenFloatField pf fp v b =
      Read (SUCCESSFUL,
            PrimFloat.div (double_of_long (nan_as_long pf))
              (pow pf 10%float (double_of_long (digit_value prec))),
            b - 3) rest.
Proof.
  intros Hfp Hs Hp. unfold getVarlenFloatField.
  destruct (getIntDigits_digit pf fp (indeterminate pf) sig _ Hfp Hs)
    as (c1 & fp1 & Hsplit1 & Hcon1 & Hrest1 & E1).
  rewrite E1.
  destruct (getIntDigits_digit pf fp1 (indeterminate pf) "0"%char _ Hrest1 eq_refl)
    as (c2 & fp2 & Hsplit2 & Hcon2 & Hrest2 & E2).
  rewrite E2.
  destruct (getIntDigits_digit pf fp2 (indeterminate pf) prec _ Hrest2 Hp)
    as (c3 & fp3 & Hsplit3 & Hcon3 & Hrest3 & E3).
  rewrite E3. change (int_of_long (digit_value "0"%char)) with 0.
  destruct (getIntDigits_field pf fp3 0 (indeterminate pf) [] tail Hrest3 eq_refl
              (@in_nil _ xFF))
    as (c4 & fp4 & st4 & v4 & Hsplit4 & Hcon4 & _ & E4 & _ & Hz4 & _).
  rewrite E4. destruct Hz4 as [_ ->]; [left; reflexivity|].
  exists (c1 ++ c2 ++ c3 ++ c4), fp4.
  split; [rewrite <- !app_assoc, <- Hsplit4, <- Hsplit3, <- Hsplit2; exact Hsplit1|].
  split; [rewrite !content_app, Hcon1, Hcon2, Hcon3, Hcon4; reflexivity|].
  change (digit_value "0"%char) with 0. f_equal. f_equal. lia.
Qed.

(** ** skipToNextStation *)

Lemma skip_loop_skips (fp : stream) :
  forall i b,
  exists skipped,
    fp = skipped ++ skip_loop fp i b /\
    content_length skipped = Z.min (Z.max 0 (b - i)) (content_length fp) /\
    (b <= i -> skipped = []).
Proof.
  induction fp as [|c fp IH]; intros i b; cbn [skip_loop].
  - exists []. split; [destruct (i <? b); reflexivity|].
    rewrite content_length_nil. split; [lia | reflexivity].
  - destruct (Z.ltb_spec i b) as [Hi|Hi].
    + rewrite content_length_cons. destruct (is_newline c) eqn:Hnl.
      * destruct (IH i b) as (sk & Hsk & Hlen & _).
        exists (c :: sk). split; [cbn [app]; rewrite <- Hsk; reflexivity|].
        rewrite content_length_cons, Hnl. split; lia.
      * destruct (IH (i + 1) b) as (sk & Hsk & Hlen & _).
        exists (c :: sk). split; [cbn [app]; rewrite <- Hsk; reflexivity|].
        rewrite content_length_cons, Hnl.
        pose proof (content_length_nonneg fp). split; lia.
    + exists []. split; [reflexivity|].
      rewrite content_length_nil.
      pose proof (content_length_nonneg (c :: fp)). split; [lia | reflexivity].
Qed.

Lemma fgets_line (n : nat) :
  forall fp,
    (List.length (fst (fgets n fp)) <= n)%nat /\
    ((exists l, fst (fgets n fp) = l ++ [LF] /\ ~ In LF l) \/
     (~ In LF (fst (fgets n fp)) /\
      (List.length (fst (fgets n fp)) = n \/ snd (fgets n fp) = []))).
Proof.
  induction n as [|n IH]; intros fp.
  - cbn. split; [lia|]. right. split; [intros []|]. left. reflexivity.
  - destruct fp as [|c fp].
    + cbn. split; [lia|]. right. split; [intros []|]. right. reflexivity.
    + cbn [fgets]. destruct (Ascii.eqb_spec c LF) as [->|Hc].
      * cbn [fst snd List.length]. split; [lia|]. left. exists [].
        split; [reflexivity | intros []].
      * destruct (IH fp) as (Hlen & Hline).
        destruct (fgets n fp) as [l r]. cbn [fst snd List.length] in *.
        split; [lia|].
        destruct Hline as [(l' & -> & Hl') | (Hno & Hend)].
        -- left. exists (c :: l'). split; [reflexivity|].
           intros [E|E]; [congruence | contradiction].
        -- right. split; [intros [E|E]; [congruence | contradiction]|].
           destruct Hend as [E|E]; [left; lia | right; exact E].
Qed.

(** skipToNextStation never fails.  It takes [bytesLeftInStation]
    characters that are not line terminators from the stream, or all of the
    stream if it has fewer (nothing at all for a budget that is not
    positive), and then one line: the characters up to and including the
    next line feed, but 79 of them at most, or up to the end of the
    stream. *)
Theorem skipToNextStation_realigns (fp : stream) (bytesLeftInStation : Z) :
  exists skipped line,
    fp = skipped ++ line ++ skipToNextStation fp bytesLeftInStation /\
    content_length skipped =
      Z.min (Z.max 0 bytesLeftInStation) (content_length fp) /\
    (bytesLeftInStation <= 0 -> skipped = []) /\
    (List.length line <= 79)%nat /\
    ((exists l, line = l ++ [LF] /\ ~ In LF l) \/
     (~ In LF line /\
      (List.length line = 79%nat \/ skipToNextStation fp bytesLeftInStation = []))).
Proof.
  unfold skipToNextStation.
  destruct (skip_loop_skips fp 0 bytesLeftInStation) as (sk & Hsk & Hlen & Hnone).
  exists sk, (fst (fgets 79 (skip_loop fp 0 bytesLeftInStation))).
  rewrite <- (fgets_split 79 (skip_loop fp 0 bytesLeftInStation)).
  split; [exact Hsk|]. split; [rewrite Hlen; f_equal; lia|].
  split; [intros Hb; apply Hnone; lia|].
  apply fgets_line.
Qed.

(** ** More on checkVarsInclAndNoErrors *)

Lemma sum_range_at_least (f : Z -> Z) (n : nat) : forall j,
  (forall i, j <= i < j + Z.of_nat n -> 1 <= f i) ->
  Z.of_nat n <= sum_range n j f.
Proof.
  induction n as [|n IH]; intros j H; cbn [sum_range]; [lia|].
  specialize (IH (j + 1) ltac:(intros i Hi; apply H; lia)).
  specialize (H j ltac:(lia)). lia.
Qed.

Lemma sum_range_positive (f : Z -> Z) (n : nat) : forall j i,
  (forall i, j <= i < j + Z.of_nat n -> 0 <= f i) ->
  j <= i < j + Z.of_nat n -> 0 < f i ->
  0 < sum_range n j f.
Proof.
  induction n as [|n IH]; intros j i H Hi Hf; cbn [sum_range]; [lia|].
  destruct (sum_range_zero f n (j + 1)) as (Hn & _); [intros k Hk; apply H; lia|].
  destruct (Z.eq_dec i j) as [->|Hne]; [lia|].
  specialize (IH (j + 1) i ltac:(intros k Hk; apply H; lia) ltac:(lia) Hf).
  specialize (H j ltac:(lia)). lia.
Qed.

(** A requested code that is declared with a positive error code fails the
    check, whatever else the lists hold. *)
Theorem checkVarsInclAndNoErrors_error_code
    (varRequestedList varCodeList errCodeList : Z -> Z)
    (numVarsRequested numVarCodes j k : Z) :
  0 <= j < numVarsRequested -> 0 <= k < numVarCodes ->
  varCodeList k = varRequestedList j -> 0 < errCodeList k ->
  checkVarsInclAndNoErrors varRequestedList varCodeList errCodeList
    numVarsRequested numVarCodes = 0.
Proof.
  intros Hj Hk Hm He. rewrite checkVarsInclAndNoErrors_counts.
  set (flags := sum_range _ 0 (fun j => count_range _ 0 (flagged _ _ _ j))).
  assert (0 < flags).
  { apply (sum_range_positive _ _ 0 j).
    - intros i _. apply count_range_nonneg.
    - lia.
    - apply count_range_exists. exists k. split; [lia|].
      unfold flagged, matches. rewrite Hm, Z.eqb_refl. apply Z.ltb_lt. exact He. }
  destruct (Z.eqb_spec flags 0) as [E|_]; [lia|].
  rewrite andb_false_r. reflexivity.
Qed.

Lemma covered_list_passes
    (varRequestedList varCodeList errCodeList : Z -> Z)
    (numVarsRequested numVarCodes : Z) :
  (forall j, 0 <= j < numVarsRequested ->
     exists k, 0 <= k < numVarCodes /\ varCodeList k = varRequestedList j) ->
  (forall j k, 0 <= j < numVarsRequested -> 0 <= k < numVarCodes ->
     varCodeList k = varRequestedList j -> errCodeList k <= 0) ->
  checkVarsInclAndNoErrors varRequestedList varCodeList errCodeList
    numVarsRequested numVarCodes = 1.
Proof.
  intros Hall Hclean. rewrite checkVarsInclAndNoErrors_counts.
  set (nr := Z.to_nat numVarsRequested). set (nc := Z.to_nat numVarCodes).
  assert (Hm : Z.of_nat nr <=
               sum_range nr 0
                 (fun j => count_range nc 0 (matches varRequestedList varCodeList j))).
  { apply sum_range_at_least. intros j Hj.
    assert (0 < count_range nc 0 (matches varRequestedList varCodeList j)); [|lia].
    apply count_range_exists.
    destruct (Hall j ltac:(unfold nr in Hj; lia)) as (k & Hk & Ek).
    exists k. split; [unfold nc; lia|]. unfold matches. apply Z.eqb_eq. exact Ek. }
  assert (Hf : sum_range nr 0
                 (fun j => count_range nc 0
                             (flagged varRequestedList varCodeList errCodeList j)) = 0).
  { apply sum_range_zero; [intros i _; apply count_range_nonneg|].
    intros j Hj. apply count_range_zero. intros k Hk.
    unfold flagged, matches.
    destruct (Z.eqb_spec (varCodeList k) (varRequestedList j)) as [Ek|_];
      [|reflexivity].
    cbn [andb]. apply Z.ltb_ge.
    apply (Hclean j k); [unfold nr in Hj; lia | unfold nc in Hk; lia | exact Ek]. }
  rewrite Hf, Z.eqb_refl, andb_true_r.
  destruct (Z.leb_spec numVarsRequested
              (sum_range nr 0
                 (fun j => count_range nc 0 (matches varRequestedList varCodeList j))))
    as [_|Hlt]; [reflexivity|].
  unfold nr in *. lia.
Qed.


(** The check passes whenever every requested code is among the declared
    codes and no declared code that is requested has a positive error
    code: the duplicates that make it pass too often never make it
    fail. *)
Theorem checkVarsInclAndNoErrors_covered
    (varRequestedList varCodeList errCodeList : Z -> Z)
    (numVarsRequested numVarCodes : Z) :
  (forall j, 0 <= j < numVarsRequested ->
     exists k, 0 <= k < numVarCodes /\ varCodeList k = varRequestedList j) ->
  (forall j k, 0 <= j < numVarsRequested -> 0 <= k < numVarCodes ->
     varCodeList k = varRequestedList j -> errCodeList k <= 0) ->
  checkVarsInclAndNoErrors varRequestedList varCodeList errCodeList
    numVarsRequested numVarCodes = 1.
Proof. apply covered_list_passes. Qed.

(** An empty list of requested codes passes the check on every station, and
    a station that declares no variable fails it for every list that is not
    empty. *)
Theorem checkVarsInclAndNoErrors_empty
    (varRequestedList varCodeList errCodeList : Z -> Z)
    (numVarsRequested numVarCodes : Z) :
  (numVarsRequested <= 0 ->
   checkVarsInclAndNoErrors varRequestedList varCodeList errCodeList
     numVarsRequested numVarCodes = 1) /\
  (0 < numVarsRequested -> numVarCodes <= 0 ->
   checkVarsInclAndNoErrors varRequestedList varCodeList errCodeList
     numVarsRequested numVarCodes = 0).
Proof.
  split.
  - intros Hr. apply covered_list_passes; intros; lia.
  - intros Hr Hc. rewrite checkVarsInclAndNoErrors_counts.
    replace (Z.to_nat numVarCodes) with O by lia. cbn [count_range].
    destruct (sum_range_zero (fun _ : Z => 0) (Z.to_nat numVarsRequested) 0)
      as (_ & Hz); [intros; lia|].
    rewrite (proj2 Hz) by reflexivity.
    destruct (Z.leb_spec numVarsRequested 0); [lia | reflexivity].
Qed.

(** ** The bathymetry file *)

Lemma read_station_size_file (pf : platform) :
  respects (same fp_dbBathy) (read_station_size pf).
Proof. same_run fp_dbBathy. Qed.

Lemma read_station_header_file (pf : platform) :
  respects (same fp_dbBathy) (read_station_header pf).
Proof. same_run fp_dbBathy. Qed.

Lemma read_character_data_file (pf : platform) :
  respects (same fp_dbBathy) (read_character_data pf).
Proof. same_run fp_dbBathy. Qed.

Lemma read_secondary_header_file (pf : platform) :
  respects (same fp_dbBathy) (read_secondary_header pf).
Proof. same_run fp_dbBathy. Qed.

Lemma decide_on_rest_file (a : arguments) :
  respects (same fp_dbBathy) (decide_on_rest a).
Proof. same_run fp_dbBathy. Qed.

Lemma read_rest_of_station_file (pf : platform) (a : arguments) :
  respects (same fp_dbBathy) (read_rest_of_station pf a).
Proof. same_run fp_dbBathy. Qed.

Lemma call_skipToNextStation_file :
  respects (same fp_dbBathy) call_skipToNextStation.
Proof. same_run fp_dbBathy. Qed.

(** One line of the file, if the file is in use. *)
Definition one_line (a : arguments) (s s' : state) : Prop :=
  fp_dbBathy s' = if truth (dbBathyFlag a) then tl (fp_dbBathy s) else fp_dbBathy s.

Lemma fscanf_dbBathy_file (keep : bool) (s s' : state) (x : unit) :
  fscanf_dbBathy keep s = Ret x s' -> fp_dbBathy s' = tl (fp_dbBathy s).
Proof.
  unfold fscanf_dbBathy, modify. intros H. injection H as _ <-.
  destruct (fp_dbBathy s) as [|l rest] eqn:E; [rewrite E; reflexivity|].
  destruct keep; reflexivity.
Qed.

Lemma skip_station_file (a : arguments) (s s' : state) (st : status) :
  skip_station a s = Ret st s' -> one_line a s s'.
Proof.
  unfold skip_station, one_line. intros H.
  apply bind_inv in H. destruct H as ([] & s1 & H1 & H).
  apply call_skipToNextStation_file in H1. unfold same in H1.
  apply bind_inv in H. destruct H as ([] & s2 & H2 & H). injection H as _ <-.
  destruct (truth (dbBathyFlag a)).
  - apply fscanf_dbBathy_file in H2. congruence.
  - injection H2 as <-. exact H1.
Qed.

Lemma header_bottomDepth_file (j : Z) : respects (same fp_dbBathy) (header_bottomDepth j).
Proof. unfold header_bottomDepth. same_run fp_dbBathy. Qed.

Lemma first_bottomDepth_file (pf : platform) (a : arguments) (s s' : state) (x : unit) :
  first_bottomDepth pf a s = Ret x s' -> one_line a s s'.
Proof.
  unfold first_bottomDepth, one_line. intros H.
  apply bind_inv in H. destruct H as ([] & s0 & H0 & H). injection H0 as <-.
  apply bind_inv in H. destruct H as (s0' & s0 & H0 & H). injection H0 as <- <-.
  apply bind_inv in H. destruct H as ([] & s1 & H1 & H).
  assert (F1 : fp_dbBathy s1 = fp_dbBathy s).
  { revert H1. generalize (Z.to_nat (long_of numberOfSecHdrEntries
                                       (store_bottomDepth None "-"%char s))).
    intros n H1.
    apply (respects_for_upto (same fp_dbBathy) (same_refl _) (same_trans _)
             header_bottomDepth n header_bottomDepth_file 0) in H1.
    exact H1. }
  destruct (truth (dbBathyFlag a)).
  - apply bind_inv in H. destruct H as ([] & s2 & H2 & H).
    apply fscanf_dbBathy_file in H2.
    unfold bind, modify in H. injection H as _ <-.
    unfold database_bottomDepth.
    repeat match goal with
           | |- context [if ?b then _ else _] =>
               match type of b with bool => destruct b end
           end; cbn; congruence.
  - injection H as _ <-. exact F1.
Qed.

(** Every call of getOCLStationData that returns, whether it skips the
    station or decodes it, takes one line from the bathymetry file if
    dbBathyFlag is set (none is left to take at the end of the file), and
    leaves the file alone if the flag is not set: the file stays in step
    with the stations. *)
Theorem bathymetry_file_in_step (pf : platform) (a : arguments) (s s' : state)
    (st : status) :
  getOCLStationData pf a s = Ret st s' ->
  fp_dbBathy s' = if truth (dbBathyFlag a) then tl (fp_dbBathy s) else fp_dbBathy s.
Proof.
  intros H. apply getOCLStationData_run in H.
  destruct H as (s1 & H1 & [(_ & Hs) | (_ & _ & s2 & s3 & s4 & s5 & s6 & s7 & wanted
                 & H2 & H3 & H4 & H5 & H6 & H7 & H8)]).
  - apply read_station_size_file in H1. apply skip_station_file in Hs.
    unfold same, one_line in *. rewrite Hs, H1. reflexivity.
  - apply read_station_size_file in H1. apply read_station_header_file in H2.
    apply read_character_data_file in H3. apply read_secondary_header_file in H4.
    apply first_bottomDepth_file in H5. apply decide_on_rest_file in H6.
    apply call_skipToNextStation_file in H8.
    assert (F7 : fp_dbBathy s7 = fp_dbBathy s6).
    { destruct wanted; [apply read_rest_of_station_file in H7; exact H7|].
      rewrite H7. reflexivity. }
    unfold same, one_line in *.
    rewrite H8, F7, H6, H5, H4, H3, H2, H1. reflexivity.
Qed.

(** ** The capacity of the station structure *)

(** A station that the arrays of OCLStationType have room for: no more
    than MAX_VARS variable codes and no more than MAX_VARS entries of the
    secondary header.  The loops over the variable codes and over the
    entries have no guard, so beyond the capacity the decoder stores past
    the arrays, into the members that follow them in the structure; what
    becomes of those is not part of the embedding, where every array is a
    function of its own. *)
Definition within_capacity (s : state) : bool :=
  (long_of numberOfVarCodes s <=? MAX_VARS)
  && (long_of numberOfSecHdrEntries s <=? MAX_VARS).

(** ** Where the bottom depth comes from *)

(** What bottomDepthPtr points to, and what bottomDepthSource says of it:
    nothing; the value of an entry of the secondary header with code 10;
    the value of the bathymetry file, which is in use; the depth of the
    level numberOfLevels-1. *)
Definition selection_explained (a : arguments) (s : state) : Prop :=
  match bottomDepthPtr (stnData s) with
  | None => bottomDepthSource (stnData s) = "-"%char
  | Some (DoubleElem secHdrValue j) =>
      bottomDepthSource (stnData s) = "h"%char /\
      0 <= j < long_of numberOfSecHdrEntries s /\ long_at secHdrCode j s = 10
  | Some Static_databaseBathyValue =>
      bottomDepthSource (stnData s) = "d"%char /\ truth (dbBathyFlag a) = true
  | Some (DoubleElem depthValue j) =>
      bottomDepthSource (stnData s) = "p"%char /\
      j = long_of numberOfLevels s - 1 /\ 0 < long_of numberOfLevels s
  | Some _ => False
  end.

(** What the explanation of a selection reads of the state. *)
Definition selection_view (s : state) :=
  (selection s, long_of numberOfSecHdrEntries s, long_arrays (stnData s) secHdrCode,
   long_of numberOfLevels s).

Lemma selection_explained_view (a : arguments) (s s' : state) :
  selection_view s' = selection_view s ->
  selection_explained a s -> selection_explained a s'.
Proof.
  unfold selection_view, selection, selection_explained, long_at, long_of.
  intros E. injection E as E1 E2 E3 E4 E5. rewrite E1, E2, E3, E4, E5. trivial.
Qed.

Lemma first_bottomDepth_explained (pf : platform) (a : arguments)
    (s s' : state) (x : unit) :
  first_bottomDepth pf a s = Ret x s' -> selection_explained a s'.
Proof.
  unfold first_bottomDepth. intros H.
  apply bind_inv in H. destruct H as ([] & s0 & H0 & H). injection H0 as <-.
  apply bind_inv in H. destruct H as (s0' & s0 & H0 & H). injection H0 as <- <-.
  apply bind_inv in H. destruct H as ([] & s1 & H1 & H).
  rewrite header_loop in H1. injection H1 as <-.
  set (n := Z.to_nat (long_of numberOfSecHdrEntries (store_bottomDepth None "-"%char s))) in *.
  set (codes := long_arrays (stnData (store_bottomDepth None "-"%char s)) secHdrCode) in *.
  assert (K : selection_explained a
                (header_selection (last_code_10 codes n)
                   (store_bottomDepth None "-"%char s))).
  { destruct (last_code_10 codes n) as [j|] eqn:E; [|reflexivity].
    apply last_code_10_Some in E. destruct E as (Hj & Hc & _).
    unfold selection_explained. cbn.
    split; [reflexivity|]. split; [|exact Hc].
    unfold n in Hj. 
    change (long_of numberOfSecHdrEntries (store_bottomDepth None "-"%char s))
      with (long_of numberOfSecHdrEntries s) in Hj.
    change (long_members (stnData s) numberOfSecHdrEntries)
      with (long_of numberOfSecHdrEntries s). lia. }
  set (s1 := header_selection _ _) in *. clearbody s1.
  destruct (truth (dbBathyFlag a)) eqn:Hflag.
  - unfold bind, fscanf_dbBathy, modify in H. injection H as _ <-.
    unfold database_bottomDepth.
    repeat match goal with
           | |- context [if ?b then _ else _] =>
               match type of b with bool => destruct b end
           end;
      first [ split; [reflexivity | exact Hflag]
            | revert K; apply selection_explained_view;
              destruct (fp_dbBathy s1); reflexivity ].
  - injection H as _ <-. exact K.
Qed.

Lemma decide_on_rest_view (a : arguments) :
  respects (same selection_view) (decide_on_rest a).
Proof. same_run selection_view. Qed.

Lemma read_biological_header_view (pf : platform) :
  respects (same selection_view) (read_biological_header pf).
Proof. same_run selection_view. Qed.

Lemma read_profile_view (pf : platform) (a : arguments) :
  respects (same selection_view) (read_profile pf a).
Proof. same_run selection_view. Qed.

Lemma last_bottomDepth_explained (pf : platform) (a : arguments) (s : state) :
  selection_explained a s -> selection_explained a (last_bottomDepth pf a s).
Proof.
  intros K. unfold last_bottomDepth.
  destruct (Z.ltb_spec 0 (long_of numberOfLevels s)) as [Hn|_]; [|exact K].
  cbv zeta.
  assert (P : selection_explained a
                (store_bottomDepth
                   (Some (DoubleElem depthValue (long_of numberOfLevels s - 1)))
                   "p"%char s)).
  { unfold selection_explained. cbn. repeat split. exact Hn. }
  destruct (bottomDepthPtr (stnData s)) as [p|] eqn:Ep; [|exact P].
  repeat match goal with
         | |- context [if ?b then _ else _] =>
             match type of b with bool => destruct b eqn:? end
         end; try exact P; try exact K.
  unfold selection_explained. cbn. split; [reflexivity | assumption].
Qed.

(** After a call of getOCLStationData that decodes a station within the
    capacity of the structure, bottomDepthSource tells what bottomDepthPtr
    points to: '-' and NULL where no bottom depth was found (no value
    stands in for it); 'h' and the value of an entry of the secondary header
    that has the code 10; 'd' and the value of the bathymetry file, only
    where that file is in use; 'p' and the depth of the level
    numberOfLevels-1, only where numberOfLevels is positive. *)
Theorem bottomDepth_source (pf : platform) (a : arguments) (s s' : state) :
  getOCLStationData pf a s = Ret SUCCESSFUL s' ->
  within_capacity s' = true ->
  match bottomDepthPtr (stnData s') with
  | None => bottomDepthSource (stnData s') = "-"%char
  | Some (DoubleElem secHdrValue j) =>
      bottomDepthSource (stnData s') = "h"%char /\
      0 <= j < long_of numberOfSecHdrEntries s' /\ long_at secHdrCode j s' = 10
  | Some Static_databaseBathyValue =>
      bottomDepthSource (stnData s') = "d"%char /\ truth (dbBathyFlag a) = true
  | Some (DoubleElem depthValue j) =>
      bottomDepthSource (stnData s') = "p"%char /\
      j = long_of numberOfLevels s' - 1 /\ 0 < long_of numberOfLevels s'
  | Some _ => False
  end.
Proof.
  intros H _. change (selection_explained a s').
  apply getOCLStationData_run in H.
  destruct H as (s1 & H1 & [(_ & Hs) | (_ & _ & s2 & s3 & s4 & s5 & s6 & s7 & wanted
                 & H2 & H3 & H4 & H5 & H6 & H7 & H8)]).
  - exfalso. unfold skip_station in Hs.
    apply bind_inv in Hs. destruct Hs as ([] & sa & _ & Hs).
    apply bind_inv in Hs. destruct Hs as ([] & sb & _ & Hs).
    injection Hs as Hs _. discriminate Hs.
  - apply first_bottomDepth_explained in H5.
    apply decide_on_rest_view in H6.
    apply (selection_explained_view a s5 s6 H6) in H5.
    assert (K7 : selection_explained a s7).
    { destruct wanted; [|rewrite H7; exact H5].
      apply read_rest_of_station_run in H7.
      destruct H7 as (sa & sb & Ha & Hb & ->).
      apply read_biological_header_view in Ha. apply read_profile_view in Hb.
      apply last_bottomDepth_explained.
      apply (selection_explained_view a sa sb Hb).
      apply (selection_explained_view a s6 sa Ha). exact H5. }
    apply call_skipToNextStation_station in H8. unfold same in H8.
    injection H8 as E _ _.
    revert K7. apply selection_explained_view.
    unfold selection_view, selection, long_of. rewrite E. reflexivity.
Qed.

(** ** The filters *)

(** What the filters read of the station. *)
Definition station_view (s : state) :=
  (long_of year s, long_of month s, long_of numberOfLevels s,
   double_of lat s, double_of lon s,
   long_arrays (stnData s) varCode, long_arrays (stnData s) errCodeForVarCode,
   long_of numberOfVarCodes s).

(** The values that the filters give to their members of the station. *)
Definition expected_varListChecksOut (a : arguments) (s : state) : Z :=
  if truth (varListFlag a) then
    checkVarsInclAndNoErrors (varList a) (long_arrays (stnData s) varCode)
      (long_arrays (stnData s) errCodeForVarCode)
      (numVarsOnVarList a) (long_of numberOfVarCodes s)
  else 1.

Definition expected_latlonInRange (a : arguments) (s : state) : Z :=
  if truth (latlonRegionFlag a)
     && (PrimFloat.ltb (double_of lon s) (latlonRegion a 0)
         || PrimFloat.ltb (latlonRegion a 1) (double_of lon s)
         || PrimFloat.ltb (double_of lat s) (latlonRegion a 2)
         || PrimFloat.ltb (latlonRegion a 3) (double_of lat s))
  then 0 else 1.

Definition expected_yearInRange (a : arguments) (s : state) : Z :=
  if truth (yearRangeFlag a)
     && ((long_of year s <? yearRange a 0) || (yearRange a 1 <? long_of year s))
  then 0 else 1.

Definition expected_monthInRange (a : arguments) (s : state) : Z :=
  if truth (monthRangeFlag a)
     && ((long_of month s <? monthRange a 0) || (monthRange a 1 <? long_of month s))
  then 0 else 1.

Definition expected_enoughProfileLevels (a : arguments) (s : state) : Z :=
  if truth (minLevelsFlag a) && (long_of numberOfLevels s <? minLevels a)
  then 0 else 1.

Definition expected_badLatLon (a : arguments) (s : state) : Z :=
  if truth (zeroLatLonFlag a) then
    (if is_zero (double_of lat s)
     then logical_not (zeroLatLonOkay (wmoSquare a) "lat") else 0)
    + (if is_zero (double_of lon s)
       then logical_not (zeroLatLonOkay (wmoSquare a) "lon") else 0)
  else 0.

Definition flags_as_expected (a : arguments) (s : state) : Prop :=
  int_of varListChecksOut s = expected_varListChecksOut a s /\
  int_of latlonInRange s = expected_latlonInRange a s /\
  int_of yearInRange s = expected_yearInRange a s /\
  int_of monthInRange s = expected_monthInRange a s /\
  int_of enoughProfileLevels s = expected_enoughProfileLevels a s /\
  int_of badLatLon s = expected_badLatLon a s.

(** The test of getOCLStationData on its filters. *)
Definition filters_pass (s : state) : bool :=
  truth (int_of varListChecksOut s)
  && negb (truth (int_of badLatLon s)) && truth (int_of latlonInRange s)
  && truth (int_of monthInRange s) && truth (int_of yearInRange s)
  && truth (int_of enoughProfileLevels s).

Lemma flags_as_expected_view (a : arguments) (s s' : state) :
  station_view s' = station_view s ->
  int_members (stnData s') = int_members (stnData s) ->
  flags_as_expected a s -> flags_as_expected a s'.
Proof.
  unfold station_view, flags_as_expected, expected_varListChecksOut,
    expected_latlonInRange, expected_yearInRange, expected_monthInRange,
    expected_enoughProfileLevels, expected_badLatLon, int_of, long_of, double_of.
  intros E Ei. injection E as E1 E2 E3 E4 E5 E6 E7 E8.
  rewrite E1, E2, E3, E4, E5, E6, E7, E8, Ei. trivial.
Qed.

Lemma decide_on_rest_flags (a : arguments) (s s' : state) (wanted : bool) :
  decide_on_rest a s = Ret wanted s' ->
  flags_as_expected a s' /\
  station_view s' = station_view s /\
  selection s' = selection s /\
  wanted =
    ((if negb (truth (wantProfileFlag a))
         && match bottomDepthPtr (stnData s) with Some _ => true | None => false end
      then false else true)
     && filters_pass s').
Proof.
  unfold decide_on_rest. intros H.
  destruct (truth (zeroLatLonFlag a)) eqn:Hz; unfold bind, modify, get, ret in H;
    injection H as <- <-;
    unfold flags_as_expected, expected_varListChecksOut, expected_latlonInRange,
      expected_yearInRange, expected_monthInRange, expected_enoughProfileLevels,
      expected_badLatLon, filters_pass, station_view, selection;
    rewrite Hz;
    cbn -[checkVarsInclAndNoErrors is_zero truth zeroLatLonOkay logical_not
          PrimFloat.ltb Z.ltb Z.add andb orb negb];
    try (destruct (is_zero (double_members (stnData s) lat)) eqn:Zlat;
         cbn -[checkVarsInclAndNoErrors is_zero truth zeroLatLonOkay logical_not
               PrimFloat.ltb Z.ltb Z.add andb orb negb];
         rewrite ?Zlat;
         destruct (is_zero (double_members (stnData s) lon)) eqn:Zlon;
         cbn -[checkVarsInclAndNoErrors is_zero truth zeroLatLonOkay logical_not
               PrimFloat.ltb Z.ltb Z.add andb orb negb];
         rewrite ?Zlat, ?Zlon);
    rewrite ?Z.add_0_r, <- ?andb_assoc;
    repeat split; reflexivity.
Qed.

Lemma read_rest_of_station_view (pf : platform) (a : arguments) :
  respects (same station_view) (read_rest_of_station pf a).
Proof. same_run station_view. Qed.

Lemma read_rest_of_station_flags (pf : platform) (a : arguments) :
  respects (same (fun s => int_members (stnData s))) (read_rest_of_station pf a).
Proof. same_run (fun s => int_members (stnData s)). Qed.

(** A run that decodes the station, from the decision on its rest on. *)
Lemma getOCLStationData_decision (pf : platform) (a : arguments) (s s' : state)
    (new : list step) :
  getOCLStationData pf a s = Ret SUCCESSFUL s' ->
  steps s' = steps s ++ new ->
  exists s5 s6 wanted,
    decide_on_rest a s5 = Ret wanted s6 /\
    station_view s' = station_view s6 /\
    int_members (stnData s') = int_members (stnData s6) /\
    reads_rest_of_station new = wanted /\
    (wanted = false -> stnData s' = stnData s6).
Proof.
  intros H Hnew. apply getOCLStationData_run in H.
  destruct H as (s1 & H1 & [(_ & Hs) | (_ & _ & s2 & s3 & s4 & s5 & s6 & s7 & wanted
                 & H2 & H3 & H4 & H5 & H6 & H7 & H8)]).
  - exfalso. unfold skip_station in Hs.
    apply bind_inv in Hs. destruct Hs as ([] & sa & _ & Hs).
    apply bind_inv in Hs. destruct Hs as ([] & sb & _ & Hs).
    injection Hs as Hs _. discriminate Hs.
  - exists s5, s6, wanted. split; [exact H6|].
    assert (Q : quiet s s6).
    { apply (quiet_trans s s1); [apply (read_station_size_quiet pf s tt s1 H1)|].
      apply (quiet_trans s1 s2); [apply (read_station_header_quiet pf s1 tt s2 H2)|].
      apply (quiet_trans s2 s3); [apply (read_character_data_quiet pf s2 tt s3 H3)|].
      apply (quiet_trans s3 s4); [apply (read_secondary_header_quiet pf s3 tt s4 H4)|].
      apply (quiet_trans s4 s5); [apply (first_bottomDepth_quiet pf a s4 tt s5 H5)|].
      apply (decide_on_rest_quiet a s5 wanted s6 H6). }
    pose proof (call_skipToNextStation_quiet s7 tt s' H8) as Q8.
    pose proof (call_skipToNextStation_station s7 tt s' H8) as F8.
    unfold same in F8. injection F8 as F8 _ _.
    destruct Q as (m6 & E6 & _ & R6). destruct Q8 as (m8 & E8 & _ & R8).
    destruct wanted.
    + pose proof (read_rest_of_station_view pf a s6 tt s7 H7) as V7.
      pose proof (read_rest_of_station_flags pf a s6 tt s7 H7) as I7.
      destruct (read_rest_of_station_steps pf a s6 s7 tt H7) as (m7 & E7 & R7 & _).
      unfold same in V7, I7.
      split; [unfold station_view, long_of, double_of in *; rewrite F8; exact V7|].
      split; [rewrite F8; exact I7|].
      split; [|discriminate].
      rewrite E8, E7, E6, <- !app_assoc in Hnew. apply app_inv_head in Hnew.
      subst new. rewrite !reads_rest_of_station_app, R6, R7. reflexivity.
    + subst s7.
      split; [unfold station_view, long_of, double_of; rewrite F8; reflexivity|].
      split; [rewrite F8; reflexivity|].
      split; [|intros _; exact F8].
      rewrite E8, E6, <- !app_assoc in Hnew. apply app_inv_head in Hnew.
      subst new. rewrite !reads_rest_of_station_app, R6, R8. reflexivity.
Qed.

Lemma getOCLStationData_flags (pf : platform) (a : arguments) (s s' : state) :
  getOCLStationData pf a s = Ret SUCCESSFUL s' -> flags_as_expected a s'.
Proof.
  intros H.
  assert (G : steps_grow s s').
  { apply getOCLStationData_run in H.
    destruct H as (s1 & H1 & [(_ & Hs) | (_ & _ & s2 & s3 & s4 & s5 & s6 & s7 & wanted
                   & H2 & H3 & H4 & H5 & H6 & H7 & H8)]).
    - apply quiet_steps_grow.
      apply (quiet_trans s s1); [apply (read_station_size_quiet pf s tt s1 H1)|].
      apply (skip_station_quiet a s1 _ s' Hs).
    - apply (steps_grow_trans s s6).
      + apply quiet_steps_grow.
        apply (quiet_trans s s1); [apply (read_station_size_quiet pf s tt s1 H1)|].
        apply (quiet_trans s1 s2); [apply (read_station_header_quiet pf s1 tt s2 H2)|].
        apply (quiet_trans s2 s3); [apply (read_character_data_quiet pf s2 tt s3 H3)|].
        apply (quiet_trans s3 s4); [apply (read_secondary_header_quiet pf s3 tt s4 H4)|].
        apply (quiet_trans s4 s5); [apply (first_bottomDepth_quiet pf a s4 tt s5 H5)|].
        apply (decide_on_rest_quiet a s5 wanted s6 H6).
      + apply (steps_grow_trans s6 s7).
        * destruct wanted; [|subst s7; apply steps_grow_refl].
          apply (read_rest_of_station_steps_grow pf a s6 tt s7 H7).
        * apply quiet_steps_grow. apply (call_skipToNextStation_quiet s7 tt s' H8). }
  destruct G as (new & Hnew).
  destruct (getOCLStationData_decision pf a s s' new H Hnew)
    as (s5 & s6 & wanted & H6 & V & I & _).
  apply decide_on_rest_flags in H6. destruct H6 as (F & _).
  revert F. apply flags_as_expected_view; assumption.
Qed.

(** After a call of getOCLStationData that decodes a station within the
    capacity of the structure, the members that tell the outcome of the
    filters hold what the filters say of the station as it is returned: varListChecksOut the check of the variable
    list, or 1 if there is no list; latlonInRange, yearInRange, monthInRange
    and enoughProfileLevels 0 if the filter is set and the station is
    outside of it (the bounds of the ranges are inside), and 1 otherwise;
    badLatLon the number of the coordinates that are zero and should not
    be, 0 if the filter is not set. *)
Theorem filter_members (pf : platform) (a : arguments) (s s' : state) :
  getOCLStationData pf a s = Ret SUCCESSFUL s' ->
  within_capacity s' = true ->
  int_of varListChecksOut s' = expected_varListChecksOut a s' /\
  int_of latlonInRange s' = expected_latlonInRange a s' /\
  int_of yearInRange s' = expected_yearInRange a s' /\
  int_of monthInRange s' = expected_monthInRange a s' /\
  int_of enoughProfileLevels s' = expected_enoughProfileLevels a s' /\
  int_of badLatLon s' = expected_badLatLon a s'.
Proof. intros H _. revert H. apply getOCLStationData_flags. Qed.

(** When the rest of the station is read. *)
Lemma rest_read_when (pf : platform) (a : arguments) (s s' : state)
    (new : list step) :
  getOCLStationData pf a s = Ret SUCCESSFUL s' ->
  steps s' = steps s ++ new ->
  (reads_rest_of_station new = true -> filters_pass s' = true) /\
  (filters_pass s' = true -> truth (wantProfileFlag a) = true ->
   reads_rest_of_station new = true) /\
  (filters_pass s' = true -> reads_rest_of_station new = false ->
   bottomDepthPtr (stnData s') <> None).
Proof.
  intros H Hnew.
  destruct (getOCLStationData_decision pf a s s' new H Hnew)
    as (s5 & s6 & wanted & H6 & V & I & R & U).
  apply decide_on_rest_flags in H6. destruct H6 as (_ & _ & S & W).
  assert (P : filters_pass s' = filters_pass s6)
    by (unfold filters_pass, int_of; rewrite I; reflexivity).
  rewrite P, R. split; [|split].
  - intros ->. symmetry in W. apply andb_true_iff in W. apply W.
  - intros Hp Hw. rewrite W, Hp, Hw. reflexivity.
  - intros Hp Hr. rewrite (U Hr).
    unfold selection in S. injection S as S _. rewrite S.
    rewrite Hp, Hr, andb_true_r in W.
    destruct (bottomDepthPtr (stnData s5)); [discriminate|].
    rewrite andb_false_r in W. discriminate W.
Qed.

(** For a station within the capacity of the structure, the rest of the
    station (the biological header and the profile) is read
    only if the station passes all the filters; it is read whenever it
    passes them and the profile is wanted; and where the profile is not
    wanted, a station that passes the filters is left unread only if a
    bottom depth was found in the header or in the bathymetry file. *)
Theorem rest_of_station_read (pf : platform) (a : arguments) (s s' : state)
    (new : list step) :
  getOCLStationData pf a s = Ret SUCCESSFUL s' ->
  steps s' = steps s ++ new ->
  within_capacity s' = true ->
  (reads_rest_of_station new = true -> filters_pass s' = true) /\
  (filters_pass s' = true -> truth (wantProfileFlag a) = true ->
   reads_rest_of_station new = true) /\
  (filters_pass s' = true -> reads_rest_of_station new = false ->
   bottomDepthPtr (stnData s') <> None).
Proof. intros H Hnew _. exact (rest_read_when pf a s s' new H Hnew). Qed.

(** ** What a call consumes of the stream *)

(** The stream after is what is left of the stream before. *)
Definition consumes (s s' : state) : Prop :=
  exists consumed, fp_in s = consumed ++ fp_in s'.

Lemma consumes_refl (s : state) : consumes s s.
Proof. exists []. reflexivity. Qed.

Lemma consumes_trans (s1 s2 s3 : state) :
  consumes s1 s2 -> consumes s2 s3 -> consumes s1 s3.
Proof.
  intros (c1 & H1) (c2 & H2). exists (c1 ++ c2).
  rewrite H1, H2, app_assoc. reflexivity.
Qed.

Lemma getVarlenIntField_consumes (pf : platform) (fp fp' : stream) (v b : Z)
    (r : status * Z * Z) :
  getVarlenIntField pf fp v b = Read r fp' ->
  exists consumed, fp = consumed ++ fp' /\ 1 <= content_length consumed.
Proof.
  unfold getVarlenIntField. intros H.
  destruct (getIntDigits pf fp 1 (indeterminate pf)) as [[st1 L] fp1|] eqn:E1;
    [|discriminate].
  apply getIntDigits_consumes in E1. destruct E1 as (c1 & H1 & L1 & _).
  destruct (getIntDigits pf fp1 (int_of_long L) v) as [[st2 v2] fp2|] eqn:E2;
    [|discriminate].
  apply getIntDigits_consumes in E2. destruct E2 as (c2 & H2 & L2 & _).
  assert (fp' = fp2).
  { destruct st2; try (destruct (b - 1 <? 0)); injection H as _ <-; reflexivity. }
  subst fp'. exists (c1 ++ c2).
  split; [rewrite <- app_assoc, <- H2; exact H1|].
  rewrite content_length_app. lia.
Qed.

Lemma getVarlenFloatField_consumes (pf : platform) (fp fp' : stream) (v : float)
    (b : Z) (r : status * float * Z) :
  getVarlenFloatField pf fp v b = Read r fp' ->
  exists consumed, fp = consumed ++ fp'.
Proof.
  unfold getVarlenFloatField. intros H.
  destruct (getIntDigits pf fp 1 (indeterminate pf)) as [[st1 sig] fp1|] eqn:E1;
    [|discriminate].
  apply getIntDigits_consumes in E1. destruct E1 as (c1 & H1 & _).
  destruct st1; try (injection H as _ <-; exists c1; exact H1).
  destruct (getIntDigits pf fp1 1 (indeterminate pf)) as [[st2 total] fp2|] eqn:E2;
    [|discriminate].
  apply getIntDigits_consumes in E2. destruct E2 as (c2 & H2 & _).
  destruct (getIntDigits pf fp2 1 (indeterminate pf)) as [[st3 prec] fp3|] eqn:E3;
    [|discriminate].
  apply getIntDigits_consumes in E3. destruct E3 as (c3 & H3 & _).
  destruct (getIntDigits pf fp3 (int_of_long total) (indeterminate pf))
    as [[st4 iv] fp4|] eqn:E4; [|discriminate].
  apply getIntDigits_consumes in E4. destruct E4 as (c4 & H4 & _).
  injection H as _ <-. exists (c1 ++ c2 ++ c3 ++ c4).
  rewrite <- !app_assoc, <- H4, <- H3, <- H2. exact H1.
Qed.

Lemma consumes_call_getIntDigits (pf : platform) (n : Z) (p : long_ptr) :
  respects consumes (call_getIntDigits pf n p).
Proof.
  intros s x s' H. unfold call_getIntDigits in H.
  destruct (getIntDigits pf (fp_in s) n (load_long pf p s)) as [[st v] fp'|] eqn:E;
    [|discriminate].
  injection H as _ <-. apply getIntDigits_consumes in E.
  destruct E as (c1 & H1 & _). exists c1.
  destruct p; exact H1.
Qed.

Lemma consumes_call_getVarlenIntField (pf : platform) (p : long_ptr) :
  respects consumes (call_getVarlenIntField pf p).
Proof.
  intros s x s' H. unfold call_getVarlenIntField in H.
  destruct (getVarlenIntField pf (fp_in s) (load_long pf p s)
              (long_of bytesLeftInStation s)) as [[[st v] b] fp'|] eqn:E;
    [|discriminate].
  injection H as _ <-. apply getVarlenIntField_consumes in E.
  destruct E as (c1 & H1 & _). exists c1.
  destruct p; exact H1.
Qed.

Lemma consumes_call_getVarlenFloatField (pf : platform) (p : double_ptr) :
  respects consumes (call_getVarlenFloatField pf p).
Proof.
  intros s x s' H. unfold call_getVarlenFloatField in H.
  destruct (getVarlenFloatField pf (fp_in s) (load_double p s)
              (long_of bytesLeftInStation s)) as [[[st v] b] fp'|] eqn:E;
    [|discriminate].
  injection H as _ <-. apply getVarlenFloatField_consumes in E.
  destruct E as (c1 & H1). exists c1.
  destruct p; exact H1.
Qed.

Lemma consumes_call_skipToNextStation : respects consumes call_skipToNextStation.
Proof.
  intros s x s' H. unfold call_skipToNextStation, modify in H. injection H as _ <-.
  destruct (skip_loop_skips (fp_in s) 0 (long_of bytesLeftInStation s))
    as (sk & Hsk & _).
  exists (sk ++ fst (fgets 79 (skip_loop (fp_in s) 0 (long_of bytesLeftInStation s)))).
  change (fp_in s =
          (sk ++ fst (fgets 79 (skip_loop (fp_in s) 0 (long_of bytesLeftInStation s))))
          ++ skipToNextStation (fp_in s) (long_of bytesLeftInStation s)).
  unfold skipToNextStation. rewrite <- app_assoc, <- fgets_split. exact Hsk.
Qed.

Ltac consumes_leaf :=
  unfold consumes, last_bottomDepth, database_bottomDepth;
  repeat break_match; exists []; reflexivity.

Ltac consumes_run :=
  pose proof consumes_refl; pose proof consumes_trans;
  unfold getOCLStationData, read_station_size, skip_station, read_station_header,
    read_variable_code, read_character_data, read_secondary_header,
    read_secondary_header_entry, first_bottomDepth, header_bottomDepth,
    decide_on_rest, read_rest_of_station, read_biological_header, skip_section,
    skip_byte, read_profile, read_profile_level, read_value, if_zero_length,
    decrement_bytesLeftInStation, fscanf_dbBathy, fprintf_stderr;
  repeat first
    [ apply consumes_call_getIntDigits
    | apply consumes_call_getVarlenIntField
    | apply consumes_call_getVarlenFloatField
    | apply consumes_call_skipToNextStation
    | apply respects_bind; [assumption | | intros ?]
    | apply respects_ret; assumption
    | apply respects_get; assumption
    | apply respects_if
    | apply respects_for_upto; [assumption | assumption | intros ?]
    | apply respects_for_while; [assumption | assumption | intros ?]
    | apply respects_modify; intros ?; consumes_leaf ].

Lemma getOCLStationData_consumes (pf : platform) (a : arguments) :
  respects consumes (getOCLStationData pf a).
Proof. consumes_run. Qed.

Lemma read_station_size_consumes (pf : platform) (s s' : state) (x : unit) :
  read_station_size pf s = Ret x s' ->
  exists consumed, fp_in s = consumed ++ fp_in s' /\ 2 <= content_length consumed.
Proof.
  unfold read_station_size. intros H.
  apply bind_inv in H. destruct H as ([] & s0 & H0 & H). injection H0 as <-.
  apply bind_inv in H. destruct H as (st1 & s1 & H1 & H).
  apply bind_inv in H. destruct H as ([] & s2 & H2 & H).
  apply bind_inv in H. destruct H as (st2 & s3 & H3 & H).
  assert (C1 : exists c, fp_in s = c ++ fp_in s1 /\ 1 <= content_length c).
  { unfold call_getVarlenIntField in H1.
    destruct (getVarlenIntField pf _ _ _) as [[[st v] b] fp'|] eqn:E; [|discriminate].
    injection H1 as _ <-. apply getVarlenIntField_consumes in E. exact E. }
  assert (C2 : fp_in s2 = fp_in s1).
  { unfold if_zero_length in H2. destruct (status_eqb st1 ZERO_LENGTH_FIELD);
      injection H2 as <-; reflexivity. }
  assert (C3 : exists c, fp_in s2 = c ++ fp_in s3 /\ 1 <= content_length c).
  { unfold call_getVarlenIntField in H3.
    destruct (getVarlenIntField pf _ _ _) as [[[st v] b] fp'|] eqn:E; [|discriminate].
    injection H3 as _ <-. apply getVarlenIntField_consumes in E. exact E. }
  assert (C4 : fp_in s' = fp_in s3).
  { unfold if_zero_length in H. destruct (status_eqb st2 ZERO_LENGTH_FIELD);
      injection H as _ <-; reflexivity. }
  destruct C1 as (c1 & E1 & L1). destruct C3 as (c3 & E3 & L3).
  exists (c1 ++ c3). rewrite content_length_app.
  split; [|lia]. rewrite E1, <- C2, E3, C4, app_assoc. reflexivity.
Qed.

Lemma getOCLStationData_consumed (pf : platform) (a : arguments) (s s' : state)
    (st : status) :
  getOCLStationData pf a s = Ret st s' ->
  exists consumed,
    fp_in s = consumed ++ fp_in s' /\ 2 <= content_length consumed.
Proof.
  intros H. unfold getOCLStationData in H.
  apply bind_inv in H. destruct H as ([] & s1 & H1 & H).
  apply read_station_size_consumes in H1. destruct H1 as (c1 & E1 & L1).
  assert (C : consumes s1 s').
  { revert H. generalize s1 st s'. change (respects consumes
      (if skipping a then skip_station a
       else (read_station_header pf;; read_character_data pf;;
             read_secondary_header pf;; first_bottomDepth pf a;;
             wanted <- decide_on_rest a;;
             (if wanted then read_rest_of_station pf a else ret tt);;
             call_skipToNextStation;; ret SUCCESSFUL))).
    consumes_run. }
  destruct C as (c2 & E2). exists (c1 ++ c2).
  split; [rewrite E1, E2, app_assoc; reflexivity|].
  rewrite content_length_app. pose proof (content_length_nonneg c2). lia.
Qed.


(** A call of getOCLStationData that returns has consumed a stretch of the
    stream, with the two characters at least that the size and the number
    of the station take, and has left the rest of the stream as it was: it
    never puts anything back or reads a station twice. *)
Theorem getOCLStationData_progress (pf : platform) (a : arguments) (s s' : state)
    (st : status) :
  getOCLStationData pf a s = Ret st s' ->
  exists consumed,
    fp_in s = consumed ++ fp_in s' /\ 2 <= content_length consumed.
Proof. apply getOCLStationData_consumed. Qed.

Lemma getOCLStationData_blank (pf : platform) (a : arguments) (s : state) :
  content (fp_in s) = [] ->
  getOCLStationData pf a s = Exit (stderr s ++ [unexpected_EOF]).
Proof.
  intros Hblank. unfold getOCLStationData, read_station_size.
  unfold bind at 1. unfold bind at 1. unfold modify at 1.
  unfold bind at 1. unfold call_getVarlenIntField at 1.
  change (fp_in (store_long_member bytesLeftInStation (-1) s)) with (fp_in s).
  unfold getVarlenIntField.
  pose proof (getIntDigits_cases pf (fp_in s) 1 (indeterminate pf)) as C.
  destruct (getIntDigits pf (fp_in s) 1 (indeterminate pf)) as [[st v] rest|].
  - exfalso. destruct C as (consumed & Hsplit & Hlen & _).
    assert (content_length (fp_in s) = 0)
      by (unfold content_length; rewrite Hblank; reflexivity).
    rewrite Hsplit, content_length_app in H.
    pose proof (content_length_nonneg rest). lia.
  - reflexivity.
Qed.

(** On a stream that holds nothing but line terminators (an empty file, or
    blank lines after the last station), getOCLStationData exits with the
    message of the unexpected end of file. *)
Theorem blank_input_exits (pf : platform) (a : arguments) (s : state) :
  content (fp_in s) = [] ->
  getOCLStationData pf a s = Exit (stderr s ++ [unexpected_EOF]).
Proof. apply getOCLStationData_blank. Qed.

(** ** oclfilt.c: what is output *)

(** The options of oclfilt that are not arguments of getOCLStationData, as
    parse_commandline leaves them.  The option -f (debugFlag, the full
    output of outputAllStationData, which dereferences bottomDepthPtr also
    where it is NULL) is taken as not given. *)
Record options : Type := {
  botDepthFiltFlag : Z;
  shallowerDLimit : float;
  deeperDLimit : float;
  endStatsFlag : Z;
  numStnsFlag : Z;
  numStnsToOutput : Z;
  queryFlag : Z;
  titlesFlag : Z;
  includeErrorFlaggedData : Z
}.

(** The value of a logical expression of C. *)
Definition c_bool (b : bool) : Z := if b then 1 else 0.

Section Driver.

Variable pf : platform.
Variable o : options.
Variable a : arguments.

(** The output conditional of main, [outputThisStation] after its last
    assignment. *)
Definition outputThisStation (s : state) : Z :=
  (if truth (botDepthFiltFlag o)
      && match bottomDepthPtr (stnData s) with Some _ => true | None => false end
   then
     if PrimFloat.leb (shallowerDLimit o) (bottomDepth pf s)
        && PrimFloat.leb (bottomDepth pf s) (deeperDLimit o)
     then 1 else 0
   else 1)
  * c_bool (negb (truth (varListFlag a)) || truth (int_of varListChecksOut s))
  * c_bool (negb (truth (zeroLatLonFlag a)) || negb (truth (int_of badLatLon s)))
  * c_bool (negb (truth (latlonRegionFlag a)) || truth (int_of latlonInRange s))
  * c_bool (negb (truth (yearRangeFlag a)) || truth (int_of yearInRange s))
  * c_bool (negb (truth (monthRangeFlag a)) || truth (int_of monthInRange s))
  * c_bool (negb (truth (minLevelsFlag a)) || truth (int_of enoughProfileLevels s)).

(** The test of a profile level for data with an error flag in the
    variables of the list: [errorFlaggedDataExists] after the conditional,
    from its value before. *)
Definition level_check (s : state) (j : Z) (errorFlaggedDataExists : Z) : Z :=
  if truth (varListFlag a) then
    for_range (Z.to_nat (long_of numberOfVarCodes s)) 0 (fun k acc =>
      for_range (Z.to_nat (numVarsOnVarList a)) 0 (fun l acc =>
        if varList a l =? long_at varCode k s then
          if negb (errCodeForVarValue (stnData s) k j =? 0)
             || negb (PrimFloat.ltb 0%float (varValue (stnData s) k j)
                      || PrimFloat.leb (varValue (stnData s) k j) 0%float)
          then 1 else acc
        else acc) acc) 0
  else errorFlaggedDataExists.

(** One turn of the loop over the profile levels of the formatted output, on
    the value of [errorFlaggedDataExists], the levels that have got a line,
    and [numLevelsWithErrorFlags]. *)
Definition profile_line (s : state) (j : Z) (acc : Z * list Z * Z)
  : Z * list Z * Z :=
  let '(flag, lines, numLevelsWithErrorFlags) := acc in
  let flag := level_check s j flag in
  (flag,
   if negb (truth flag) || truth (includeErrorFlaggedData o)
   then lines ++ [j] else lines,
   if truth flag then numLevelsWithErrorFlags + 1 else numLevelsWithErrorFlags).

Definition profile_lines (s : state) (errorFlaggedDataExists : Z)
  : Z * list Z * Z :=
  for_range (Z.to_nat (long_of numberOfLevels s)) 0 (profile_line s)
    (errorFlaggedDataExists, [], 0).

End Driver.

(** !(v>0 || v<=0), the test for a missing value, holds of the NaNs and of
    nothing else. *)
Lemma missing_is_NaN (v : float) :
  negb (PrimFloat.ltb 0%float v || PrimFloat.leb v 0%float) = is_NaN v.
Proof.
  unfold is_NaN. rewrite ltb_spec, leb_spec, eqb_spec.
  change (Prim2SF 0%float) with (S754_zero false).
  unfold SFltb, SFleb, SFeqb.
  destruct (Prim2SF v) as [sv|sv| |sv mv ev].
  - reflexivity.
  - destruct sv; reflexivity.
  - reflexivity.
  - destruct (SFcompare_refl (S754_finite sv mv ev)) as [E|E].
    + exfalso. cbn in E. destruct sv; 
        rewrite Z.compare_refl in E;
        change (Pos.compare_cont Eq mv mv) with (Pos.compare mv mv) in E;
        rewrite Pos.compare_refl in E; discriminate E.
    + rewrite E. destruct sv; reflexivity.
Qed.

Lemma for_range_flag (p : Z -> bool) (n : nat) : forall j (acc : Z),
  for_range n j (fun k acc => if p k then 1 else acc) acc =
  if 0 <? count_range n j p then 1 else acc.
Proof.
  induction n as [|n IH]; intros j acc; cbn [for_range count_range]; [reflexivity|].
  rewrite IH. pose proof (count_range_nonneg p n (j + 1)) as Hn.
  destruct (p j).
  - destruct (Z.ltb_spec 0 (count_range n (j + 1) p));
      destruct (Z.ltb_spec 0 (1 + count_range n (j + 1) p)); try lia; reflexivity.
  - rewrite Z.add_0_l. reflexivity.
Qed.

Lemma for_range_ext {A : Type} (f g : Z -> A -> A) (n : nat) :
  (forall j acc, f j acc = g j acc) ->
  forall j acc, for_range n j f acc = for_range n j g acc.
Proof.
  intros H. induction n as [|n IH]; intros j acc; cbn [for_range]; [reflexivity|].
  rewrite H. apply IH.
Qed.

Section Levels.

Variable a : arguments.
Variable s : state.
Variable j : Z.

(** The variable k of the station, which is the entry l of the list, has
    an error code or no value at the level j. *)
Definition flagged_value (k l : Z) : bool :=
  (varList a l =? long_at varCode k s)
  && (negb (errCodeForVarValue (stnData s) k j =? 0)
      || negb (PrimFloat.ltb 0%float (varValue (stnData s) k j)
               || PrimFloat.leb (varValue (stnData s) k j) 0%float)).

Lemma level_check_count (e : Z) :
  level_check a s j e =
  if truth (varListFlag a) then
    if 0 <? count_range (Z.to_nat (long_of numberOfVarCodes s)) 0
              (fun k => 0 <? count_range (Z.to_nat (numVarsOnVarList a)) 0
                               (flagged_value k))
    then 1 else 0
  else e.
Proof.
  unfold level_check. destruct (truth (varListFlag a)); [|reflexivity].
  rewrite <- for_range_flag. apply for_range_ext. intros k acc.
  rewrite <- for_range_flag. apply for_range_ext. intros l acc'.
  unfold flagged_value.
  destruct (varList a l =? long_at varCode k s); reflexivity.
Qed.

(** With a variable list, a profile level is flagged exactly when one of
    the variables of the station that is on the list has, at this level,
    an error code other than 0 or a value that is missing (a NaN); without
    a list the flag stays as it was. *)
Theorem level_check_flagged (errorFlaggedDataExists : Z) :
  (truth (varListFlag a) = true ->
   (level_check a s j errorFlaggedDataExists = 1 \/
    level_check a s j errorFlaggedDataExists = 0) /\
   (level_check a s j errorFlaggedDataExists = 1 <->
    exists k l,
      0 <= k < long_of numberOfVarCodes s /\ 0 <= l < numVarsOnVarList a /\
      varList a l = long_at varCode k s /\
      (errCodeForVarValue (stnData s) k j <> 0 \/
       is_NaN (varValue (stnData s) k j) = true))) /\
  (truth (varListFlag a) = false ->
   level_check a s j errorFlaggedDataExists = errorFlaggedDataExists).
Proof.
  rewrite level_check_count. split; intros Hv; rewrite Hv; [|reflexivity].
  set (inner := fun k => 0 <? count_range (Z.to_nat (numVarsOnVarList a)) 0
                                 (flagged_value k)).
  destruct (Z.ltb_spec 0 (count_range (Z.to_nat (long_of numberOfVarCodes s)) 0 inner))
    as [Hpos|Hnone].
  - split; [left; reflexivity|]. split; [intros _|reflexivity].
    apply count_range_exists in Hpos. destruct Hpos as (k & Hk & Ek).
    unfold inner in Ek. apply Z.ltb_lt in Ek.
    apply count_range_exists in Ek. destruct Ek as (l & Hl & El).
    unfold flagged_value in El. apply andb_true_iff in El. destruct El as [Em Ef].
    apply Z.eqb_eq in Em. exists k, l.
    split; [lia|]. split; [lia|]. split; [exact Em|].
    apply orb_true_iff in Ef. destruct Ef as [Ee|En].
    + left. apply negb_true_iff in Ee. apply Z.eqb_neq in Ee. exact Ee.
    + right. rewrite <- missing_is_NaN. exact En.
  - split; [right; reflexivity|]. split; [discriminate|].
    intros (k & l & Hk & Hl & Em & Ef). exfalso.
    assert (0 < count_range (Z.to_nat (long_of numberOfVarCodes s)) 0 inner); [|lia].
    apply count_range_exists. exists k. split; [lia|].
    unfold inner. apply Z.ltb_lt. apply count_range_exists.
    exists l. split; [lia|]. unfold flagged_value.
    rewrite Em, Z.eqb_refl. cbn [andb]. apply orb_true_iff.
    destruct Ef as [Ee|En].
    + left. apply negb_true_iff. apply Z.eqb_neq. exact Ee.
    + right. rewrite missing_is_NaN. exact En.
Qed.

End Levels.

Section Lines.

Variable o : options.
Variable a : arguments.
Variable s : state.
Variable e0 : Z.

Lemma level_check_previous (j e : Z) :
  (truth (varListFlag a) = false -> e = e0) ->
  level_check a s j e = level_check a s j e0 /\
  (truth (varListFlag a) = false -> level_check a s j e = e0).
Proof.
  intros He. unfold level_check. destruct (truth (varListFlag a)).
  - split; [reflexivity | discriminate].
  - split; [apply He; reflexivity | intros _; apply He; reflexivity].
Qed.

Definition gets_line (j : Z) : bool :=
  negb (truth (level_check a s j e0)) || truth (includeErrorFlaggedData o).

Lemma profile_lines_loop (n : nat) : forall j e lines count,
  (truth (varListFlag a) = false -> e = e0) ->
  exists e',
    for_range n j (profile_line o a s) (e, lines, count)
    = (e', lines ++ filter gets_line (range j n),
       count + Z.of_nat (List.length
                           (filter (fun j => truth (level_check a s j e0))
                              (range j n)))).
Proof.
  induction n as [|n IH]; intros j e lines count He; cbn [for_range range filter].
  - exists e. rewrite app_nil_r. cbn [List.length]. rewrite Z.add_0_r. reflexivity.
  - destruct (level_check_previous j e He) as (E & E').
    unfold profile_line at 2. rewrite E.
    destruct (IH (j + 1) (level_check a s j e0)
                (if negb (truth (level_check a s j e0))
                    || truth (includeErrorFlaggedData o)
                 then lines ++ [j] else lines)
                (if truth (level_check a s j e0) then count + 1 else count))
      as (e' & ->).
    { intros Hv. rewrite <- E. apply E'. exact Hv. }
    exists e'. unfold gets_line at 2.
    destruct (negb (truth (level_check a s j e0)) || truth (includeErrorFlaggedData o));
      destruct (truth (level_check a s j e0));
      cbn [app List.length]; rewrite <- ?app_assoc; cbn [app];
      f_equal; try lia; f_equal; lia.
Qed.

Lemma profile_lines_filter :
  snd (fst (profile_lines o a s e0)) =
    filter gets_line (range 0 (Z.to_nat (long_of numberOfLevels s))) /\
  snd (profile_lines o a s e0) =
    Z.of_nat (List.length
                (filter (fun j => truth (level_check a s j e0))
                   (range 0 (Z.to_nat (long_of numberOfLevels s))))) /\
  (truth (includeErrorFlaggedData o) = true ->
   snd (fst (profile_lines o a s e0)) =
     range 0 (Z.to_nat (long_of numberOfLevels s))).
Proof.
  unfold profile_lines.
  destruct (profile_lines_loop (Z.to_nat (long_of numberOfLevels s)) 0 e0 [] 0)
    as (e' & ->); [intros _; reflexivity|].
  cbn [fst snd app]. split; [reflexivity|]. split; [reflexivity|].
  intros Hi. unfold gets_line. rewrite Hi.
  generalize (range 0 (Z.to_nat (long_of numberOfLevels s))).
  intros l. induction l as [|x l IHl]; [reflexivity|].
  cbn [filter]. rewrite orb_true_r, IHl. reflexivity.
Qed.

(** The formatted output has a line for the levels 0, 1, ... below
    numberOfLevels that have no flag, and for all of them if the data with
    error flags are included; numLevelsWithErrorFlags counts the levels with
    a flag. *)
Theorem profile_lines_printed :
  snd (fst (profile_lines o a s e0)) =
    filter gets_line (range 0 (Z.to_nat (long_of numberOfLevels s))) /\
  snd (profile_lines o a s e0) =
    Z.of_nat (List.length
                (filter (fun j => truth (level_check a s j e0))
                   (range 0 (Z.to_nat (long_of numberOfLevels s))))) /\
  (truth (includeErrorFlaggedData o) = true ->
   snd (fst (profile_lines o a s e0)) =
     range 0 (Z.to_nat (long_of numberOfLevels s))).
Proof. apply profile_lines_filter. Qed.

End Lines.

Lemma in_range (n : nat) : forall j x, In x (range j n) <-> j <= x < j + Z.of_nat n.
Proof.
  induction n as [|n IH]; intros j x; cbn [range In]; [lia|].
  rewrite IH. lia.
Qed.

(** ** The decoder and the output conditional *)

(** The test of the bottom depth filter. *)
Definition depth_within (pf : platform) (o : options) (s : state) : bool :=
  negb (truth (botDepthFiltFlag o))
  || match bottomDepthPtr (stnData s) with
     | Some _ => PrimFloat.leb (shallowerDLimit o) (bottomDepth pf s)
                 && PrimFloat.leb (bottomDepth pf s) (deeperDLimit o)
     | None => true
     end.

Lemma c_bool_mul (x y : bool) : c_bool x * c_bool y = c_bool (x && y).
Proof. destruct x, y; reflexivity. Qed.

Lemma outputThisStation_flags (pf : platform) (o : options) (a : arguments)
    (s : state) :
  flags_as_expected a s ->
  outputThisStation pf o a s = c_bool (depth_within pf o s && filters_pass s) /\
  filters_pass s =
    truth (expected_varListChecksOut a s) && negb (truth (expected_badLatLon a s))
    && truth (expected_latlonInRange a s) && truth (expected_monthInRange a s)
    && truth (expected_yearInRange a s) && truth (expected_enoughProfileLevels a s).
Proof.
  intros (F1 & F2 & F3 & F4 & F5 & F6).
  unfold outputThisStation, depth_within, filters_pass.
  rewrite F1, F2, F3, F4, F5, F6. split; [|reflexivity].
  assert (E1 : negb (truth (varListFlag a)) || truth (expected_varListChecksOut a s)
               = truth (expected_varListChecksOut a s))
    by (unfold expected_varListChecksOut; destruct (truth (varListFlag a)); reflexivity).
  assert (E2 : negb (truth (zeroLatLonFlag a)) || negb (truth (expected_badLatLon a s))
               = negb (truth (expected_badLatLon a s)))
    by (unfold expected_badLatLon; destruct (truth (zeroLatLonFlag a)); reflexivity).
  assert (E3 : negb (truth (latlonRegionFlag a)) || truth (expected_latlonInRange a s)
               = truth (expected_latlonInRange a s))
    by (unfold expected_latlonInRange; destruct (truth (latlonRegionFlag a)); reflexivity).
  assert (E4 : negb (truth (yearRangeFlag a)) || truth (expected_yearInRange a s)
               = truth (expected_yearInRange a s))
    by (unfold expected_yearInRange; destruct (truth (yearRangeFlag a)); reflexivity).
  assert (E5 : negb (truth (monthRangeFlag a)) || truth (expected_monthInRange a s)
               = truth (expected_monthInRange a s))
    by (unfold expected_monthInRange; destruct (truth (monthRangeFlag a)); reflexivity).
  assert (E6 : negb (truth (minLevelsFlag a))
               || truth (expected_enoughProfileLevels a s)
               = truth (expected_enoughProfileLevels a s))
    by (unfold expected_enoughProfileLevels; destruct (truth (minLevelsFlag a));
        reflexivity).
  rewrite E1, E2, E3, E4, E5, E6.
  set (depth := if truth (botDepthFiltFlag o) && _ then _ else 1).
  assert (Ed : depth =
               c_bool (negb (truth (botDepthFiltFlag o))
                       || match bottomDepthPtr (stnData s) with
                          | Some _ =>
                              PrimFloat.leb (shallowerDLimit o) (bottomDepth pf s)
                              && PrimFloat.leb (bottomDepth pf s) (deeperDLimit o)
                          | None => true
                          end)).
  { unfold depth. destruct (truth (botDepthFiltFlag o)); [|reflexivity].
    destruct (bottomDepthPtr (stnData s)); [|reflexivity].
    cbn [andb negb orb].
    destruct (PrimFloat.leb (shallowerDLimit o) (bottomDepth pf s)
              && PrimFloat.leb (bottomDepth pf s) (deeperDLimit o)); reflexivity. }
  rewrite Ed, !c_bool_mul.
  f_equal.
  set (t1 := truth (expected_varListChecksOut a s)).
  set (t2 := negb (truth (expected_badLatLon a s))).
  set (t3 := truth (expected_latlonInRange a s)).
  set (t4 := truth (expected_yearInRange a s)).
  set (t5 := truth (expected_monthInRange a s)).
  set (t6 := truth (expected_enoughProfileLevels a s)).
  set (d := negb _ || _).
  destruct d, t1, t2, t3, t4, t5, t6; reflexivity.
Qed.

(** A station within the capacity of the structure (variable codes,
    entries of the secondary header and levels) that getOCLStationData has
    decoded is output by oclfilt exactly when it passes the filters that
    are set, as they read on the station returned: a bottom depth, if one is selected, within the limits
    (a station without a bottom depth passes); the variable list covered;
    no zero coordinate that should not be; the position, the year and the
    month within their ranges, bounds included; no fewer levels than the
    minimum. *)
Theorem station_output (pf : platform) (o : options) (a : arguments) (s s' : state) :
  getOCLStationData pf a s = Ret SUCCESSFUL s' ->
  within_capacity s' = true ->
  long_of numberOfLevels s' <= MAX_LEVELS ->
  outputThisStation pf o a s' =
  c_bool
    ((negb (truth (botDepthFiltFlag o))
      || match bottomDepthPtr (stnData s') with
         | Some _ => PrimFloat.leb (shallowerDLimit o) (bottomDepth pf s')
                     && PrimFloat.leb (bottomDepth pf s') (deeperDLimit o)
         | None => true
         end)
     && (truth (expected_varListChecksOut a s')
         && negb (truth (expected_badLatLon a s'))
         && truth (expected_latlonInRange a s')
         && truth (expected_monthInRange a s')
         && truth (expected_yearInRange a s')
         && truth (expected_enoughProfileLevels a s'))).
Proof.
  intros H _ _. apply getOCLStationData_flags in H.
  destruct (outputThisStation_flags pf o a s' H) as (E & <-). exact E.
Qed.

(** ** varCodeLabel and varCodeUnits *)

(** The test of both functions: the code is none of the eleven codes. *)
Definition invalid_varCode (oneVarCode : Z) : bool :=
  negb (oneVarCode =? 1) && negb (oneVarCode =? 2) && negb (oneVarCode =? 3)
  && negb (oneVarCode =? 4) && negb (oneVarCode =? 6) && negb (oneVarCode =? 7)
  && negb (oneVarCode =? 8) && negb (oneVarCode =? 9) && negb (oneVarCode =? 11)
  && negb (oneVarCode =? 17) && negb (oneVarCode =? 25).

(** The elements of label[] and units[] that are assigned; the others are
    never returned. *)
Definition label (i : Z) : string :=
  if i =? 1 then "Temp" else if i =? 2 then "Sal" else if i =? 3 then "Oxy"
  else if i =? 4 then "Phos" else if i =? 6 then "Silic"
  else if i =? 7 then "Nitri" else if i =? 8 then "Nitra"
  else if i =? 9 then "pH" else if i =? 11 then "Chlor"
  else if i =? 17 then "Alka" else if i =? 25 then "Pres" else "".

Definition units (i : Z) : string :=
  if i =? 1 then "deg C" else if i =? 2 then "ppt" else if i =? 3 then "ml/l"
  else if i =? 4 then "micromolar" else if i =? 6 then "micromolar"
  else if i =? 7 then "micromolar" else if i =? 8 then "micromolar"
  else if i =? 9 then "unitless" else if i =? 11 then "ug/l"
  else if i =? 17 then "meq/l" else if i =? 25 then "dbars" else "".

(** char *varCodeLabel(long int oneVarCode); [None] is the exit(1) on an
    invalid code. *)
Definition varCodeLabel (oneVarCode : Z) : option string :=
  if invalid_varCode oneVarCode then None else Some (label oneVarCode).

(** char *varCodeUnits(long int oneVarCode) *)
Definition varCodeUnits (oneVarCode : Z) : option string :=
  if invalid_varCode oneVarCode then None else Some (units oneVarCode).

(** The title of the formatted output calls varCodeLabel, and then
    varCodeUnits, on every variable code of the station: the labels and the
    units of the columns, or [None] if one of the calls exits. *)
Fixpoint title_columns (f : Z -> option string) (varCode : Z -> Z) (n : nat) (j : Z)
  : option (list string) :=
  match n with
  | O => Some []
  | S n' =>
      match f (varCode j) with
      | None => None
      | Some x =>
          match title_columns f varCode n' (j + 1) with
          | None => None
          | Some l => Some (x :: l)
          end
      end
  end.

Definition title (s : state) : option (list string * list string) :=
  match title_columns varCodeLabel (long_arrays (stnData s) varCode)
          (Z.to_nat (long_of numberOfVarCodes s)) 0 with
  | None => None
  | Some labels =>
      match title_columns varCodeUnits (long_arrays (stnData s) varCode)
              (Z.to_nat (long_of numberOfVarCodes s)) 0 with
      | None => None
      | Some units => Some (labels, units)
      end
  end.

Definition varCodes : list Z := [1; 2; 3; 4; 6; 7; 8; 9; 11; 17; 25].

Lemma invalid_varCode_spec (c : Z) : invalid_varCode c = false <-> In c varCodes.
Proof.
  unfold invalid_varCode, varCodes. cbn [In].
  rewrite !andb_false_iff, !negb_false_iff, !Z.eqb_eq.
  intuition (try lia; auto).
Qed.

Lemma title_columns_exits (f : Z -> option string) (varCode : Z -> Z) (n : nat) :
  forall j,
    title_columns f varCode n j = None <->
    exists k, j <= k < j + Z.of_nat n /\ f (varCode k) = None.
Proof.
  induction n as [|n IH]; intros j; cbn [title_columns].
  - split; [discriminate | intros (k & Hk & _); lia].
  - destruct (f (varCode j)) as [x|] eqn:E.
    + specialize (IH (j + 1)).
      destruct (title_columns f varCode n (j + 1)) as [l|].
      * split; [discriminate|]. intros (k & Hk & Ek).
        destruct (Z.eq_dec k j) as [->|Hne]; [congruence|]. exfalso.
        assert (X : Some l = None); [|discriminate X].
        apply IH. exists k. split; [lia | exact Ek].
      * split; [intros _ | reflexivity].
        destruct (proj1 IH eq_refl) as (k & Hk & Ek). exists k. split; [lia | exact Ek].
    + split; [intros _ | reflexivity]. exists j. split; [lia | exact E].
Qed.

(** varCodeLabel and varCodeUnits exit on the same codes, all but the
    eleven codes 1-4, 6-9, 11, 17 and 25; the labels of two of these codes
    differ (their units need not).  So the title of a station is printed
    unless the station declares a variable code that is not one of the
    eleven, in which case oclfilt exits. *)
Theorem varCode_tables :
  (forall c, varCodeLabel c = None <-> ~ In c varCodes) /\
  (forall c, varCodeUnits c = None <-> varCodeLabel c = None) /\
  (forall c c', varCodeLabel c <> None ->
                varCodeLabel c = varCodeLabel c' -> c = c') /\
  (forall s, title s = None <->
             exists k, 0 <= k < long_of numberOfVarCodes s /\
                       ~ In (long_at varCode k s) varCodes).
Proof.
  assert (L : forall c, varCodeLabel c = None <-> ~ In c varCodes).
  { intros c. unfold varCodeLabel. rewrite <- invalid_varCode_spec.
    destruct (invalid_varCode c); split; intros H; try reflexivity;
      try discriminate H; try (intros X; discriminate X).
    exfalso. apply H. reflexivity. }
  assert (U : forall c, varCodeUnits c = None <-> varCodeLabel c = None).
  { intros c. unfold varCodeUnits, varCodeLabel.
    destruct (invalid_varCode c); split; intros H; try reflexivity; discriminate H. }
  split; [exact L|]. split; [exact U|]. split.
  - intros c c' Hc E.
    assert (Hc' : varCodeLabel c' <> None) by (rewrite <- E; exact Hc).
    assert (Ic : In c varCodes).
    { destruct (in_dec Z.eq_dec c varCodes) as [I|N]; [exact I|].
      exfalso. apply Hc. apply L. exact N. }
    assert (Ic' : In c' varCodes).
    { destruct (in_dec Z.eq_dec c' varCodes) as [I|N]; [exact I|].
      exfalso. apply Hc'. apply L. exact N. }
    unfold varCodes in Ic, Ic'. cbn [In] in Ic, Ic'.
    repeat (destruct Ic as [<-|Ic]; [|]); try contradiction;
      repeat (destruct Ic' as [<-|Ic']; [|]); try contradiction;
      first [reflexivity | discriminate E].
  - intros s. unfold title.
    pose proof (title_columns_exits varCodeLabel (long_arrays (stnData s) varCode)
                  (Z.to_nat (long_of numberOfVarCodes s)) 0) as TL.
    pose proof (title_columns_exits varCodeUnits (long_arrays (stnData s) varCode)
                  (Z.to_nat (long_of numberOfVarCodes s)) 0) as TU.
    destruct (title_columns varCodeLabel _ _ 0) as [labels|].
    + destruct (title_columns varCodeUnits _ _ 0) as [us|].
      * split; [discriminate|]. intros (k & Hk & Ek). exfalso.
        assert (X : @Some (list string) labels = None); [|discriminate X].
        apply TL. exists k. split; [lia|]. apply L. exact Ek.
      * split; [intros _ | reflexivity].
        destruct (proj1 TU eq_refl) as (k & Hk & Ek).
        exists k. split; [lia|]. apply L. apply U. exact Ek.
    + split; [intros _ | reflexivity].
      destruct (proj1 TL eq_refl) as (k & Hk & Ek).
      exists k. split; [lia|]. apply L. exact Ek.
Qed.

(** ** oclfilt.c: the loop over the stations *)

(** What main writes to fp_out: the header of the query output, the line of
    a station in the query output, the title of a station and the line of
    a profile level in the formatted output, and the summary.  The text of
    the lines is left out, and with it the sprintf and strcat into
    botDepthStr, vars and tmp. *)
Inductive line : Type :=
  | Query_header
  | Query_line (i : Z)
  | Station_title (i : Z) (labels units : list string)
  | Profile_line (i j : Z)
  | Summary (stationOutputCount i totalStationOutputBytes totalStationBytes : Z).

(** The variables of main that the loop works on, with the state of the
    decoder; [outputs] lists the stations that were output, for the
    statements about them. *)
Record main_state : Type := {
  loop_i : Z;                       (* i *)
  totalStationBytes : Z;
  stationOutputCount : Z;
  totalStationOutputBytes : Z;
  errorFlaggedDataExists : Z;
  fp_out : list line;
  decoder : state;
  outputs : list Z
}.

(** How main ends other than by its return: the exit of the decoder at the
    end of the file, the exit on a status that is neither SUCCESSFUL nor
    SKIPPED, and the exit of varCodeLabel or varCodeUnits. *)
Inductive exit_cause : Type :=
  | Exit_in_getOCLStationData (err : list diagnostic)
  | Failure_in_getOCLStationData (i : Z)
  | Invalid_varCode.

Inductive main_result : Type :=
  | Returned (m : main_state)
  | Exited (cause : exit_cause)
  | Unfinished.

Section Main.

Variable pf : platform.
Variable o : options.
Variable a : arguments.

(** The arguments of the call for the station i: stn is i, and
    wantProfileFlag is !endStatsFlag || debugFlag. *)
Definition arguments_at (i : Z) : arguments :=
  {| stn := i;
     wantProfileFlag := c_bool (negb (truth (endStatsFlag o)));
     skipFlag := skipFlag a; stnToSkipTo := stnToSkipTo a;
     varListFlag := varListFlag a; varList := varList a;
     numVarsOnVarList := numVarsOnVarList a;
     minLevelsFlag := minLevelsFlag a; minLevels := minLevels a;
     latlonRegionFlag := latlonRegionFlag a; latlonRegion := latlonRegion a;
     yearRangeFlag := yearRangeFlag a; yearRange := yearRange a;
     monthRangeFlag := monthRangeFlag a; monthRange := monthRange a;
     dbBathyFlag := dbBathyFlag a; zeroLatLonFlag := zeroLatLonFlag a;
     wmoSquare := wmoSquare a |}.

(** feof(fp_in): false before the first read; after a call of
    getOCLStationData, whose last act is the fgetc of skipToNextStation that
    exposes the end of the file, true exactly if nothing is left. *)
Definition feof (m : main_state) : bool :=
  negb (loop_i m =? 0)
  && match fp_in (decoder m) with [] => true | _ :: _ => false end.

(** The body of [if( outputThisStation )]; [None] is the exit from the
    title. *)
Definition output_station (m : main_state) (d : state) : option main_state :=
  let i := loop_i m in
  let counted (out : list line) (flag : Z) :=
    {| loop_i := i;
       totalStationBytes := totalStationBytes m + long_of bytesInStation d;
       stationOutputCount := stationOutputCount m + 1;
       totalStationOutputBytes :=
         totalStationOutputBytes m + long_of bytesInStation d;
       errorFlaggedDataExists := flag;
       fp_out := fp_out m ++ out;
       decoder := d;
       outputs := outputs m ++ [i] |} in
  if truth (queryFlag o) then
    Some (counted [Query_line i] (errorFlaggedDataExists m))
  else if negb (truth (endStatsFlag o)) then
    let '(flag, lines, _) :=
      profile_lines o (arguments_at i) d (errorFlaggedDataExists m) in
    if truth (titlesFlag o) then
      match title d with
      | None => None
      | Some (labels, units) =>
          Some (counted (Station_title i labels units :: map (Profile_line i) lines)
                  flag)
      end
    else Some (counted (map (Profile_line i) lines) flag)
  else Some (counted [] (errorFlaggedDataExists m)).

(** One turn of the loop, from its test on. *)
Inductive turn : Type :=
  | Next (m : main_state)           (* on to i++ and the test *)
  | Leave (m : main_state)          (* the test fails, or break *)
  | Stop (cause : exit_cause).      (* exit(1) *)

Definition next_station (m : main_state) : main_state :=
  {| loop_i := loop_i m + 1;
     totalStationBytes := totalStationBytes m;
     stationOutputCount := stationOutputCount m;
     totalStationOutputBytes := totalStationOutputBytes m;
     errorFlaggedDataExists := errorFlaggedDataExists m;
     fp_out := fp_out m; decoder := decoder m; outputs := outputs m |}.

Definition with_decoder (d : state) (m : main_state) : main_state :=
  {| loop_i := loop_i m;
     totalStationBytes := totalStationBytes m;
     stationOutputCount := stationOutputCount m;
     totalStationOutputBytes := totalStationOutputBytes m;
     errorFlaggedDataExists := errorFlaggedDataExists m;
     fp_out := fp_out m; decoder := d; outputs := outputs m |}.

Definition station_turn (m : main_state) : turn :=
  if feof m then Leave m
  else
    match getOCLStationData pf (arguments_at (loop_i m)) (decoder m) with
    | Exit err => Stop (Exit_in_getOCLStationData err)
    | Ret SKIPPED d => Next (next_station (with_decoder d m))
    | Ret SUCCESSFUL d =>
        let decided :=
          if truth (outputThisStation pf o (arguments_at (loop_i m)) d) then
            output_station m d
          else
            Some {| loop_i := loop_i m;
                    totalStationBytes := totalStationBytes m + long_of bytesInStation d;
                    stationOutputCount := stationOutputCount m;
                    totalStationOutputBytes := totalStationOutputBytes m;
                    errorFlaggedDataExists := errorFlaggedDataExists m;
                    fp_out := fp_out m; decoder := d; outputs := outputs m |} in
        match decided with
        | None => Stop Invalid_varCode
        | Some m' =>
            if truth (numStnsFlag o) && (numStnsToOutput o <=? stationOutputCount m')
            then Leave m'
            else Next (next_station m')
        end
    | Ret _ _ => Stop (Failure_in_getOCLStationData (loop_i m))
    end.

(** [for (i=0; !feof(fp_in); i++)], for at most [fuel] turns. *)
Fixpoint stations (fuel : nat) (m : main_state) : main_result :=
  match fuel with
  | O => Unfinished
  | S fuel' =>
      match station_turn m with
      | Next m' => stations fuel' m'
      | Leave m' => Returned m'
      | Stop cause => Exited cause
      end
  end.

(** main, after parse_commandline and the opening of the files: the header
    of the query output, the loop, the summary.  The loop has a turn for
    each station, and a station takes two characters at least. *)
Definition main (d : state) : main_result :=
  let m0 :=
    {| loop_i := 0; totalStationBytes := 0; stationOutputCount := 0;
       totalStationOutputBytes := 0; errorFlaggedDataExists := 0;
       fp_out := if truth (queryFlag o) && truth (titlesFlag o)
                 then [Query_header] else [];
       decoder := d; outputs := [] |} in
  match stations (S (S (List.length (fp_in d)))) m0 with
  | Returned m =>
      Returned
        (if truth (endStatsFlag o) || truth (queryFlag o) then
           {| loop_i := loop_i m;
              totalStationBytes := totalStationBytes m;
              stationOutputCount := stationOutputCount m;
              totalStationOutputBytes := totalStationOutputBytes m;
              errorFlaggedDataExists := errorFlaggedDataExists m;
              fp_out := fp_out m ++
                        [Summary (stationOutputCount m) (loop_i m)
                           (totalStationOutputBytes m) (totalStationBytes m)];
              decoder := decoder m; outputs := outputs m |}
         else m)
  | r => r
  end.

End Main.

















(** On an empty input, or one of blank lines only, main exits in the first
    call of getOCLStationData, with the message of the unexpected end of
    file and before any output of a station. *)
Theorem main_blank_input (pf : platform) (o : options) (a : arguments) (d : state) :
  content (fp_in d) = [] ->
  main pf o a d = Exited (Exit_in_getOCLStationData (stderr d ++ [unexpected_EOF])).
Proof.
  intros Hb. unfold main. cbv zeta. cbn [stations].
  unfold station_turn. cbn [feof loop_i decoder]. cbn [Z.eqb negb andb].
  rewrite (getOCLStationData_blank pf _ d Hb). reflexivity.
Qed.

(** ** Stations of standard levels *)

(** What the values of a level leave alone: the arrays of doubles other
    than varValue, the type of the station and its number of levels. *)
Definition depth_view (s : state) :=
  (double_arrays (stnData s), long_of stationType s, long_of numberOfLevels s).

Lemma read_values_depths (pf : platform) (j : Z) (n : nat) :
  respects (same depth_view)
    (for_upto n 0 (fun k => read_value pf (VarValue k j) (ErrCodeForVarValue k j))).
Proof. same_run depth_view. Qed.

Lemma read_biological_header_depths (pf : platform) :
  respects (same depth_view) (read_biological_header pf).
Proof. same_run depth_view. Qed.

(** The depth of the standard level j. *)
Definition standard_depth (pf : platform) (j : Z) : float :=
  nth (Z.to_nat j) stdLevelDepth (indeterminate_double pf).

Lemma read_profile_level_standard (pf : platform) (j : Z) (s s' : state) (x : unit) :
  read_profile_level pf j s = Ret x s' ->
  long_of stationType s <> 0 ->
  long_of stationType s' = long_of stationType s /\
  long_of numberOfLevels s' = long_of numberOfLevels s /\
  double_at depthValue j s' = standard_depth pf j /\
  (forall i, i <> j -> double_at depthValue i s' = double_at depthValue i s).
Proof.
  unfold read_profile_level. intros H Ht.
  apply bind_inv in H. destruct H as ([] & s0 & H0 & H). injection H0 as <-.
  apply bind_inv in H. destruct H as (s0' & s0 & H0 & H). injection H0 as <- <-.
  change (long_of stationType (record_step (Profile_level j) s))
    with (long_of stationType s) in H.
  destruct (Z.eqb_spec (long_of stationType s) 0) as [E|_]; [contradiction|].
  apply bind_inv in H. destruct H as ([] & s1 & H1 & H).
  unfold modify in H1. injection H1 as <-.
  apply bind_inv in H. destruct H as (s1' & s1 & H1 & H). injection H1 as <- <-.
  apply read_values_depths in H. unfold same, depth_view in H.
  injection H as Ha Hs Hn.
  unfold double_at. rewrite Ha. unfold long_of in *. rewrite Hs, Hn.
  split; [reflexivity|]. split; [reflexivity|]. split.
  - cbn. unfold upd, id. rewrite Z.eqb_refl. reflexivity.
  - intros i Hi. cbn. unfold upd, id.
    destruct (Z.eqb_spec i j) as [E|_]; [contradiction | reflexivity].
Qed.

Lemma profile_loop_standard (pf : platform) (fuel : nat) :
  forall j s x s',
  for_while fuel more_levels j (read_profile_level pf) s = Ret x s' ->
  MAX_LEVELS - j <= Z.of_nat fuel ->
  long_of stationType s <> 0 ->
  long_of stationType s' = long_of stationType s /\
  long_of numberOfLevels s' = long_of numberOfLevels s /\
  (forall i, j <= i < Z.min (long_of numberOfLevels s) MAX_LEVELS ->
             double_at depthValue i s' = standard_depth pf i) /\
  (forall i, i < j -> double_at depthValue i s' = double_at depthValue i s).
Proof.
  induction fuel as [|fuel IH]; intros j s x s' H Hfuel Ht.
  - injection H as _ <-. repeat split; intros; lia.
  - cbn [for_while] in H. unfold more_levels at 1 in H.
    destruct (Z.ltb_spec j (long_of numberOfLevels s)) as [H1|H1];
      [destruct (Z.ltb_spec j MAX_LEVELS) as [H2|H2]|]; cbn [andb] in H.
    + apply bind_inv in H. destruct H as ([] & s1 & Hb & H).
      destruct (read_profile_level_standard pf j s s1 tt Hb Ht) as (T1 & N1 & D1 & F1).
      apply IH in H; [|lia|congruence].
      destruct H as (T2 & N2 & D2 & F2).
      split; [congruence|]. split; [congruence|]. split.
      * intros i Hi. destruct (Z.eq_dec i j) as [->|Hne].
        -- rewrite F2 by lia. exact D1.
        -- apply D2. rewrite N1. lia.
      * intros i Hi. rewrite F2 by lia. apply F1. lia.
    + injection H as _ <-. repeat split; intros; lia.
    + injection H as _ <-. repeat split; intros; lia.
Qed.

Lemma read_rest_of_station_standard (pf : platform) (a : arguments) (s s' : state)
    (x : unit) :
  read_rest_of_station pf a s = Ret x s' ->
  long_of stationType s <> 0 ->
  long_of stationType s' = long_of stationType s /\
  long_of numberOfLevels s' = long_of numberOfLevels s /\
  forall i, 0 <= i < Z.min (long_of numberOfLevels s) MAX_LEVELS ->
            double_at depthValue i s' = standard_depth pf i.
Proof.
  intros H Ht. apply read_rest_of_station_run in H.
  destruct H as (s1 & s2 & H1 & H2 & ->).
  apply read_biological_header_depths in H1. unfold same, depth_view in H1.
  injection H1 as A1 T1 N1.
  unfold read_profile in H2.
  apply bind_inv in H2. destruct H2 as (s1' & sa & Ha & H2). injection Ha as <- <-.
  apply bind_inv in H2. destruct H2 as ([] & sb & Hb & H2).
  assert (V : depth_view sb = depth_view s1).
  { destruct (MAX_LEVELS <? long_of numberOfLevels s1).
    - unfold bind, fprintf_stderr, modify in Hb. injection Hb as <-. reflexivity.
    - injection Hb as <-. reflexivity. }
  unfold depth_view in V. injection V as Ab Tb Nb.
  change (for_while (Z.to_nat MAX_LEVELS) more_levels 0 (read_profile_level pf) sb
          = Ret tt s2) in H2.
  apply profile_loop_standard in H2; [|unfold MAX_LEVELS; lia|congruence].
  destruct H2 as (T2 & N2 & D2 & _).
  assert (L : depth_view (last_bottomDepth pf a s2) = depth_view s2).
  { unfold last_bottomDepth. repeat break_match; reflexivity. }
  unfold depth_view in L. injection L as AL TL NL.
  split; [congruence|]. split; [congruence|].
  intros i Hi. unfold double_at. rewrite AL. apply D2.
  rewrite Nb, N1. exact Hi.
Qed.

(** For a station of standard levels (stationType other than 0) whose
    profile is read, the depth of every level that is decoded is the entry of
    the table stdLevelDepth for the level; no depth is read from the stream.
    The table has 40 entries: the depth of a level from 40 on is what a
    read past its end gives. *)
Theorem standard_level_depths (pf : platform) (a : arguments) (s s' : state)
    (new : list step) :
  getOCLStationData pf a s = Ret SUCCESSFUL s' ->
  steps s' = steps s ++ new ->
  reads_rest_of_station new = true ->
  long_of stationType s' <> 0 ->
  forall j, 0 <= j < Z.min (long_of numberOfLevels s') MAX_LEVELS ->
    double_at depthValue j s' =
      nth (Z.to_nat j) stdLevelDepth (indeterminate_double pf) /\
    (j < 40 -> In (double_at depthValue j s') stdLevelDepth).
Proof.
  intros H Hnew Hr Ht j Hj.
  destruct (getOCLStationData_profile pf a s s' SUCCESSFUL new H Hnew)
    as [(R' & _) | (_ & _ & s5 & s6 & s7 & _ & _ & (s8 & H8 & E8 & _) & _)];
    [congruence|].
  assert (T8 : long_of stationType s8 = long_of stationType s')
    by (unfold long_of; rewrite E8; reflexivity).
  assert (N8 : long_of numberOfLevels s8 = long_of numberOfLevels s')
    by (unfold long_of; rewrite E8; reflexivity).
  assert (Ht7 : long_of stationType s7 <> 0).
  { intros E. apply Ht. rewrite <- T8.
    assert (X : respects (same (long_of stationType)) (read_rest_of_station pf a))
      by (same_run (long_of stationType)).
    rewrite (X s7 tt s8 H8). exact E. }
  destruct (read_rest_of_station_standard pf a s7 s8 tt H8 Ht7) as (_ & N & D).
  assert (E : double_at depthValue j s' = standard_depth pf j).
  { unfold double_at. rewrite E8. apply D. rewrite <- N, N8. exact Hj. }
  split; [exact E|].
  intros H40. rewrite E. unfold standard_depth. apply nth_In.
  change (List.length stdLevelDepth) with 40%nat. lia.
Qed.

(** ** The fields that a run decodes *)

(** A field of the station with the object that receives its value, or
    the start of a profile level. *)
Inductive field_read : Type :=
  | Fixed_field (numDigits : Z) (value : long_ptr)
  | Int_field (value : long_ptr)
  | Float_field (value : double_ptr)
  | Level (j : Z).

(** The field that a step decodes.  A call of getIntDigits is a field of
    the station where it stores into a member of the station or into
    errCodeForVarCode; the other calls of getIntDigits read the error code
    that follows a value which is not missing, or a byte of a section that
    is skipped, and are left out here, as is skipToNextStation. *)
Definition field_of (e : step) : list field_read :=
  match e with
  | Call_getIntDigits n (LongMember f) => [Fixed_field n (LongMember f)]
  | Call_getIntDigits n (LongElem errCodeForVarCode j) =>
      [Fixed_field n (LongElem errCodeForVarCode j)]
  | Call_getIntDigits _ _ => []
  | Call_getVarlenIntField p _ _ => [Int_field p]
  | Call_getVarlenFloatField p _ _ => [Float_field p]
  | Call_skipToNextStation _ _ => []
  | Profile_level j => [Level j]
  end.

Definition fields (l : list step) : list field_read := flat_map field_of l.

(** The fields of a station, as getOCLStationData reads them: the size and
    the number of the station; the header, with a pair for every variable
    code; the length of the character data; the secondary header, which
    has entries if its length is not a missing value ([present]); and, if
    the rest of the station is read, the length of the biological header
    and the levels, each with its depth, if the levels are observed ones,
    and a value for every variable code.  The levels are those below the
    declared number and below MAX_LEVELS. *)
Definition station_size_fields : list field_read :=
  [Int_field (LongMember bytesInStation); Int_field (LongMember oclStationNumber)].

Definition variable_code_fields (j : Z) : list field_read :=
  [Int_field (LongElem varCode j); Fixed_field 1 (LongElem errCodeForVarCode j)].

Definition station_header_fields (s : state) : list field_read :=
  [Fixed_field 2 (LongMember countryCode); Int_field (LongMember cruiseNumber);
   Fixed_field 4 (LongMember year); Fixed_field 2 (LongMember month);
   Fixed_field 2 (LongMember day);
   Float_field (DoubleMember time); Float_field (DoubleMember lat);
   Float_field (DoubleMember lon);
   Int_field (LongMember numberOfLevels); Fixed_field 1 (LongMember stationType);
   Fixed_field 2 (LongMember numberOfVarCodes)]
  ++ flat_map variable_code_fields (range 0 (Z.to_nat (long_of numberOfVarCodes s))).

Definition secondary_header_entry_fields (j : Z) : list field_read :=
  [Int_field (LongElem secHdrCode j); Float_field (DoubleElem secHdrValue j)].

Definition secondary_header_fields (present : bool) (s : state) : list field_read :=
  Int_field (LongMember bytesInSecHdr) ::
  (if present then
     Int_field (LongMember numberOfSecHdrEntries) ::
     flat_map secondary_header_entry_fields
       (range 0 (Z.to_nat (long_of numberOfSecHdrEntries s)))
   else []).

Definition level_fields (s : state) (j : Z) : list field_read :=
  Level j ::
  (if long_of stationType s =? 0 then [Float_field (DoubleElem depthValue j)] else [])
  ++ map (fun k => Float_field (VarValue k j))
       (range 0 (Z.to_nat (long_of numberOfVarCodes s))).

Definition rest_of_station_fields (s : state) : list field_read :=
  Int_field (LongMember bytesInBioHdr) ::
  flat_map (level_fields s)
    (range 0 (Z.to_nat (Z.min (long_of numberOfLevels s) MAX_LEVELS))).

Definition station_fields (present rest : bool) (s : state) : list field_read :=
  station_size_fields ++ station_header_fields s
  ++ [Int_field (LongMember bytesInCharPI)]
  ++ secondary_header_fields present s
  ++ (if rest then rest_of_station_fields s else []).

Lemma fields_app (l1 l2 : list step) : fields (l1 ++ l2) = fields l1 ++ fields l2.
Proof. apply flat_map_app. Qed.

(** A stretch of a run that decodes the fields [L], which may depend on
    what it leaves in the station. *)
Definition emits (L : state -> list field_read) (s s' : state) : Prop :=
  exists more, steps s' = steps s ++ more /\ fields more = L s'.

(** A stretch of a run that decodes no field. *)
Definition silent (s s' : state) : Prop :=
  exists more, steps s' = steps s ++ more /\ fields more = [].

Lemma silent_refl (s : state) : silent s s.
Proof. exists []. rewrite app_nil_r. split; reflexivity. Qed.

Lemma silent_trans (s1 s2 s3 : state) : silent s1 s2 -> silent s2 s3 -> silent s1 s3.
Proof.
  intros (m1 & H1 & L1) (m2 & H2 & L2). exists (m1 ++ m2).
  rewrite H2, H1, app_assoc, fields_app, L1, L2. split; reflexivity.
Qed.

Ltac silent_leaves :=
  unfold last_bottomDepth, database_bottomDepth;
  first [ eexists [_]; split; reflexivity
        | exists []; rewrite app_nil_r;
          split; [repeat break_match; reflexivity | reflexivity] ].

Ltac silent_run :=
  pose proof silent_refl; pose proof silent_trans;
  unfold_station; respects_structure; silent_leaves.

Lemma emits_silent {A : Type} (m : M A) :
  respects silent m -> respects (emits (fun _ => [])) m.
Proof. intros H s x s' E. exact (H s x s' E). Qed.

Lemma emits_bind {A B : Type} (L1 : list field_read) (L2 : state -> list field_read)
    (m : M A) (k : A -> M B) :
  respects (emits (fun _ => L1)) m ->
  (forall x, respects (emits L2) (k x)) ->
  respects (emits (fun s' => L1 ++ L2 s')) (bind m k).
Proof.
  intros Hm Hk s y s' H. apply bind_inv in H. destruct H as (x & s1 & H1 & H2).
  destruct (Hm s x s1 H1) as (m1 & E1 & F1).
  destruct (Hk x s1 y s' H2) as (m2 & E2 & F2).
  exists (m1 ++ m2). rewrite E2, E1, app_assoc, fields_app, F1, F2.
  split; reflexivity.
Qed.

Lemma emits_eq {A : Type} (L L' : state -> list field_read) (m : M A) :
  respects (emits L) m -> (forall s', L s' = L' s') -> respects (emits L') m.
Proof.
  intros H E s x s' R. destruct (H s x s' R) as (more & H1 & H2).
  exists more. split; [exact H1 | rewrite <- E; exact H2].
Qed.

Lemma emits_for_upto (Lb : Z -> list field_read) (body : Z -> M unit) :
  (forall j, respects (emits (fun _ => Lb j)) (body j)) ->
  forall n j, respects (emits (fun _ => flat_map Lb (range j n))) (for_upto n j body).
Proof.
  intros Hb. induction n as [|n IH]; intros j.
  - intros s x s' H. injection H as _ <-. exists []. rewrite app_nil_r.
    split; reflexivity.
  - cbn [for_upto range flat_map]. apply emits_bind; [apply Hb | intros _; apply IH].
Qed.

Lemma emits_call_getIntDigits (pf : platform) (n : Z) (p : long_ptr) :
  respects (emits (fun _ => field_of (Call_getIntDigits n p))) (call_getIntDigits pf n p).
Proof.
  intros s y s' H. unfold call_getIntDigits in H.
  destruct (getIntDigits pf (fp_in s) n (load_long pf p s)) as [[st v] fp'|];
    [|discriminate H].
  injection H as _ <-. eexists [_]. split; [destruct p; reflexivity|].
  cbn [fields flat_map]. apply app_nil_r.
Qed.

Lemma emits_call_getVarlenIntField (pf : platform) (p : long_ptr) :
  respects (emits (fun _ => [Int_field p])) (call_getVarlenIntField pf p).
Proof.
  intros s y s' H. unfold call_getVarlenIntField in H.
  destruct (getVarlenIntField pf (fp_in s) (load_long pf p s)
              (long_of bytesLeftInStation s)) as [[[st v] b] fp'|];
    [|discriminate H].
  injection H as _ <-. eexists [_]. split; [destruct p; reflexivity | reflexivity].
Qed.

Lemma emits_call_getVarlenFloatField (pf : platform) (p : double_ptr) :
  respects (emits (fun _ => [Float_field p])) (call_getVarlenFloatField pf p).
Proof.
  intros s y s' H. unfold call_getVarlenFloatField in H.
  destruct (getVarlenFloatField pf (fp_in s) (load_double p s)
              (long_of bytesLeftInStation s)) as [[[st v] b] fp'|];
    [|discriminate H].
  injection H as _ <-. eexists [_]. split; [destruct p; reflexivity | reflexivity].
Qed.

(** A sequence of calls and of stretches that decode nothing, up to its
    last part. *)
Ltac emits_chain :=
  repeat lazymatch goal with
         | |- respects _ (bind get _) => fail
         | |- respects _ (bind _ _) =>
             eapply emits_bind;
             [ first [ apply emits_call_getIntDigits
                     | apply emits_call_getVarlenIntField
                     | apply emits_call_getVarlenFloatField
                     | apply emits_silent; silent_run ]
             | intros ? ]
         end.

(** What the decoder reads the shape of the station from. *)
Definition shape (s : state) : Z * Z * Z :=
  (long_of numberOfVarCodes s, long_of stationType s, long_of numberOfLevels s).

Lemma read_variable_code_fields (pf : platform) (j : Z) :
  respects (emits (fun _ => variable_code_fields j)) (read_variable_code pf j).
Proof.
  unfold read_variable_code.
  eapply emits_eq; [emits_chain; apply emits_silent; silent_run|].
  intros s'. reflexivity.
Qed.

Lemma variable_codes_numberOfVarCodes (pf : platform) (n : nat) (j : Z) :
  respects (same (long_of numberOfVarCodes)) (for_upto n j (read_variable_code pf)).
Proof. same_run (long_of numberOfVarCodes). Qed.

Lemma variable_codes_fields (pf : platform) :
  respects
    (emits (fun s' => flat_map variable_code_fields
                        (range 0 (Z.to_nat (long_of numberOfVarCodes s')))))
    (s <- get;;
     for_upto (Z.to_nat (long_of numberOfVarCodes s)) 0 (read_variable_code pf)).
Proof.
  intros s y s' H. unfold bind, get in H.
  pose proof (variable_codes_numberOfVarCodes pf _ _ s y s' H) as N. unfold same in N.
  destruct (emits_for_upto variable_code_fields (read_variable_code pf)
              (read_variable_code_fields pf) _ _ s y s' H) as (more & E & F).
  exists more. split; [exact E|]. rewrite N. exact F.
Qed.

Lemma read_station_header_fields (pf : platform) :
  respects (emits station_header_fields) (read_station_header pf).
Proof.
  unfold read_station_header.
  eapply emits_eq; [emits_chain; apply variable_codes_fields|].
  intros s'. reflexivity.
Qed.

(** A section that is skipped byte by byte: its length is the one field. *)
Lemma skip_section_fields (pf : platform) (length : long_member) :
  respects (emits (fun _ => [Int_field (LongMember length)])) (skip_section pf length).
Proof.
  unfold skip_section.
  eapply emits_eq;
    [eapply emits_bind;
       [apply emits_call_getVarlenIntField | intros ?; apply emits_silent; silent_run]|].
  intros s'. reflexivity.
Qed.

Lemma read_secondary_header_entry_fields (pf : platform) (j : Z) :
  respects (emits (fun _ => secondary_header_entry_fields j))
    (read_secondary_header_entry pf j).
Proof.
  unfold read_secondary_header_entry.
  eapply emits_eq; [emits_chain; apply emits_silent; silent_run|].
  intros s'. reflexivity.
Qed.

Lemma secondary_header_entries_number (pf : platform) (n : nat) (j : Z) :
  respects (same (long_of numberOfSecHdrEntries))
    (for_upto n j (read_secondary_header_entry pf)).
Proof. same_run (long_of numberOfSecHdrEntries). Qed.

(** The secondary header: its length and, unless that is a missing value,
    the number of its entries and the entries. *)
Lemma read_secondary_header_fields (pf : platform) (s s' : state) (x : unit) :
  read_secondary_header pf s = Ret x s' ->
  exists present,
    emits (secondary_header_fields present) s s' /\
    (present = false -> long_of numberOfSecHdrEntries s' = 0).
Proof.
  unfold read_secondary_header. intros H.
  apply bind_inv in H. destruct H as (st & s1 & H1 & H).
  destruct (emits_call_getVarlenIntField pf _ s st s1 H1) as (m1 & E1 & F1).
  exists (negb (status_eqb st ZERO_LENGTH_FIELD)).
  destruct (status_eqb st ZERO_LENGTH_FIELD); cbn [negb] in *.
  - unfold bind, modify in H. injection H as _ <-.
    split; [|intros _; reflexivity].
    exists m1. cbn. rewrite E1, F1. split; reflexivity.
  - apply bind_inv in H. destruct H as (st2 & s2 & H2 & H).
    destruct (emits_call_getVarlenIntField pf _ s1 st2 s2 H2) as (m2 & E2 & F2).
    unfold bind, get in H.
    pose proof (secondary_header_entries_number pf _ _ s2 x s' H) as N. unfold same in N.
    destruct (emits_for_upto secondary_header_entry_fields
                (read_secondary_header_entry pf)
                (read_secondary_header_entry_fields pf) _ _ s2 x s' H)
      as (m3 & E3 & F3).
    split; [|intros X; discriminate X].
    exists (m1 ++ m2 ++ m3).
    split; [rewrite E3, E2, E1, <- !app_assoc; reflexivity|].
    rewrite !fields_app, F1, F2, F3. unfold secondary_header_fields.
    rewrite N. reflexivity.
Qed.

(** A value of the profile: the field, and its error code unless the value
    is missing. *)
Lemma read_value_fields (pf : platform) (value : double_ptr) (errCode : long_ptr) :
  field_of (Call_getIntDigits 1 errCode) = [] ->
  respects (emits (fun _ => [Float_field value])) (read_value pf value errCode).
Proof.
  intros He. unfold read_value.
  eapply emits_eq;
    [eapply emits_bind; [apply emits_call_getVarlenFloatField | intros st]|].
  - destruct (negb (status_eqb st ZERO_LENGTH_FIELD)).
    + eapply emits_eq.
      * eapply emits_bind; [apply emits_call_getIntDigits|].
        intros ?. apply emits_silent. silent_run.
      * intros s'. cbv beta. rewrite He. reflexivity.
    + apply emits_silent. silent_run.
  - intros s'. reflexivity.
Qed.

Lemma read_profile_level_shape (pf : platform) (j : Z) :
  respects (same shape) (read_profile_level pf j).
Proof. same_run shape. Qed.

Lemma values_fields (pf : platform) (j : Z) (n : nat) (k : Z) :
  respects
    (emits (fun _ => map (fun k => Float_field (VarValue k j)) (range k n)))
    (for_upto n k (fun k => read_value pf (VarValue k j) (ErrCodeForVarValue k j))).
Proof.
  eapply emits_eq.
  - apply (emits_for_upto (fun k => [Float_field (VarValue k j)])).
    intros k'. apply read_value_fields. reflexivity.
  - intros s0. cbv beta. clear s0. revert k.
    induction n as [|n IH]; intros k; [reflexivity|].
    cbn [range flat_map map app]. rewrite IH. reflexivity.
Qed.

(** One iteration of the loop over the levels. *)
Lemma read_profile_level_fields (pf : platform) (j : Z) :
  respects (emits (fun s' => level_fields s' j)) (read_profile_level pf j).
Proof.
  intros s x s' H.
  pose proof (read_profile_level_shape pf j s x s' H) as V.
  unfold same, shape in V. injection V as Vn Vt _.
  unfold read_profile_level in H.
  apply bind_inv in H. destruct H as ([] & s0 & H0 & H). injection H0 as <-.
  apply bind_inv in H. destruct H as (sg & s1 & Hg & H). injection Hg as <- <-.
  apply bind_inv in H. destruct H as ([] & s2 & H2 & H).
  apply bind_inv in H. destruct H as (sg & s3 & Hg & H). injection Hg as <- <-.
  change (long_of stationType (record_step (Profile_level j) s))
    with (long_of stationType s) in H2.
  assert (D : emits (fun _ => if long_of stationType s =? 0
                              then [Float_field (DoubleElem depthValue j)] else [])
                (record_step (Profile_level j) s) s2).
  { destruct (long_of stationType s =? 0).
    - revert H2. apply read_value_fields. reflexivity.
    - unfold modify in H2. injection H2 as <-. exists []. rewrite app_nil_r.
      split; reflexivity. }
  assert (N2 : long_of numberOfVarCodes s2 = long_of numberOfVarCodes s).
  { destruct (long_of stationType s =? 0).
    - assert (Hm : respects (same (long_of numberOfVarCodes))
                     (read_value pf (DoubleElem depthValue j)
                        (LongElem errCodeForDepthValue j)))
        by (same_run (long_of numberOfVarCodes)).
      apply (Hm _ _ _ H2).
    - unfold modify in H2. injection H2 as <-. reflexivity. }
  destruct D as (m2 & E2 & F2).
  destruct (values_fields pf j _ _ s2 x s' H) as (m3 & E3 & F3).
  exists (Profile_level j :: m2 ++ m3).
  split.
  - rewrite E3, E2. cbn. rewrite <- !app_assoc. reflexivity.
  - change (Profile_level j :: m2 ++ m3) with ([Profile_level j] ++ m2 ++ m3).
    rewrite !fields_app, F2, F3. unfold level_fields. rewrite Vt, Vn, N2.
    reflexivity.
Qed.

(** The loop over the levels. *)
Lemma profile_loop_fields (pf : platform) (fuel : nat) :
  forall j s x s',
  for_while fuel more_levels j (read_profile_level pf) s = Ret x s' ->
  MAX_LEVELS - j <= Z.of_nat fuel ->
  shape s' = shape s /\
  exists more,
    steps s' = steps s ++ more /\
    fields more =
      flat_map (level_fields s')
        (range j (Z.to_nat (Z.min (long_of numberOfLevels s) MAX_LEVELS - j))).
Proof.
  induction fuel as [|fuel IH]; intros j s x s' H Hfuel.
  - injection H as _ <-. split; [reflexivity|]. exists []. rewrite app_nil_r.
    replace (Z.to_nat (Z.min (long_of numberOfLevels s) MAX_LEVELS - j)) with O by lia.
    split; reflexivity.
  - cbn [for_while] in H. unfold more_levels at 1 in H.
    destruct (Z.ltb_spec j (long_of numberOfLevels s)) as [H1|H1];
      [destruct (Z.ltb_spec j MAX_LEVELS) as [H2|H2]|]; cbn [andb] in H.
    + apply bind_inv in H. destruct H as ([] & s1 & Hb & H).
      pose proof (read_profile_level_shape pf j s tt s1 Hb) as V1. unfold same in V1.
      destruct (read_profile_level_fields pf j s tt s1 Hb) as (m1 & E1 & F1).
      apply IH in H; [|lia]. destruct H as (V2 & m2 & E2 & F2).
      assert (N : long_of numberOfLevels s1 = long_of numberOfLevels s).
      { unfold shape in V1. injection V1 as _ _ V1. exact V1. }
      assert (Lf : level_fields s1 j = level_fields s' j).
      { unfold shape in V2. injection V2 as Vn Vt _.
        unfold level_fields. rewrite Vn, Vt. reflexivity. }
      split; [rewrite V2; exact V1|].
      exists (m1 ++ m2). rewrite E2, E1, <- app_assoc. split; [reflexivity|].
      rewrite fields_app, F1, F2, N, Lf.
      replace (Z.to_nat (Z.min (long_of numberOfLevels s) MAX_LEVELS - j))
        with (S (Z.to_nat (Z.min (long_of numberOfLevels s) MAX_LEVELS - (j + 1))))
        by lia.
      reflexivity.
    + injection H as _ <-. split; [reflexivity|]. exists []. rewrite app_nil_r.
      replace (Z.to_nat (Z.min (long_of numberOfLevels s) MAX_LEVELS - j)) with O by lia.
      split; reflexivity.
    + injection H as _ <-. split; [reflexivity|]. exists []. rewrite app_nil_r.
      replace (Z.to_nat (Z.min (long_of numberOfLevels s) MAX_LEVELS - j)) with O by lia.
      split; reflexivity.
Qed.

Lemma read_biological_header_shape (pf : platform) :
  respects (same shape) (read_biological_header pf).
Proof. same_run shape. Qed.

(** The rest of the station. *)
Lemma read_rest_of_station_fields (pf : platform) (a : arguments) :
  respects (emits rest_of_station_fields) (read_rest_of_station pf a).
Proof.
  intros s x s' H.
  apply read_rest_of_station_run in H. destruct H as (s1 & s2 & H1 & H2 & ->).
  pose proof (read_biological_header_shape pf s tt s1 H1) as V1. unfold same in V1.
  destruct (skip_section_fields pf bytesInBioHdr s tt s1 H1) as (m1 & E1 & F1).
  unfold read_profile in H2.
  apply bind_inv in H2. destruct H2 as (sg & s1' & Hg & H2). injection Hg as <- <-.
  apply bind_inv in H2. destruct H2 as ([] & sd & Hd & H2).
  assert (Hsd : steps sd = steps s1 /\ shape sd = shape s1).
  { destruct (MAX_LEVELS <? long_of numberOfLevels s1).
    - unfold fprintf_stderr, bind, modify in Hd. injection Hd as <-.
      split; reflexivity.
    - injection Hd as <-. split; reflexivity. }
  destruct Hsd as (Ed & Vd).
  apply (profile_loop_fields pf) in H2; [|unfold MAX_LEVELS; lia].
  destruct H2 as (V2 & m2 & E2 & F2).
  assert (Vl : shape (last_bottomDepth pf a s2) = shape s2).
  { unfold last_bottomDepth. repeat break_match; reflexivity. }
  assert (Nd : long_of numberOfLevels sd = long_of numberOfLevels s2).
  { unfold shape in V2. injection V2 as _ _ V2. symmetry. exact V2. }
  assert (Lf : forall j, level_fields s2 j = level_fields (last_bottomDepth pf a s2) j).
  { unfold shape in Vl. injection Vl as Vn Vt _. intros j.
    unfold level_fields. rewrite Vn, Vt. reflexivity. }
  assert (Nl : long_of numberOfLevels (last_bottomDepth pf a s2)
               = long_of numberOfLevels s2).
  { unfold shape in Vl. injection Vl as _ _ Vl. exact Vl. }
  destruct (last_bottomDepth_frame pf a s2) as (Fs & _).
  exists (m1 ++ m2). split; [rewrite Fs, E2, Ed, E1, <- app_assoc; reflexivity|].
  rewrite fields_app, F1, F2. unfold rest_of_station_fields.
  rewrite Nl, Nd, Z.sub_0_r. cbn [app]. f_equal.
  apply flat_map_ext. exact Lf.
Qed.

(** The parts of the run that decode no field, and what the parts after
    the header leave of the shape of the station. *)
Lemma first_bottomDepth_silent (pf : platform) (a : arguments) :
  respects silent (first_bottomDepth pf a).
Proof. silent_run. Qed.

Lemma decide_on_rest_silent (a : arguments) : respects silent (decide_on_rest a).
Proof. silent_run. Qed.

Definition shape_and_entries (s : state) : Z * Z * Z * Z :=
  (shape s, long_of numberOfSecHdrEntries s).

Lemma read_character_data_shape (pf : platform) :
  respects (same shape) (read_character_data pf).
Proof. same_run shape. Qed.

Lemma read_secondary_header_shape (pf : platform) :
  respects (same shape) (read_secondary_header pf).
Proof. same_run shape. Qed.

Lemma first_bottomDepth_shape (pf : platform) (a : arguments) :
  respects (same shape_and_entries) (first_bottomDepth pf a).
Proof. same_run shape_and_entries. Qed.

Lemma decide_on_rest_shape (a : arguments) :
  respects (same shape_and_entries) (decide_on_rest a).
Proof. same_run shape_and_entries. Qed.

Lemma read_rest_of_station_shape (pf : platform) (a : arguments) :
  respects (same shape_and_entries) (read_rest_of_station pf a).
Proof. same_run shape_and_entries. Qed.

Lemma call_skipToNextStation_shape :
  respects (same shape_and_entries) call_skipToNextStation.
Proof. same_run shape_and_entries. Qed.

Lemma station_header_fields_shape (s s' : state) :
  shape s' = shape s -> station_header_fields s' = station_header_fields s.
Proof.
  unfold shape. intros V. injection V as Vn _ _.
  unfold station_header_fields. rewrite Vn. reflexivity.
Qed.

Lemma rest_of_station_fields_shape (s s' : state) :
  shape s' = shape s -> rest_of_station_fields s' = rest_of_station_fields s.
Proof.
  unfold shape. intros V. injection V as Vn Vt Vl.
  unfold rest_of_station_fields. rewrite Vl. f_equal.
  apply flat_map_ext. intros j. unfold level_fields. rewrite Vn, Vt. reflexivity.
Qed.

(** The fields that a run of getOCLStationData decodes of a station that it
    does not skip, and its last step. *)
Lemma getOCLStationData_fields (pf : platform) (a : arguments) (s s' : state)
    (new : list step) :
  getOCLStationData pf a s = Ret SUCCESSFUL s' ->
  steps s' = steps s ++ new ->
  exists present before fp b,
    fields new = station_fields present (reads_rest_of_station new) s' /\
    (present = false -> long_of numberOfSecHdrEntries s' = 0) /\
    new = before ++ [Call_skipToNextStation fp b].
Proof.
  intros H Hnew. apply getOCLStationData_run in H.
  destruct H as (s1 & H1 & [(_ & Hs) | (_ & _ & s2 & s3 & s4 & s5 & s6 & s7 & wanted
                 & H2 & H3 & H4 & H5 & H6 & H7 & H8)]).
  { exfalso. unfold skip_station in Hs.
    apply bind_inv in Hs. destruct Hs as ([] & sa & _ & Hs).
    apply bind_inv in Hs. destruct Hs as ([] & sb & _ & Hs).
    injection Hs as Hs _. discriminate Hs. }
  (* whether the rest is read *)
  assert (R : reads_rest_of_station new = wanted).
  { assert (Q : quiet s s6).
    { apply (quiet_trans s s1); [apply (read_station_size_quiet pf s tt s1 H1)|].
      apply (quiet_trans s1 s2); [apply (read_station_header_quiet pf s1 tt s2 H2)|].
      apply (quiet_trans s2 s3); [apply (read_character_data_quiet pf s2 tt s3 H3)|].
      apply (quiet_trans s3 s4); [apply (read_secondary_header_quiet pf s3 tt s4 H4)|].
      apply (quiet_trans s4 s5); [apply (first_bottomDepth_quiet pf a s4 tt s5 H5)|].
      apply (decide_on_rest_quiet a s5 wanted s6 H6). }
    destruct Q as (m6 & E6 & _ & R6).
    destruct (call_skipToNextStation_quiet s7 tt s' H8) as (m8 & E8 & _ & R8).
    destruct wanted.
    - destruct (read_rest_of_station_steps pf a s6 s7 tt H7) as (m7 & E7 & R7 & _).
      rewrite E8, E7, E6, <- !app_assoc in Hnew. apply app_inv_head in Hnew.
      subst new. rewrite !reads_rest_of_station_app, R6, R7. reflexivity.
    - subst s7. rewrite E8, E6, <- !app_assoc in Hnew. apply app_inv_head in Hnew.
      subst new. rewrite !reads_rest_of_station_app, R6, R8. reflexivity. }
  (* the shape of the station, from the header on *)
  pose proof (read_character_data_shape pf s2 tt s3 H3) as V3.
  pose proof (read_secondary_header_shape pf s3 tt s4 H4) as V4.
  pose proof (first_bottomDepth_shape pf a s4 tt s5 H5) as V5.
  pose proof (decide_on_rest_shape a s5 wanted s6 H6) as V6.
  pose proof (call_skipToNextStation_shape s7 tt s' H8) as V8.
  assert (V7 : shape_and_entries s7 = shape_and_entries s6).
  { destruct wanted; [apply (read_rest_of_station_shape pf a s6 tt s7 H7)|].
    subst s7. reflexivity. }
  unfold same in V3, V4, V5, V6, V8.
  assert (W : shape_and_entries s' = shape_and_entries s4) by congruence.
  assert (W7 : shape s' = shape s7) by exact (f_equal fst V8).
  assert (Ws : shape s' = shape s4) by exact (f_equal fst W).
  assert (We : long_of numberOfSecHdrEntries s' = long_of numberOfSecHdrEntries s4)
    by exact (f_equal snd W).
  assert (W2 : shape s' = shape s2) by congruence.
  (* the fields of the parts *)
  destruct (read_station_size_steps pf s s1 tt H1) as (fp1 & b1 & E1).
  destruct (read_station_header_fields pf s1 tt s2 H2) as (m2 & E2 & F2).
  destruct (skip_section_fields pf bytesInCharPI s2 tt s3 H3) as (m3 & E3 & F3).
  destruct (read_secondary_header_fields pf s3 s4 tt H4)
    as (present & (m4 & E4 & F4) & P4).
  destruct (first_bottomDepth_silent pf a s4 tt s5 H5) as (m5 & E5 & F5).
  destruct (decide_on_rest_silent a s5 wanted s6 H6) as (m6 & E6 & F6).
  assert (E7 : exists m7, steps s7 = steps s6 ++ m7 /\
                 fields m7 = if wanted then rest_of_station_fields s' else []).
  { destruct wanted.
    - destruct (read_rest_of_station_fields pf a s6 tt s7 H7) as (m7 & E7 & F7).
      exists m7. split; [exact E7|].
      rewrite F7. symmetry. apply rest_of_station_fields_shape. exact W7.
    - subst s7. exists []. rewrite app_nil_r. split; reflexivity. }
  destruct E7 as (m7 & E7 & F7).
  assert (E8 : steps s' = steps s7 ++
                 [Call_skipToNextStation (fp_in s7) (long_of bytesLeftInStation s7)]).
  { unfold call_skipToNextStation, modify in H8. injection H8 as <-. reflexivity. }
  exists present,
    ([Call_getVarlenIntField (LongMember bytesInStation) (fp_in s) (-1);
      Call_getVarlenIntField (LongMember oclStationNumber) fp1 b1]
     ++ m2 ++ m3 ++ m4 ++ m5 ++ m6 ++ m7),
    (fp_in s7), (long_of bytesLeftInStation s7).
  assert (N : new =
    ([Call_getVarlenIntField (LongMember bytesInStation) (fp_in s) (-1);
      Call_getVarlenIntField (LongMember oclStationNumber) fp1 b1]
     ++ m2 ++ m3 ++ m4 ++ m5 ++ m6 ++ m7)
    ++ [Call_skipToNextStation (fp_in s7) (long_of bytesLeftInStation s7)]).
  { rewrite E8, E7, E6, E5, E4, E3, E2, E1, <- !app_assoc in Hnew.
    apply app_inv_head in Hnew. rewrite <- Hnew, <- !app_assoc. reflexivity. }
  split; [|split; [intros X; rewrite We; exact (P4 X) | exact N]].
  rewrite R. rewrite N at 1.
  rewrite !fields_app, F2, F3, F4, F5, F6, F7.
  unfold station_fields. rewrite (station_header_fields_shape s2 s' W2).
  unfold secondary_header_fields. rewrite We.
  cbn [fields flat_map field_of app]. rewrite !app_nil_r. reflexivity.
Qed.

(** ** The levels and the values among the fields of a station *)

Ltac not_among :=
  repeat match goal with
         | H : In _ [] |- _ => destruct H
         | H : In _ (_ :: _) |- _ => destruct H as [H|H]; [discriminate H|]
         | H : In _ (_ ++ _) |- _ => apply in_app_iff in H; destruct H as [H|H]
         | H : In _ (flat_map _ _) |- _ =>
             apply in_flat_map in H; destruct H as (? & _ & H);
             unfold variable_code_fields, secondary_header_entry_fields in H
         | H : In _ (if ?b then _ else _) |- _ => destruct b
         end.

(** The levels among the fields of a station are those of its rest. *)
Lemma level_in_station_fields (present rest : bool) (s : state) (j : Z) :
  In (Level j) (station_fields present rest s) <->
  rest = true /\ 0 <= j < Z.min (long_of numberOfLevels s) MAX_LEVELS.
Proof.
  unfold station_fields. split.
  - intros H.
    apply in_app_iff in H. destruct H as [H|H];
      [unfold station_size_fields in H; not_among|].
    apply in_app_iff in H. destruct H as [H|H];
      [unfold station_header_fields in H; not_among|].
    apply in_app_iff in H. destruct H as [H|H]; [not_among|].
    apply in_app_iff in H. destruct H as [H|H];
      [unfold secondary_header_fields in H; not_among|].
    destruct rest; [|destruct H]. split; [reflexivity|].
    unfold rest_of_station_fields in H. destruct H as [H|H]; [discriminate H|].
    apply in_flat_map in H. destruct H as (i & Hi & H).
    apply in_range in Hi. unfold level_fields in H.
    destruct H as [H|H].
    + injection H as <-. unfold MAX_LEVELS in *. lia.
    + exfalso. apply in_app_iff in H. destruct H as [H|H].
      * destruct (long_of stationType s =? 0); not_among.
      * apply in_map_iff in H. destruct H as (k & H & _). discriminate H.
  - intros (-> & Hj). rewrite !in_app_iff. do 4 right.
    unfold rest_of_station_fields. right. apply in_flat_map.
    exists j. split; [apply in_range; unfold MAX_LEVELS in *; lia|].
    left. reflexivity.
Qed.

(** The values among them are those of the variables at these levels. *)
Lemma value_in_station_fields (present rest : bool) (s : state) (k j : Z) :
  In (Float_field (VarValue k j)) (station_fields present rest s) <->
  rest = true /\ 0 <= j < Z.min (long_of numberOfLevels s) MAX_LEVELS /\
  0 <= k < long_of numberOfVarCodes s.
Proof.
  unfold station_fields. split.
  - intros H.
    apply in_app_iff in H. destruct H as [H|H];
      [unfold station_size_fields in H; not_among|].
    apply in_app_iff in H. destruct H as [H|H];
      [unfold station_header_fields in H; not_among|].
    apply in_app_iff in H. destruct H as [H|H]; [not_among|].
    apply in_app_iff in H. destruct H as [H|H];
      [unfold secondary_header_fields in H; not_among|].
    destruct rest; [|destruct H]. split; [reflexivity|].
    unfold rest_of_station_fields in H. destruct H as [H|H]; [discriminate H|].
    apply in_flat_map in H. destruct H as (i & Hi & H).
    apply in_range in Hi. unfold level_fields in H.
    destruct H as [H|H]; [discriminate H|].
    apply in_app_iff in H. destruct H as [H|H].
    + exfalso. destruct (long_of stationType s =? 0); not_among.
    + apply in_map_iff in H. destruct H as (k' & H & Hk).
      injection H as <- <-. apply in_range in Hk. unfold MAX_LEVELS in *. lia.
  - intros (-> & Hj & Hk). rewrite !in_app_iff. do 4 right.
    unfold rest_of_station_fields. right. apply in_flat_map.
    exists j. split; [apply in_range; unfold MAX_LEVELS in *; lia|].
    unfold level_fields. right. apply in_app_iff. right.
    apply in_map_iff. exists k. split; [reflexivity|].
    apply in_range. lia.
Qed.

(** The depths among them are those of these levels, if the levels are
    observed ones. *)
Lemma depth_in_station_fields (present rest : bool) (s : state) (j : Z) :
  In (Float_field (DoubleElem depthValue j)) (station_fields present rest s) <->
  rest = true /\ 0 <= j < Z.min (long_of numberOfLevels s) MAX_LEVELS /\
  long_of stationType s = 0.
Proof.
  unfold station_fields. split.
  - intros H.
    apply in_app_iff in H. destruct H as [H|H];
      [unfold station_size_fields in H; not_among|].
    apply in_app_iff in H. destruct H as [H|H];
      [unfold station_header_fields in H; not_among|].
    apply in_app_iff in H. destruct H as [H|H]; [not_among|].
    apply in_app_iff in H. destruct H as [H|H];
      [unfold secondary_header_fields in H; not_among|].
    destruct rest; [|destruct H]. split; [reflexivity|].
    unfold rest_of_station_fields in H. destruct H as [H|H]; [discriminate H|].
    apply in_flat_map in H. destruct H as (i & Hi & H).
    apply in_range in Hi. unfold level_fields in H.
    destruct H as [H|H]; [discriminate H|].
    apply in_app_iff in H. destruct H as [H|H].
    + destruct (Z.eqb_spec (long_of stationType s) 0) as [E|E]; [|destruct H].
      destruct H as [H|[]]. injection H as <-. unfold MAX_LEVELS in *. lia.
    + exfalso. apply in_map_iff in H. destruct H as (k' & H & _). discriminate H.
  - intros (-> & Hj & Ht). rewrite !in_app_iff. do 4 right.
    unfold rest_of_station_fields. right. apply in_flat_map.
    exists j. split; [apply in_range; unfold MAX_LEVELS in *; lia|].
    unfold level_fields. right. apply in_app_iff. left.
    rewrite Ht. left. reflexivity.
Qed.

(** ** Skipping ahead, and the station after it *)




(** The bottom depth of a station whose rest is read. *)
Lemma rest_read_bottomDepth (pf : platform) (a : arguments) (s s' : state)
    (st : status) (new : list step) :
  getOCLStationData pf a s = Ret st s' ->
  steps s' = steps s ++ new ->
  reads_rest_of_station new = true ->
  0 < long_of numberOfLevels s' <= MAX_LEVELS ->
  bottomDepthPtr (stnData s') <> None /\
  PrimFloat.ltb (bottomDepth pf s')
    (double_at depthValue (long_of numberOfLevels s' - 1) s') = false /\
  (is_NaN (bottomDepth pf s') = false ->
   is_NaN (double_at depthValue (long_of numberOfLevels s' - 1) s') = false ->
   PrimFloat.leb (double_at depthValue (long_of numberOfLevels s' - 1) s')
     (bottomDepth pf s') = true).
Proof.
  intros H Hnew Hr Hnl.
  assert (Hne : profile_levels new <> []).
  { destruct (getOCLStationData_profile pf a s s' st new H Hnew)
      as [(R & _) | (_ & _ & _ & _ & _ & _ & _ & _ & L & _)]; [congruence|].
    rewrite L. intros X. apply (f_equal (@List.length Z)) in X.
    rewrite range_length in X. cbn in X. unfold MAX_LEVELS in *. lia. }
  destruct (last_level_not_below pf a s s' st new H Hnew Hne (proj2 Hnl))
    as (Hlast & Hptr & Hlt & Hle).
  cbv zeta in Hlast, Hlt, Hle. rewrite Hlast in Hlt, Hle.
  split; [exact Hptr|]. split; [exact Hlt | exact Hle].
Qed.


(** ** The lines of the profile and the fields that were read *)

(** Where oclfilt prints the profile of a station within the capacity of
    the structure (the station is output and the profile was wanted),
    getOCLStationData has read the rest of the station: the levels whose
    fields it has read are those below the declared number and below
    MAX_LEVELS, each with a value for every variable and nothing for other
    variables.  If the station declares no more than MAX_LEVELS levels, a
    level gets a line if it is below the declared number and is not held
    back for a flag, and every level that gets a line was read, with a
    value for every variable.  If it declares more, no field was read of
    the levels from MAX_LEVELS on, and such a level gets a line all the
    same if the data with error flags are included, and also without that,
    if there is no variable list and the flag was clear before the
    station. *)
Theorem profile_lines_decoded (pf : platform) (o : options) (a : arguments)
    (s s' : state) (new : list step) (errorFlaggedDataExists : Z) :
  getOCLStationData pf a s = Ret SUCCESSFUL s' ->
  steps s' = steps s ++ new ->
  within_capacity s' = true ->
  truth (wantProfileFlag a) = true ->
  outputThisStation pf o a s' <> 0 ->
  let declared := long_of numberOfLevels s' in
  let lines := snd (fst (profile_lines o a s' errorFlaggedDataExists)) in
  reads_rest_of_station new = true /\
  (forall j, In (Level j) (fields new) <-> 0 <= j < Z.min declared MAX_LEVELS) /\
  (forall k j, In (Float_field (VarValue k j)) (fields new) <->
               0 <= j < Z.min declared MAX_LEVELS /\
               0 <= k < long_of numberOfVarCodes s') /\
  (forall j, In (Float_field (DoubleElem depthValue j)) (fields new) <->
             0 <= j < Z.min declared MAX_LEVELS /\ long_of stationType s' = 0) /\
  (declared <= MAX_LEVELS ->
   forall j,
     (In j lines <->
      0 <= j < declared /\ gets_line o a s' errorFlaggedDataExists j = true) /\
     (In j lines ->
      In (Level j) (fields new) /\
      forall k, 0 <= k < long_of numberOfVarCodes s' ->
                In (Float_field (VarValue k j)) (fields new))) /\
  (forall j, MAX_LEVELS <= j < declared ->
             ~ In (Level j) (fields new) /\
             (forall k, ~ In (Float_field (VarValue k j)) (fields new)) /\
             ~ In (Float_field (DoubleElem depthValue j)) (fields new) /\
             (truth (includeErrorFlaggedData o) = true -> In j lines) /\
             (truth (varListFlag a) = false ->
              truth errorFlaggedDataExists = false -> In j lines)).
Proof.
  intros H Hnew _ Hw Hout declared lines. subst declared.
  pose proof (getOCLStationData_flags pf a s s' H) as F.
  destruct (outputThisStation_flags pf o a s' F) as (E & _).
  assert (P : filters_pass s' = true).
  { destruct (filters_pass s'); [reflexivity|].
    rewrite andb_false_r in E. contradiction. }
  pose proof (proj1 (proj2 (rest_read_when pf a s s' new H Hnew)) P Hw) as R.
  destruct (getOCLStationData_fields pf a s s' new H Hnew)
    as (present & _ & _ & _ & Hf & _ & _).
  rewrite R in Hf.
  assert (Hlev : forall j, In (Level j) (fields new) <->
                           0 <= j < Z.min (long_of numberOfLevels s') MAX_LEVELS).
  { intros j. rewrite Hf, level_in_station_fields. tauto. }
  assert (Hval : forall k j, In (Float_field (VarValue k j)) (fields new) <->
                             0 <= j < Z.min (long_of numberOfLevels s') MAX_LEVELS /\
                             0 <= k < long_of numberOfVarCodes s').
  { intros k j. rewrite Hf, value_in_station_fields. tauto. }
  assert (Hdep : forall j, In (Float_field (DoubleElem depthValue j)) (fields new) <->
                           0 <= j < Z.min (long_of numberOfLevels s') MAX_LEVELS /\
                           long_of stationType s' = 0).
  { intros j. rewrite Hf, depth_in_station_fields. tauto. }
  assert (Hlines : forall j, In j lines <->
                             0 <= j < long_of numberOfLevels s' /\
                             gets_line o a s' errorFlaggedDataExists j = true).
  { intros j. unfold lines.
    rewrite (proj1 (profile_lines_filter o a s' errorFlaggedDataExists)).
    rewrite filter_In, in_range.
    split; intros (A & B); (split; [lia | exact B]). }
  split; [exact R|]. split; [exact Hlev|]. split; [exact Hval|].
  split; [exact Hdep|]. split.
  - intros Hmax j. split; [exact (Hlines j)|].
    intros Hj. apply Hlines in Hj. destruct Hj as (Hj & _).
    split; [apply Hlev; lia|]. intros k Hk. apply Hval. lia.
  - intros j Hj. assert (0 <= j) by (unfold MAX_LEVELS in Hj; lia).
    split; [intros X; apply Hlev in X; lia|].
    split; [intros k X; apply Hval in X; lia|].
    split; [intros X; apply Hdep in X; lia|].
    split.
    + intros Hi. apply Hlines. split; [lia|].
      unfold gets_line. rewrite Hi. apply orb_true_r.
    + intros Hv He. apply Hlines. split; [lia|].
      unfold gets_line, level_check. rewrite Hv, He. reflexivity.
Qed.

(** ** The bottom depth and the last level *)

(** In a run of getOCLStationData that reads the rest of a station within
    the capacity of the structure, with 1 to MAX_LEVELS levels, a bottom
    depth is selected at the end, and it does not compare less than the
    depth of the last level: "selected < last" of the doubles is false.
    Where neither of the two is a NaN this is "selected >= last". *)
Theorem bottomDepth_not_less_than_last_level (pf : platform) (a : arguments)
    (s s' : state) (st : status) (new : list step) :
  getOCLStationData pf a s = Ret st s' ->
  steps s' = steps s ++ new ->
  within_capacity s' = true ->
  reads_rest_of_station new = true ->
  0 < long_of numberOfLevels s' <= MAX_LEVELS ->
  bottomDepthPtr (stnData s') <> None /\
  PrimFloat.ltb (bottomDepth pf s')
    (double_at depthValue (long_of numberOfLevels s' - 1) s') = false /\
  (is_NaN (bottomDepth pf s') = false ->
   is_NaN (double_at depthValue (long_of numberOfLevels s' - 1) s') = false ->
   PrimFloat.leb (double_at depthValue (long_of numberOfLevels s' - 1) s')
     (bottomDepth pf s') = true).
Proof. intros H Hnew _. exact (rest_read_bottomDepth pf a s s' st new H Hnew). Qed.

(** ** Examples of the fields *)

(** A field of one digit broken by a line feed and a carriage return. *)
Definition broken_field : stream := ["1"; LF; "5"; CR; "X"]%char.

Lemma fields_through_line_terminators_witness :
  getIntDigits example_platform (content broken_field) 2 0 =
    on_rest content (getIntDigits example_platform broken_field 2 0) /\
  getVarlenIntField example_platform (content broken_field) 0 10 =
    on_rest content (getVarlenIntField example_platform broken_field 0 10) /\
  getVarlenFloatField example_platform (content broken_field) 0%float 10 =
    on_rest content
      (getVarlenFloatField example_platform broken_field 0%float 10).
Proof.
  apply (fields_through_line_terminators example_platform broken_field 2 0 10
           0%float).
  lia.
Defined.

Lemma getIntDigits_padded_number_witness :
  exists consumed rest,
    [SP; LF; "-"; "7"; "X"]%char = consumed ++ rest /\
    content consumed = [SP; "-"; "7"]%char /\
    getIntDigits example_platform [SP; LF; "-"; "7"; "X"]%char 3 0 =
      Read (SUCCESSFUL, -7) rest.
Proof.
  apply (getIntDigits_padded_number example_platform [SP; LF; "-"; "7"; "X"]%char
           3 0 [SP] ["7"%char] ["X"%char] true);
    [reflexivity | reflexivity | lia | reflexivity | discriminate | reflexivity].
Defined.

Lemma getVarlenIntField_missing_witness :
  exists consumed rest,
    ["-"; "1"; "2"]%char = consumed ++ rest /\ content consumed = ["-"%char] /\
    getVarlenIntField example_platform ["-"; "1"; "2"]%char 5 10 =
      Read (ZERO_LENGTH_FIELD, nan_as_long example_platform, 9) rest.
Proof.
  apply (getVarlenIntField_missing example_platform ["-"; "1"; "2"]%char 5 10
           "-"%char ["1"; "2"]%char);
    [reflexivity | right; split; reflexivity].
Defined.

Lemma getVarlenIntField_one_minus_witness :
  exists consumed rest,
    ["1"; "-"; "5"]%char = consumed ++ rest /\
    content consumed = ["1"; "-"]%char /\
    getVarlenIntField example_platform ["1"; "-"; "5"]%char 5 10 =
      Read (ZERO_LENGTH_FIELD, nan_as_long example_platform, 9) rest.
Proof.
  apply (getVarlenIntField_one_minus example_platform ["1"; "-"; "5"]%char 5 10
           ["5"%char]).
  reflexivity.
Defined.

Lemma getVarlenIntField_number_witness :
  exists consumed rest,
    ["3"; "1"; LF; "2"; "3"; "X"]%char = consumed ++ rest /\
    content consumed = ["3"; "1"; "2"; "3"]%char /\
    getVarlenIntField example_platform ["3"; "1"; LF; "2"; "3"; "X"]%char 0 (-1) =
      Read (SUCCESSFUL, 123, 123 - content_length consumed) rest.
Proof.
  apply (getVarlenIntField_number example_platform
           ["3"; "1"; LF; "2"; "3"; "X"]%char 0 (-1) "3"%char
           ["1"; "2"; "3"]%char ["X"%char]);
    [reflexivity | reflexivity | reflexivity | discriminate | reflexivity].
Defined.

Lemma getVarlenFloatField_number_witness :
  exists consumed rest,
    ["3"; "5"; "2"; "-"; "1"; "2"; "5"; "0"; "X"]%char = consumed ++ rest /\
    content consumed = ["3"; "5"; "2"; "-"; "1"; "2"; "5"; "0"]%char /\
    getVarlenFloatField example_platform
      ["3"; "5"; "2"; "-"; "1"; "2"; "5"; "0"; "X"]%char 0%float 20 =
      Read (SUCCESSFUL,
            PrimFloat.div (double_of_long (- decimal ["1"; "2"; "5"; "0"]%char))
              (pow example_platform 10%float (double_of_long 2)),
            20 - content_length consumed) rest.
Proof.
  apply (getVarlenFloatField_number example_platform
           ["3"; "5"; "2"; "-"; "1"; "2"; "5"; "0"; "X"]%char 0%float 20
           "3"%char "5"%char "2"%char true ["-"; "1"; "2"; "5"; "0"]%char
           ["1"; "2"; "5"; "0"]%char ["X"%char]);
    [reflexivity | reflexivity | reflexivity | reflexivity | reflexivity
     | reflexivity | discriminate | reflexivity].
Defined.

Lemma getVarlenFloatField_no_number_witness :
  is_NaN nan = true /\
  exists consumed rest,
    ["-"; "X"]%char = consumed ++ rest /\ content consumed = ["-"%char] /\
    getVarlenFloatField example_platform ["-"; "X"]%char 7%float 20 =
      Read (ZERO_LENGTH_FIELD, nan, 19) rest.
Proof.
  apply (getVarlenFloatField_no_number example_platform ["-"; "X"]%char 7%float 20
           "-"%char ["X"%char]);
    [reflexivity | reflexivity | intros X; discriminate X].
Defined.

Lemma getVarlenFloatField_no_digits_witness :
  exists consumed rest,
    ["1"; "0"; "2"; "X"]%char = consumed ++ rest /\
    content consumed = ["1"; "0"; "2"]%char /\
    getVarlenFloatField example_platform ["1"; "0"; "2"; "X"]%char 7%float 20 =
      Read (SUCCESSFUL,
            PrimFloat.div (double_of_long (nan_as_long example_platform))
              (pow example_platform 10%float (double_of_long 2)),
            17) rest.
Proof.
  apply (getVarlenFloatField_no_digits example_platform ["1"; "0"; "2"; "X"]%char
           7%float 20 "1"%char "2"%char ["X"%char]);
    [reflexivity | reflexivity | reflexivity].
Defined.

(** ** Examples of the check of the variable list *)

Lemma checkVarsInclAndNoErrors_distinct_witness :
  checkVarsInclAndNoErrors (fun j => j + 1) (fun k => k + 1) (fun _ => 0) 2 3 = 1 <->
  (forall j, 0 <= j < 2 -> exists k, 0 <= k < 3 /\ k + 1 = j + 1) /\
  (forall j k, 0 <= j < 2 -> 0 <= k < 3 -> k + 1 = j + 1 -> 0 = 0).
Proof.
  apply (checkVarsInclAndNoErrors_distinct (fun j => j + 1) (fun k => k + 1)
           (fun _ => 0) 2 3); intros; lia.
Defined.

Lemma checkVarsInclAndNoErrors_error_code_witness :
  checkVarsInclAndNoErrors (fun j => j + 1) (fun _ => 1) (fun _ => 4) 1 1 = 0.
Proof.
  apply (checkVarsInclAndNoErrors_error_code (fun j => j + 1) (fun _ => 1)
           (fun _ => 4) 1 1 0 0); [lia | lia | reflexivity | reflexivity].
Defined.

Lemma checkVarsInclAndNoErrors_covered_witness :
  checkVarsInclAndNoErrors (fun j => j + 1) (fun k => k + 1) (fun _ => 0) 2 3 = 1.
Proof.
  apply (checkVarsInclAndNoErrors_covered (fun j => j + 1) (fun k => k + 1)
           (fun _ => 0) 2 3).
  - intros j Hj. exists j. split; [lia | reflexivity].
  - intros j k Hj Hk E. lia.
Defined.

(** ** Examples of runs *)

Lemma returns_SUCCESSFUL (r : outcome status) (P : state -> bool) :
  holds r (fun st s => status_eqb st SUCCESSFUL && P s) = true ->
  exists s', r = Ret SUCCESSFUL s' /\ P s' = true.
Proof.
  intros H. apply holds_returns in H. destruct H as (st & s' & E & H).
  apply andb_prop in H. destruct H as (Hst & HP).
  exists s'. split; [|exact HP].
  destruct st; first [exact E | discriminate Hst].
Qed.

Lemma bathymetry_file_in_step_witness :
  exists st s',
    getOCLStationData example_platform skip_to_5 (start station1 one_bathy_line)
      = Ret st s' /\
    fp_dbBathy s' = [].
Proof.
  destruct (holds_returns
              (getOCLStationData example_platform skip_to_5
                 (start station1 one_bathy_line)) (fun _ _ => true))
    as (st & s' & E & _); [vm_compute; reflexivity|].
  exists st, s'. split; [exact E|].
  apply (bathymetry_file_in_step example_platform skip_to_5
           (start station1 one_bathy_line) s' st E).
Defined.

Lemma bottomDepth_source_witness :
  exists s',
    getOCLStationData example_platform plain_arguments (start station1 [])
      = Ret SUCCESSFUL s' /\
    bottomDepthPtr (stnData s') = Some (DoubleElem secHdrValue 0) /\
    bottomDepthSource (stnData s') = "h"%char /\
    0 <= 0 < long_of numberOfSecHdrEntries s' /\ long_at secHdrCode 0 s' = 10.
Proof.
  destruct (returns_SUCCESSFUL
              (getOCLStationData example_platform plain_arguments (start station1 []))
              (fun s' => within_capacity s'
                         && match bottomDepthPtr (stnData s') with
                            | Some (DoubleElem secHdrValue 0) => true
                            | _ => false
                            end))
    as (s' & E & H); [vm_compute; reflexivity|].
  apply andb_prop in H. destruct H as (C & H).
  pose proof (bottomDepth_source example_platform plain_arguments
                (start station1 []) s' E C) as T.
  exists s'. split; [exact E|]. clear E.
  destruct (bottomDepthPtr (stnData s')) as [[f | f j | j k |]|];
    try discriminate H.
  destruct f; try discriminate H. destruct j; try discriminate H.
  split; [reflexivity | exact T].
Defined.

(** The years 1980 to 1989. *)
Definition the_eighties : arguments :=
  {| stn := 0; wantProfileFlag := 1; skipFlag := 0; stnToSkipTo := 0;
     varListFlag := 0; varList := fun _ => 0; numVarsOnVarList := 0;
     minLevelsFlag := 0; minLevels := 0;
     latlonRegionFlag := 0; latlonRegion := fun _ => 0%float;
     yearRangeFlag := 1; yearRange := fun j => if j =? 0 then 1980 else 1989;
     monthRangeFlag := 0; monthRange := fun _ => 0;
     dbBathyFlag := 0; zeroLatLonFlag := 0; wmoSquare := [] |}.

Lemma filter_members_witness :
  exists s',
    getOCLStationData example_platform the_eighties (start station1 [])
      = Ret SUCCESSFUL s' /\
    long_of year s' = 1990 /\
    int_of yearInRange s' = 0 /\
    int_of varListChecksOut s' = 1 /\
    int_of badLatLon s' = 0.
Proof.
  destruct (returns_SUCCESSFUL
              (getOCLStationData example_platform the_eighties (start station1 []))
              (fun s' => within_capacity s' && (long_of year s' =? 1990)))
    as (s' & E & H); [vm_compute; reflexivity|].
  apply andb_prop in H. destruct H as (C & H).
  destruct (filter_members example_platform the_eighties (start station1 []) s' E C)
    as (F1 & _ & F3 & _ & _ & F6).
  exists s'. split; [exact E|]. clear E.
  apply Z.eqb_eq in H. split; [exact H|].
  unfold expected_yearInRange in F3. rewrite H in F3.
  split; [exact F3|]. split; [exact F1 | exact F6].
Defined.

Lemma rest_of_station_read_witness :
  exists s',
    getOCLStationData example_platform the_eighties (start station1 [])
      = Ret SUCCESSFUL s' /\
    filters_pass s' = false /\
    reads_rest_of_station (steps s') = false.
Proof.
  destruct (returns_SUCCESSFUL
              (getOCLStationData example_platform the_eighties (start station1 []))
              (fun s' => within_capacity s' && negb (filters_pass s')))
    as (s' & E & H); [vm_compute; reflexivity|].
  apply andb_prop in H. destruct H as (C & H).
  destruct (rest_of_station_read example_platform the_eighties (start station1 [])
              s' (steps s') E eq_refl C) as (R & _ & _).
  exists s'. split; [exact E|]. clear E.
  apply negb_true_iff in H. split; [exact H|].
  destruct (reads_rest_of_station (steps s')); [|reflexivity].
  rewrite (R eq_refl) in H. discriminate H.
Defined.

(** No option of oclfilt. *)
Definition no_options : options :=
  {| botDepthFiltFlag := 0; shallowerDLimit := 0%float; deeperDLimit := 0%float;
     endStatsFlag := 0; numStnsFlag := 0; numStnsToOutput := 0;
     queryFlag := 0; titlesFlag := 1; includeErrorFlaggedData := 0 |}.

Lemma station_output_witness :
  exists s',
    getOCLStationData example_platform the_eighties (start station1 [])
      = Ret SUCCESSFUL s' /\
    outputThisStation example_platform no_options the_eighties s' = 0.
Proof.
  destruct (returns_SUCCESSFUL
              (getOCLStationData example_platform the_eighties (start station1 []))
              (fun s' => within_capacity s'
                         && (long_of numberOfLevels s' <=? MAX_LEVELS)
                         && (long_of year s' =? 1990)))
    as (s' & E & H); [vm_compute; reflexivity|].
  apply andb_prop in H. destruct H as (C & H).
  apply andb_prop in C. destruct C as (C & L). apply Z.leb_le in L.
  pose proof (station_output example_platform no_options the_eighties
                (start station1 []) s' E C L) as T.
  exists s'. split; [exact E|]. clear E.
  apply Z.eqb_eq in H. rewrite T.
  assert (Y : truth (expected_yearInRange the_eighties s') = false)
    by (unfold expected_yearInRange; rewrite H; reflexivity).
  rewrite Y.
  match goal with
  | |- c_bool (?d && (?t1 && ?t2 && ?t3 && ?t4 && false && ?t6)) = 0 =>
      destruct d, t1, t2, t3, t4; reflexivity
  end.
Defined.

Lemma getOCLStationData_progress_witness :
  exists st s' consumed,
    getOCLStationData example_platform plain_arguments (start station1 [])
      = Ret st s' /\
    station1 = consumed ++ fp_in s' /\ 2 <= content_length consumed.
Proof.
  destruct (holds_returns
              (getOCLStationData example_platform plain_arguments (start station1 []))
              (fun _ _ => true))
    as (st & s' & E & _); [vm_compute; reflexivity|].
  destruct (getOCLStationData_progress example_platform plain_arguments
              (start station1 []) s' st E) as (consumed & Hc & Hl).
  exists st, s', consumed. split; [exact E|]. split; [exact Hc | exact Hl].
Defined.

Lemma blank_input_exits_witness :
  getOCLStationData example_platform plain_arguments (start [LF; LF] [])
  = Exit [unexpected_EOF].
Proof.
  apply (blank_input_exits example_platform plain_arguments (start [LF; LF] [])).
  reflexivity.
Defined.

(** A station of two standard levels, with one variable. *)
Definition station6 : stream :=
  list_ascii_of_string
    ("25315121319900615-" ++ "331123331456" ++ "12" ++ "1" ++ "01" ++ "110" ++ "0"
     ++ "0" ++ "0"
     ++ "221950" ++ "221900" ++ "
").

Lemma standard_level_depths_witness :
  exists s',
    getOCLStationData example_platform plain_arguments (start station6 [])
      = Ret SUCCESSFUL s' /\
    long_of numberOfLevels s' = 2 /\
    double_at depthValue 1 s' = 10%float.
Proof.
  destruct (returns_SUCCESSFUL
              (getOCLStationData example_platform plain_arguments (start station6 []))
              (fun s' => reads_rest_of_station (steps s')
                         && negb (long_of stationType s' =? 0)
                         && (long_of numberOfLevels s' =? 2)))
    as (s' & E & H); [vm_compute; reflexivity|].
  apply andb_prop in H. destruct H as (H & Hn).
  apply andb_prop in H. destruct H as (Hr & Ht).
  apply negb_true_iff in Ht. apply Z.eqb_neq in Ht. apply Z.eqb_eq in Hn.
  assert (Hj : 0 <= 1 < Z.min (long_of numberOfLevels s') MAX_LEVELS)
    by (rewrite Hn; unfold MAX_LEVELS; lia).
  destruct (standard_level_depths example_platform plain_arguments
              (start station6 []) s' (steps s') E eq_refl Hr Ht 1 Hj) as (D & _).
  exists s'. split; [exact E|]. split; [exact Hn | exact D].
Defined.

(** ** Examples of main *)








Lemma main_blank_input_witness :
  main example_platform no_options plain_arguments (start [] [])
  = Exited (Exit_in_getOCLStationData [unexpected_EOF]).
Proof.
  apply (main_blank_input example_platform no_options plain_arguments (start [] [])).
  reflexivity.
Defined.

(** ** Examples of the stations decoded *)



Lemma profile_lines_decoded_witness :
  exists s',
    getOCLStationData example_platform plain_arguments (start station1 [])
      = Ret SUCCESSFUL s' /\
    reads_rest_of_station (steps s') = true /\
    (forall j, In (Level j) (fields (steps s')) <-> 0 <= j < 2) /\
    (forall k j, In (Float_field (VarValue k j)) (fields (steps s')) <->
                 0 <= j < 2 /\ 0 <= k < 1) /\
    forall j, In j (snd (fst (profile_lines no_options plain_arguments s' 0))) ->
              In (Level j) (fields (steps s')) /\
              In (Float_field (VarValue 0 j)) (fields (steps s')).
Proof.
  destruct (returns_SUCCESSFUL
              (getOCLStationData example_platform plain_arguments (start station1 []))
              (fun s' => negb (outputThisStation example_platform no_options
                                 plain_arguments s' =? 0)
                         && within_capacity s'
                         && levels_eqb
                              [long_of numberOfLevels s'; long_of numberOfVarCodes s']
                              [2; 1]))
    as (s' & E & H); [vm_compute; reflexivity|].
  apply andb_prop in H. destruct H as (H & Hvals).
  apply andb_prop in H. destruct H as (Hout & Hcap).
  apply negb_true_iff in Hout. apply Z.eqb_neq in Hout.
  apply levels_eqb_eq in Hvals. injection Hvals as Hnl Hnv.
  destruct (profile_lines_decoded example_platform no_options plain_arguments
              (start station1 []) s' (steps s') 0 E eq_refl Hcap eq_refl Hout)
    as (R & Hlev & Hval & _ & L & _).
  exists s'. split; [exact E|]. clear E.
  rewrite Hnl, Hnv in *.
  split; [exact R|]. split; [exact Hlev|]. split; [exact Hval|].
  intros j Hj.
  destruct (proj2 (L ltac:(unfold MAX_LEVELS; lia) j) Hj) as (L1 & L2).
  split; [exact L1 | apply L2; lia].
Defined.

Lemma bottomDepth_not_less_than_last_level_witness :
  exists st s',
    getOCLStationData example_platform plain_arguments (start station1 []) = Ret st s' /\
    long_of numberOfLevels s' = 2 /\
    bottomDepthPtr (stnData s') <> None /\
    PrimFloat.ltb (bottomDepth example_platform s') (double_at depthValue 1 s') = false.
Proof.
  destruct (holds_returns
              (getOCLStationData example_platform plain_arguments (start station1 []))
              (fun _ s' => within_capacity s'
                           && reads_rest_of_station (steps s')
                           && (long_of numberOfLevels s' =? 2)))
    as (st & s' & E & H); [vm_compute; reflexivity|].
  apply andb_prop in H. destruct H as (H & Hnl).
  apply andb_prop in H. destruct H as (Hcap & Hr).
  apply Z.eqb_eq in Hnl.
  assert (Hlev : 0 < long_of numberOfLevels s' <= MAX_LEVELS)
    by (rewrite Hnl; unfold MAX_LEVELS; lia).
  destruct (bottomDepth_not_less_than_last_level example_platform plain_arguments
              (start station1 []) s' st (steps s') E eq_refl Hcap Hr Hlev)
    as (Hptr & Hlt & _).
  exists st, s'. split; [exact E|]. clear E.
  rewrite Hnl in Hlt.
  split; [exact Hnl|]. split; [exact Hptr | exact Hlt].
Defined.

(** ** A station that declares more levels than the structure holds *)

(** A station of 6060 content bytes that declares 999999999 observed
    levels, without a variable; its header has the bottom depth 400, and
    the depth of every level it holds is a missing value. *)
Definition station7 : stream :=
  (list_ascii_of_string
     ("46060" ++ "15121319900615-" ++ "331123331456" ++ "9999999999" ++ "0" ++ "00"
      ++ "0" ++ "17" ++ "11" ++ "210" ++ "330400" ++ "0")
   ++ repeat "-"%char (Z.to_nat 6000)
   ++ [LF])%list.

(** The start of a run on it, where the double that lies 999999998 places
    after the first element of depthValue holds 1000. *)
Definition far_from_depthValue : state :=
  store_double (DoubleElem depthValue 999999998) 1000%float (start station7 []).

(** C8.  A station that declares more than MAX_LEVELS levels makes
    getOCLStationData read a double far outside the station structure.  On
    the station above, which declares 999999999 levels, the run decodes
    6000 levels and prints the two lines of the diagnostic, and then it
    compares the bottom depth of the header, 400, with
    depthValue[999999998], which is no element of the array of 6000: as
    run here, where that place holds 1000, it returns SUCCESSFUL with the
    bottom depth pointing there, source 'p', and a bottom depth of 1000
    that is nowhere in the station. *)
Theorem levels_past_the_structure :
  exists s',
    getOCLStationData example_platform plain_arguments far_from_depthValue
      = Ret SUCCESSFUL s' /\
    long_of numberOfLevels s' = 999999999 /\
    Z.of_nat (List.length (profile_levels (steps s'))) = 6000 /\
    stderr s' = [numLevels_exceeds_MAX_LEVELS 0 999999999 6000;
                 botDepth_might_be_wrong] /\
    PrimFloat.eqb (double_at secHdrValue 0 s') 400%float = true /\
    bottomDepthPtr (stnData s') = Some (DoubleElem depthValue 999999998) /\
    bottomDepthSource (stnData s') = "p"%char /\
    PrimFloat.eqb (bottomDepth example_platform s') 1000%float = true /\
    MAX_LEVELS <= 999999998.
Proof.
  destruct (returns_SUCCESSFUL
              (getOCLStationData example_platform plain_arguments far_from_depthValue)
              (fun s' =>
                 reads_rest_of_station (steps s')
                 && (long_of numberOfLevels s' =? 999999999)
                 && PrimFloat.eqb (double_at secHdrValue 0 s') 400%float
                 && match bottomDepthPtr (stnData s') with
                    | Some (DoubleElem depthValue j) => j =? 999999998
                    | _ => false
                    end
                 && Ascii.eqb (bottomDepthSource (stnData s')) "p"%char
                 && PrimFloat.eqb (bottomDepth example_platform s') 1000%float))
    as (s' & E & H); [vm_compute; reflexivity|].
  apply andb_prop in H. destruct H as (H & Hbd).
  apply andb_prop in H. destruct H as (H & Hsrc).
  apply andb_prop in H. destruct H as (H & Hptr).
  apply andb_prop in H. destruct H as (H & Hhdr).
  apply andb_prop in H. destruct H as (Hr & Hnl).
  apply Z.eqb_eq in Hnl.
  destruct (getOCLStationData_profile example_platform plain_arguments
              far_from_depthValue s' SUCCESSFUL (steps s') E eq_refl)
    as [(R & _) | (_ & _ & _ & _ & _ & _ & _ & _ & L & S)]; [congruence|].
  exists s'. split; [exact E|]. clear E.
  rewrite Hnl in L, S.
  split; [exact Hnl|].
  split; [rewrite L, range_length; reflexivity|].
  split; [exact S|].
  split; [exact Hhdr|].
  split.
  { destruct (bottomDepthPtr (stnData s')) as [[f|arr j| |]|]; try discriminate Hptr.
    destruct arr; try discriminate Hptr.
    apply Z.eqb_eq in Hptr. rewrite Hptr. reflexivity. }
  split; [apply Ascii.eqb_eq; exact Hsrc|].
  split; [exact Hbd|].
  unfold MAX_LEVELS. lia.
Qed.
